(** * Semantic indexing pipeline for NYC 311 service requests

    A shallow embedding of the [project/] package: TF-IDF vectorization
    ([vectorization.py]), latent semantic indexing ([lsi.py]), KMeans
    clustering and the cluster report ([clustering.py]), the cosine
    similarity search ([similarity.py]), the artifact store
    ([persistence.py]) and the orchestration script ([main.py]).

    Conventions.
    - A float64 is a rational ([Q]); rounding is outside the model.  The two
      transcendental operations the pipeline needs, the natural logarithm of
      the idf weights and the square root of the L2 norms, are variables of
      the section [Pipeline], so every theorem holds whatever they compute.
    - A Python exception is a value of [exn]; code that can raise returns
      [exn + A], and code that also prints or touches files runs in the
      state-and-exception monad [M].
    - scikit-learn's numerical fits (randomized SVD, KMeans) and the plotting
      and HTML stages are variables of the section: their callers are
      embedded, they are not.
    - [np.argsort] is a variable of the section too, since NumPy leaves the
      order of equal values open; the theorems that rank assume that it
      sorts ([Np.sorts]). *)

From Stdlib Require Import ZArith QArith Lia Ascii String DecimalString.
From stdpp Require Import base option list sorting strings pretty gmap.

Local Open Scope Z_scope.
Local Open Scope nat_scope.

(** ** Python built-ins *)

Module Py.

(** The exceptions that the embedded code can meet. *)
Inductive exn : Type :=
| ValueError (msg : string)
| KeyError (key : string)
| IndexError
| ZeroDivisionError
| NotFittedError
| TypeError (msg : string)
| FileNotFoundError (path : string).

(** [l[:k]]: a negative bound counts from the end. *)
Definition slice_to {A} (l : list A) (k : Z) : list A :=
  if (k <? 0)%Z then take (length l - Z.to_nat (- k)) l
  else take (Z.to_nat k) l.

(** [range(n)] for a length. *)
Definition range (n : nat) : list nat := seq 0 n.

(** [os.path.join(a, b)]. *)
Definition path_join (a b : string) : string := a +:+ "/" +:+ b.

(** [s.endswith(suffix)]. *)
Definition endswith (s suffix : string) : bool :=
  let n := String.length s in
  let m := String.length suffix in
  (m <=? n) && String.eqb (substring (n - m) m s) suffix.

End Py.

(** ** NumPy *)

Module Np.

(** Insertion of index [i] in front of the first index whose key is not
    smaller. *)
Fixpoint insert_by (key : nat → Q) (i : nat) (l : list nat) : list nat :=
  match l with
  | [] => [i]
  | j :: l' =>
      if Qle_bool (key i) (key j) then i :: l else j :: insert_by key i l'
  end.

(** An argsort that keeps equal values in index order, as NumPy's
    introsort does on short arrays, which it finishes by insertion. *)
Definition argsort (a : list Q) : list nat :=
  foldr (insert_by (λ i, nth i a 0%Q)) [] (seq 0 (length a)).

(** What [np.argsort] promises for its default kind: the indices of the
    array, in ascending order of their values.  The order of equal values
    is left open, so the pipeline takes its argsort as a parameter with this
    contract. *)
Definition sorts (argsort : list Q → list nat) : Prop :=
  ∀ a, argsort a ≡ₚ seq 0 (length a) ∧
       StronglySorted (λ i j, (nth i a 0 <= nth j a 0)%Q) (argsort a).

(** Insertion into an ascending list of integers without duplicates. *)
Fixpoint insert_unique (x : Z) (l : list Z) : list Z :=
  match l with
  | [] => [x]
  | y :: l' =>
      if (x <? y)%Z then x :: l
      else if (x =? y)%Z then l
      else y :: insert_unique x l'
  end.

(** [a[mask]] for a boolean mask. *)
Fixpoint compress {A} (mask : list bool) (l : list A) : list A :=
  match mask, l with
  | b :: mask', x :: l' =>
      if b then x :: compress mask' l' else compress mask' l'
  | _, _ => []
  end.

(** [np.unique(a)]: the sorted distinct values. *)
Definition unique (a : list Z) : list Z := foldr insert_unique [] a.

End Np.

(** ** Text ([preprocessing.py] and the token pattern of [vectorization.py])

    A text is a string of code points below 256. *)

Module Text.

Definition code (c : ascii) : nat := nat_of_ascii c.

Definition between (lo hi : nat) (c : ascii) : bool :=
  (lo <=? code c) && (code c <=? hi).

(** [a-z]. *)
Definition is_lower (c : ascii) : bool := between 97 122 c.

(** What [\s], [str.strip] and [str.split] take for white space. *)
Definition is_space (c : ascii) : bool :=
  between 9 13 c || between 28 32 c || (code c =? 133) || (code c =? 160).

(** What [\w] matches: letters, digits and the underscore. *)
Definition is_word (c : ascii) : bool :=
  between 48 57 c || between 65 90 c || (code c =? 95) || between 97 122 c
  || (code c =? 170) || between 178 179 c || (code c =? 181)
  || between 185 186 c || between 188 190 c || between 192 214 c
  || between 216 246 c || between 248 255 c.

(** [str.lower] on one code point. *)
Definition lower_char (c : ascii) : ascii :=
  if between 65 90 c || between 192 214 c || between 216 222 c
  then ascii_of_nat (code c + 32) else c.

(** The maximal runs of characters satisfying [keep], in order; [cur] is
    the run being read, last character first. *)
Fixpoint runs (keep : ascii → bool) (s cur : list ascii) : list (list ascii) :=
  match s with
  | [] => match cur with [] => [] | _ => [rev cur] end
  | c :: s' =>
      if keep c then runs keep s' (c :: cur)
      else match cur with
           | [] => runs keep s' []
           | _ => rev cur :: runs keep s' []
           end
  end.

(** [re.sub(r'[^a-z\s]', ' ', text)]. *)
Definition sub_non_letters (s : list ascii) : list ascii :=
  map (λ c, if is_lower c || is_space c then c else " "%char) s.

(** [re.sub(r'\s+', ' ', text)]; [in_space] tells that the previous
    character was white space. *)
Fixpoint sub_spaces (s : list ascii) (in_space : bool) : list ascii :=
  match s with
  | [] => []
  | c :: s' =>
      if is_space c
      then (if in_space then sub_spaces s' true
            else " "%char :: sub_spaces s' true)
      else c :: sub_spaces s' false
  end.

Fixpoint lstrip (s : list ascii) : list ascii :=
  match s with
  | [] => []
  | c :: s' => if is_space c then lstrip s' else s
  end.

(** [text.strip()]. *)
Definition strip (s : list ascii) : list ascii :=
  rev (lstrip (rev (lstrip s))).

(** [text.split()]. *)
Definition split (s : list ascii) : list string :=
  map string_of_list_ascii (runs (λ c, negb (is_space c)) s []).

(** [' '.join(words)]. *)
Definition join (words : list string) : string := String.concat " " words.

(** [re.compile(r'\b[a-z]+\b').findall]: a word boundary lies only at the
    two ends of a maximal run of word characters, so a match is such a run
    made of lower-case letters only. *)
Definition findall_words (s : string) : list string :=
  map string_of_list_ascii
    (filter (λ w, forallb is_lower w = true)
       (runs is_word (list_ascii_of_string s) [])).

End Text.

(** ** pandas *)

(** What a cell of a data frame holds. *)
Inductive cell : Type :=
| CStr (s : string)
| CInt (z : Z)
| CFloat (q : Q)
| CNaN.

Module Pd.

(** A frame with a default integer index: its columns in order, each as
    long as the frame. *)
Record DataFrame : Type := mkDataFrame {
  nrows : nat;
  columns : list (string * list cell)
}.

Fixpoint lookup_column (name : string) (cols : list (string * list cell))
  : option (list cell) :=
  match cols with
  | [] => None
  | (n, v) :: cols' =>
      if String.eqb n name then Some v else lookup_column name cols'
  end.

(** [name in df.columns]. *)
Definition has_column (df : DataFrame) (name : string) : bool :=
  match lookup_column name (columns df) with Some _ => true | None => false end.

(** [df[name]]. *)
Definition getitem (df : DataFrame) (name : string) : Py.exn + list cell :=
  match lookup_column name (columns df) with
  | Some v => inr v
  | None => inl (Py.KeyError name)
  end.

Fixpoint set_column (name : string) (v : list cell)
    (cols : list (string * list cell)) : list (string * list cell) :=
  match cols with
  | [] => [(name, v)]
  | (n, w) :: cols' =>
      if String.eqb n name then (n, v) :: cols'
      else (n, w) :: set_column name v cols'
  end.

(** The frame after [df[name] = values]: the column is replaced where it
    stands or added last; pandas refuses values of another length. *)
Definition setitem (df : DataFrame) (name : string) (values : list cell)
  : Py.exn + DataFrame :=
  if length values =? nrows df
  then inr (mkDataFrame (nrows df) (set_column name values (columns df)))
  else inl (Py.ValueError "Length of values does not match length of index").

(** [df.iloc[idx][name]]. *)
Definition iloc (df : DataFrame) (idx : nat) (name : string) : Py.exn + cell :=
  if idx <? nrows df then
    match lookup_column name (columns df) with
    | Some v => match v !! idx with
                | Some c => inr c
                | None => inl Py.IndexError
                end
    | None => inl (Py.KeyError name)
    end
  else inl Py.IndexError.

(** [df[mask]] for a boolean mask as long as the frame. *)
Definition filter_rows (df : DataFrame) (mask : list bool) : DataFrame :=
  mkDataFrame (length (filter (λ b, b = true) mask))
    (map (λ '(n, v), (n, Np.compress mask v)) (columns df)).

(** [df.head(n)]. *)
Definition head (df : DataFrame) (n : Z) : DataFrame :=
  mkDataFrame (length (Py.slice_to (seq 0 (nrows df)) n))
    (map (λ '(n', v), (n', Py.slice_to v n)) (columns df)).

(** [pd.notna(x)]. *)
Definition notna (c : cell) : bool :=
  match c with CNaN => false | _ => true end.

(** The integer that the text of a cell spells, if it spells one. *)
Definition integer_literal (c : cell) : option Z :=
  match c with
  | CInt z => Some z
  | CStr s => Z.of_int <$> NilEmpty.int_of_string s
  | _ => None
  end.

(** What [pd.read_csv] infers for a column from its text, as far as
    integers go: a column all of whose fields spell integers comes back
    as integers; any other column is taken to come back as it was. *)
Definition reread_column (v : list cell) : list cell :=
  match mapM integer_literal v with
  | Some zs => map CInt zs
  | None => v
  end.

Definition reread_integers (df : DataFrame) : DataFrame :=
  mkDataFrame (nrows df) (map (λ '(n, v), (n, reread_column v)) (columns df)).

End Pd.

(** ** Vectors and matrices *)

(** A [scipy.sparse] matrix in CSR form: its shape and, for every row, the
    stored entries by column. *)
Record csr_matrix : Type := mkCsr {
  csr_shape : nat * nat;
  csr_rows : list (gmap nat Q)
}.

(** A two-dimensional [numpy] array. *)
Record ndarray : Type := mkArray {
  shape : nat * nat;
  data : list (list Q)
}.

Module La.

Definition dot (u v : list Q) : Q := foldr Qplus 0%Q (zip_with Qmult u v).

Definition sum_squares (v : list Q) : Q :=
  foldr (λ x acc, (x * x + acc)%Q) 0%Q v.

(** A sparse row against a dense vector. *)
Definition sparse_dot (row : gmap nat Q) (v : list Q) : Q :=
  foldr (λ jx acc, (jx.2 * nth jx.1 v 0 + acc)%Q) 0%Q (map_to_list row).

Definition sparse_sum_squares (row : gmap nat Q) : Q :=
  foldr (λ jx acc, (jx.2 * jx.2 + acc)%Q) 0%Q (map_to_list row).

(** [np.finfo(np.float64).eps]. *)
Definition eps : Q := 1 # 4503599627370496.

(** [X.mean(axis=0)] of the rows of a sparse matrix with [n] columns:
    scipy scales by [1.0 / X.shape[0]], a division by zero when there is
    no row. *)
Definition mean_axis0 (n : nat) (rows : list (gmap nat Q)) : Py.exn + list Q :=
  match rows with
  | [] => inl Py.ZeroDivisionError
  | _ =>
      let scale := (1 / inject_Z (Z.of_nat (length rows)))%Q in
      inr (map (λ j, foldr (λ r acc, (default 0%Q (r !! j) * scale + acc)%Q)
                       0%Q rows)
             (seq 0 n))
  end.

End La.

(** ** The results monad *)

Definition bindR {A B} (c : Py.exn + A) (k : A → Py.exn + B) : Py.exn + B :=
  match c with
  | inl e => inl e
  | inr a => k a
  end.

Notation "'let?' x ':=' c 'in' k" := (bindR c (λ x, k))
  (at level 10, x pattern, c at level 100, k at level 200, only parsing).

(** [[f(x) for x in l]] where [f] can raise. *)
Fixpoint mapR {A B} (f : A → Py.exn + B) (l : list A) : Py.exn + list B :=
  match l with
  | [] => inr []
  | x :: l' => let? y := f x in let? ys := mapR f l' in inr (y :: ys)
  end.

(** ** scikit-learn estimators, as their callers configure them *)

(** [TfidfVectorizer(max_features, min_df, lowercase=False,
    token_pattern=r'\b[a-z]+\b', ngram_range=(1, 1))]; the vocabulary and
    the idf weights are absent until the vectorizer is fitted. *)
Record TfidfVectorizer : Type := mkTfidf {
  max_features : Z;
  min_df : Z;
  vocabulary_ : option (gmap string nat);
  idf_ : list Q
}.

(** [TruncatedSVD(n_components, random_state, algorithm, n_iter)]. *)
Record TruncatedSVD : Type := mkSVD {
  n_components : Z;
  svd_random_state : option Z;
  algorithm : string;
  n_iter : Z;
  components_ : option (list (list Q));
  n_features_in_ : nat
}.

(** [KMeans(n_clusters, random_state, n_init, max_iter)]. *)
Record KMeans : Type := mkKMeans {
  n_clusters : Z;
  km_random_state : option Z;
  n_init : Z;
  max_iter : Z;
  cluster_centers_ : option (list (list Q))
}.

(** The order of Python strings. *)
Definition str_le (s t : string) : Prop := String.leb s t = true.

Global Instance str_le_dec s t : Decision (str_le s t).
Proof. unfold str_le. apply _. Defined.

(** The order of the entries of a vocabulary by column. *)
Definition by_column (a b : string * nat) : Prop := a.2 ≤ b.2.

Global Instance by_column_dec a b : Decision (by_column a b).
Proof. unfold by_column. apply _. Defined.

Module Tfidf.

(** The analyzer built from the configuration of
    [create_tfidf_vectorizer]: no lower-casing, no stop words, unigrams of
    the token pattern. *)
Definition analyze (doc : string) : list string := Text.findall_words doc.

(** In how many documents a term occurs. *)
Definition doc_freq (docs : list (list string)) (t : string) : nat :=
  length (filter (λ toks, t ∈ toks) docs).

(** How often a term occurs in the corpus. *)
Definition term_freq (docs : list (list string)) (t : string) : nat :=
  sum_list (map (λ toks, length (filter (λ u, u = t) toks)) docs).

(** The distinct terms of the corpus in alphabetical order (the feature
    order once [_sort_features] has run). *)
Definition sorted_terms (docs : list (list string)) : list string :=
  merge_sort str_le (remove_dups (concat docs)).

(** [_limit_features]: the terms whose document frequency reaches
    [min_df]; when more than [limit] remain, the [limit] most frequent of
    them, [(-tfs[mask]).argsort()[:limit]], still in alphabetical order. *)
Definition limit_features (argsort : list Q → list nat)
    (docs : list (list string)) (low limit : Z)
    (terms : list string) : list string :=
  let masked := filter (λ t, (low ≤ Z.of_nat (doc_freq docs t))%Z) terms in
  if (limit <? Z.of_nat (length masked))%Z then
    let tfs := map (λ t, inject_Z (- Z.of_nat (term_freq docs t))) masked in
    let mask_inds := Py.slice_to (argsort tfs) limit in
    (filter (λ it, it.1 ∈ mask_inds) (imap (λ i t, (i, t)) masked)).*2
  else masked.

(** Term to column, columns in the order of the kept terms. *)
Definition make_vocabulary (kept : list string) : gmap string nat :=
  list_to_map (zip kept (seq 0 (length kept))).

(** The counts of one document by column, as [_count_vocab] gathers them
    under a fixed vocabulary: a token without a column is passed over. *)
Definition count_row (V : gmap string nat) (toks : list string) : gmap nat nat :=
  foldr (λ t m, match V !! t with
                | Some j => <[j := S (default 0 (m !! j))]> m
                | None => m
                end) ∅ toks.

End Tfidf.

(** ** Reports and artifacts *)

(** One entry of the list returned by [find_similar_incidents]; a key that
    the source adds only when the frame has the column is optional. *)
Record incident : Type := mkIncident {
  index : nat;
  similarity : Q;
  combined_text : cell;
  complaint_type : cell;
  descriptor : cell;
  unique_key : option string;
  created_date : option string;
  incident_address : option string;
  street_name : option string;
  incident_zip : option string;
  borough : option string;
  city : option string
}.

(** One value of the dictionary returned by [analyze_clusters]. *)
Record cluster_report : Type := mkClusterReport {
  cluster_size : nat;
  cluster_examples : list (cell * cell * cell);
  cluster_top_terms : list (string * Q)
}.

(** [config] and [dataset_info] as [main] builds them. *)
Record config_t : Type := mkConfigDict {
  cfg_max_features : Z;
  cfg_min_df : Z;
  cfg_lsi_components : Z;
  cfg_n_clusters : Z;
  cfg_random_state : option Z
}.

Record dataset_info_t : Type := mkDatasetInfo {
  total_records : nat;
  n_features_tfidf : nat;
  n_components_lsi : nat;
  info_n_clusters : Z;
  vocabulary_size : nat
}.

(** The dictionary that [save_metadata] dumps. *)
Record metadata : Type := mkMetadata {
  pipeline_version : string;
  timestamp : string;
  md_dataset_info : dataset_info_t;
  md_configuration : config_t;
  file_paths : list (string * string)
}.

(** What [pickle.dump] is given in this package. *)
Inductive pickled : Type :=
| PVectorizer (v : TfidfVectorizer)
| PSvd (m : TruncatedSVD)
| PKMeans (k : KMeans)
| PLegacy (v : TfidfVectorizer) (m : TruncatedSVD) (a : ndarray) (df : Pd.DataFrame).

(** A file by the writer that produced it.  [pickle], [np.save] and
    [sparse.save_npz] store their argument exactly; a CSV file holds the
    frame that [to_csv(index=False)] was called on, and what [pd.read_csv]
    makes of it is the variable [read_csv_infer] of the section. *)
Inductive file : Type :=
| FPickle (o : pickled)
| FNpy (a : ndarray)
| FNpz (m : csr_matrix)
| FCsv (df : Pd.DataFrame)
| FJson (m : metadata)
| FText (content : string).

(** The objects that [analyze_clusters] is handed by reference. *)
Inductive pyobj : Type :=
| ODataFrame (df : Pd.DataFrame)
| OLabels (labels : list Z)
| OCsr (m : csr_matrix)
| OVectorizer (v : TfidfVectorizer).

(** The constants at the head of [main]. *)
Record Config : Type := mkConfig {
  CSV_PATH : string;
  N_COMPONENTS : Z;
  N_CLUSTERS : Z;
  MAX_FEATURES : Z;
  MIN_DF : Z;
  RANDOM_STATE : option Z
}.

Definition default_config : Config :=
  mkConfig "dataset.csv" 150 7 5000 2 (Some 42%Z).

(** [persistence.py], lines 13-19. *)
Definition OUTPUT_DIR : string := "output".
Definition EMBEDDINGS_DIR : string := Py.path_join OUTPUT_DIR "embeddings".
Definition DATA_DIR : string := Py.path_join OUTPUT_DIR "data".
Definition MODELS_DIR : string := Py.path_join OUTPUT_DIR "models".
Definition VISUALIZATIONS_DIR : string := Py.path_join OUTPUT_DIR "visualizations".
Definition REPORTS_DIR : string := Py.path_join OUTPUT_DIR "reports".

(** ** Location statistics ([similarity.py], lines 84-137) *)

(** The dictionary returned by [analyze_locations]; a dictionary of counts
    is the list of its items in insertion order. *)
Record location_stats : Type := mkLocationStats {
  total : nat;
  borough_counts : list (string * nat);
  street_counts : list (string * nat);
  zip_counts : list (string * nat)
}.

Module Locations.

(** [counts[key] = counts.get(key, 0) + 1]. *)
Fixpoint count_key (key : string) (counts : list (string * nat))
  : list (string * nat) :=
  match counts with
  | [] => [(key, 1)]
  | (k, n) :: rest =>
      if String.eqb k key then (k, S n) :: rest else (k, n) :: count_key key rest
  end.

(** The value that [if 'f' in result and result['f']] lets through: the
    key is there and its string is not empty. *)
Definition present (field : option string) : option string :=
  match field with
  | Some s => if String.eqb s "" then None else Some s
  | None => None
  end.

(** The counts of one field over the results, in one pass. *)
Definition count_field (field : incident → option string)
    (results : list incident) : list (string * nat) :=
  foldl (λ counts result,
           match present (field result) with
           | Some key => count_key key counts
           | None => counts
           end) [] results.

(** Insertion behind the items of a larger count, before the others. *)
Fixpoint insert_desc (x : string * nat) (l : list (string * nat))
  : list (string * nat) :=
  match l with
  | [] => [x]
  | y :: l' => if x.2 <? y.2 then y :: insert_desc x l' else x :: l
  end.

(** [sorted(counts.items(), key=lambda x: x[1], reverse=True)]: by
    decreasing count, items of equal count in their order of insertion. *)
Definition sorted_by_count (items : list (string * nat)) : list (string * nat) :=
  foldr insert_desc [] items.

End Locations.

Definition analyze_locations (results : list incident) (top_n : Z)
  : location_stats :=
  match results with
  | [] => mkLocationStats 0 [] [] []
  | _ =>
      let borough_counts := Locations.count_field borough results in
      let street_counts := Locations.count_field street_name results in
      let zip_counts := Locations.count_field incident_zip results in
      let sorted_streets :=
        Py.slice_to (Locations.sorted_by_count street_counts) top_n in
      let sorted_zips :=
        Py.slice_to (Locations.sorted_by_count zip_counts) top_n in
      mkLocationStats (length results) borough_counts sorted_streets sorted_zips
  end.

(** ** A small instance

    Stand-ins for the parameters of the section [Pipeline] and a handful of
    inputs, on which the theorems below are run. *)

Module Example.

(** A rational approximation of the logarithm, exact at 1. *)
Definition ln (q : Q) : Q := (2 * (q - 1) / (q + 1))%Q.

(** The square root, exact on the squares of rationals. *)
Definition sqrt (q : Q) : Q :=
  let r := Qred q in
  (inject_Z (Z.sqrt (Qnum r)) / inject_Z (Z.sqrt (Zpos (Qden r))))%Q.

Definition float_repr (q : Q) : string :=
  pretty (Qnum q) +:+ "/" +:+ pretty (Zpos (Qden q)).

(** A few of the English stop words. *)
Definition STOP_WORDS : gset string :=
  list_to_set ["i"; "me"; "my"; "the"; "a"; "an"; "and"; "of"; "in"; "on";
               "to"; "is"; "no"; "not"].

(** A generator that is its seed. *)
Definition RandomState (seed : Z) : Z := seed.

(** The [n]-th unit vector of length [len]. *)
Definition unit_vector (len n : nat) : list Q :=
  map (λ j, if j =? n then 1%Q else 0%Q) (seq 0 len).

(** A projector on the first columns: [n_components] of them, refused
    outside [[1, n_features]], or as many as the matrix has rows when
    that is fewer. *)
Definition TruncatedSVD_fit_transform (m : TruncatedSVD) (X : csr_matrix)
    (g : Z) : (Py.exn + (ndarray * TruncatedSVD)) * Z :=
  if (n_components m <? 1)%Z || ((csr_shape X).2 <? Z.to_nat (n_components m))
  then (inl (Py.ValueError "n_components must be in [1, n_features]"), g)
  else
    let k := Z.to_nat (n_components m)
               `min` ((csr_shape X).1 `min` (csr_shape X).2) in
    let comps := map (unit_vector (csr_shape X).2) (seq 0 k) in
    (inr (mkArray ((csr_shape X).1, k)
            (map (λ row, map (La.sparse_dot row) comps) (csr_rows X)),
          mkSVD (n_components m) (svd_random_state m) (algorithm m) (n_iter m)
            (Some comps) (csr_shape X).2),
     (g + 1)%Z).

(** A clustering that puts every sample in cluster 0. *)
Definition KMeans_fit_predict (m : KMeans) (X : ndarray) (g : Z)
  : (Py.exn + (list Z * KMeans)) * Z :=
  (inr (map (λ _, 0%Z) (data X),
        mkKMeans (n_clusters m) (km_random_state m) (n_init m) (max_iter m)
          (Some [map (λ _, 0%Q) (seq 0 (shape X).2)])),
   (g + 1)%Z).

(** The file itself as the loaded data. *)
Definition load_data (path : string) (files : gmap string file)
  : Py.exn + Pd.DataFrame :=
  match files !! path with
  | Some (FCsv df) => inr df
  | _ => inl (Py.FileNotFoundError path)
  end.

(** The first two latent dimensions for every sample. *)
Definition reduce_to_2d (lsi_vectors : ndarray) (method : string)
    (random_state : option Z) (max_samples : Z) (g : Z)
  : (Py.exn + (ndarray * list nat)) * Z :=
  (inr (mkArray ((shape lsi_vectors).1, 2) (map (take 2) (data lsi_vectors)),
        seq 0 (shape lsi_vectors).1), g).

Definition render_plot (coordinates_2d : ndarray) (cluster_labels : list Z)
    (sample_indices : list nat) : Py.exn + string := inr "PNG".

Definition render_html (cluster_analysis : list (nat * cluster_report))
    (df : Pd.DataFrame) (cluster_labels : list Z) (cluster_viz_path : string)
    (similarity_results : list (string * list incident)) : Py.exn + string :=
  inr "<html></html>".

(** Four complaints, two kinds. *)
Definition complaints : Pd.DataFrame :=
  Pd.mkDataFrame 4
    [("Unique Key", [CInt 101; CInt 102; CInt 103; CInt 104]);
     ("Complaint Type", [CStr "Noise"; CStr "Noise"; CStr "Noise"; CStr "Noise"]);
     ("Descriptor", [CStr "Residential"; CStr "Residential"; CStr "Street";
                     CStr "Street"]);
     ("combined_text", [CStr "Noise - Residential"; CStr "Noise - Residential";
                        CStr "Noise - Street"; CStr "Noise - Street"])].

(** Two complaints without a word in common. *)
Definition unrelated : Pd.DataFrame :=
  Pd.mkDataFrame 2
    [("Complaint Type", [CStr "Noise"; CStr "Parking"]);
     ("Descriptor", [CStr "Residential"; CStr "Driveway"]);
     ("combined_text", [CStr "Noise - Residential"; CStr "Parking - Driveway"])].

(** Three one-word complaints, the first two alike, with their zip codes
    held as text. *)
Definition incidents : Pd.DataFrame :=
  Pd.mkDataFrame 3
    [("Complaint Type", [CStr "Noise"; CStr "Noise"; CStr "Parking"]);
     ("Descriptor", [CStr "Loud"; CStr "Loud"; CStr "Blocked"]);
     ("combined_text", [CStr "noise"; CStr "noise"; CStr "parking"]);
     ("Incident Zip", [CStr "00083"; CStr "10001"; CStr "10002"])].

(** Three reports in eight words, the first two alike. *)
Definition reports : Pd.DataFrame :=
  Pd.mkDataFrame 3
    [("Complaint Type", [CStr "Water"; CStr "Water"; CStr "Water"]);
     ("Descriptor", [CStr "Leak"; CStr "Leak"; CStr "Leak"]);
     ("combined_text",
      [CStr "water leak basement pipe broken street flooding sewer";
       CStr "water leak basement pipe broken street flooding sewer";
       CStr "water leak"])].


(** A fitted vectorizer: the vocabulary of ["noise"; "noise"; "parking"]
    with unit idf weights. *)
Definition vectorizer : TfidfVectorizer :=
  mkTfidf 5000 1 (Some (Tfidf.make_vocabulary ["noise"; "parking"])) [1%Q; 1%Q].

(** A projector of the two columns on the first. *)
Definition projector : TruncatedSVD :=
  mkSVD 1 (Some 42%Z) "randomized" 5 (Some [[1%Q; 0%Q]]) 2.

Definition latent : ndarray := mkArray (3, 1) [[1%Q]; [1%Q]; [0%Q]].

Definition kmeans : KMeans := mkKMeans 2 (Some 42%Z) 10 300 (Some [[1%Q]; [0%Q]]).

Definition tfidf : csr_matrix :=
  mkCsr (3, 2) [{[0 := 1%Q]}; {[0 := 1%Q]}; {[1 := 1%Q]}].

(** Four search results, three of them with a street, two with a zip
    code. *)
Definition found : list incident :=
  [mkIncident 0 1 (CStr "noise") (CStr "Noise") (CStr "Loud") None None
     (Some "1 MAIN ST") (Some "MAIN ST") (Some "10001") (Some "QUEENS") None;
   mkIncident 1 1 (CStr "noise") (CStr "Noise") (CStr "Loud") None None
     (Some "") (Some "BROADWAY") (Some "") (Some "BRONX") None;
   mkIncident 2 0 (CStr "parking") (CStr "Parking") (CStr "Blocked") None None
     (Some "9 MAIN ST") (Some "MAIN ST") (Some "10001") (Some "QUEENS") None;
   mkIncident 3 0 (CStr "parking") (CStr "Parking") (CStr "Blocked") None None
     None None None None None].

End Example.

(** * The pipeline *)

Section Pipeline.

(** The float operations that have no rational counterpart. *)
Variable ln : Q → Q.
Variable sqrt : Q → Q.
(** [str] of a float. *)
Variable float_repr : Q → string.
(** [set(stopwords.words('english'))]. *)
Variable STOP_WORDS : gset string.
(** [np.argsort] with its default kind. *)
Variable argsort : list Q → list nat.

(** The state of a NumPy generator and [np.random.RandomState(seed)]. *)
Variable rng : Type.
Variable RandomState : Z → rng.

(** The two numerical fits of scikit-learn: from the configured estimator,
    the data and the generator they draw from, the transformed data (or
    the labels) and the fitted estimator, with the generator as they
    leave it. *)
Variable TruncatedSVD_fit_transform :
  TruncatedSVD → csr_matrix → rng → (Py.exn + (ndarray * TruncatedSVD)) * rng.
Variable KMeans_fit_predict :
  KMeans → ndarray → rng → (Py.exn + (list Z * KMeans)) * rng.

(** The frame that [pd.read_csv] infers from the text written for a
    frame. *)
Variable read_csv_infer : Pd.DataFrame → Pd.DataFrame.

(** Stages outside the core: ingestion ([data_loading.py]), the 2-D
    projection and the plot ([visualization.py]) and the HTML report
    ([reporting.py]). *)
Variable load_data : string → gmap string file → Py.exn + Pd.DataFrame.
Variable reduce_to_2d :
  ndarray → string → option Z → Z → rng → (Py.exn + (ndarray * list nat)) * rng.
Variable render_plot : ndarray → list Z → list nat → Py.exn + string.
Variable render_html :
  list (nat * cluster_report) → Pd.DataFrame → list Z → string →
  list (string * list incident) → Py.exn + string.

(** ** The process state and its monad *)

(** Objects held by reference, the files under the working directory (a
    write succeeds whatever the path: directories are not modelled), the
    lines printed, the global NumPy generator and the wall clock. *)
Record world : Type := mkWorld {
  heap : gmap nat pyobj;
  fs : gmap string file;
  stdout : list string;
  np_random : rng;
  clock : string
}.

Definition M (A : Type) : Type := world → (Py.exn + A) * world.

Definition ret {A} (a : A) : M A := λ w, (inr a, w).

Definition bind {A B} (c : M A) (k : A → M B) : M B :=
  λ w, match c w with
       | (inl e, w') => (inl e, w')
       | (inr a, w') => k a w'
       end.

Definition lift {A} (r : Py.exn + A) : M A := λ w, (r, w).

Notation "'let*' x ':=' c 'in' k" := (bind c (λ x, k))
  (at level 10, x pattern, c at level 100, k at level 200, only parsing).

Definition set_heap (h : gmap nat pyobj) (w : world) : world :=
  mkWorld h (fs w) (stdout w) (np_random w) (clock w).
Definition set_fs (f : gmap string file) (w : world) : world :=
  mkWorld (heap w) f (stdout w) (np_random w) (clock w).
Definition set_stdout (o : list string) (w : world) : world :=
  mkWorld (heap w) (fs w) o (np_random w) (clock w).
Definition set_np_random (g : rng) (w : world) : world :=
  mkWorld (heap w) (fs w) (stdout w) g (clock w).

(** Of what the code prints, the model keeps the stage banners of [main]
    and the lines that report a problem; progress lines that echo shapes,
    counts and scores are left out. *)
Definition print (line : string) : M unit :=
  λ w, (inr tt, set_stdout (stdout w ++ [line]) w).

(** Writing and reading files. *)
Definition write_file (path : string) (f : file) : M unit :=
  λ w, (inr tt, set_fs (<[path := f]> (fs w)) w).

Definition read_file (path : string) : M file :=
  λ w, match fs w !! path with
       | Some f => (inr f, w)
       | None => (inl (Py.FileNotFoundError path), w)
       end.

(** [os.path.exists(path)]. *)
Definition path_exists (path : string) : M bool :=
  λ w, (inr (bool_decide (is_Some (fs w !! path))), w).

(** A new object and its reference. *)
Definition new (o : pyobj) : M nat :=
  λ w, let l := fresh (dom (heap w)) in (inr l, set_heap (<[l := o]> (heap w)) w).

Definition deref (l : nat) : M pyobj :=
  λ w, match heap w !! l with
       | Some o => (inr o, w)
       | None => (inl (Py.ValueError "dangling reference"), w)
       end.

Definition assign (l : nat) (o : pyobj) : M unit :=
  λ w, (inr tt, set_heap (<[l := o]> (heap w)) w).

(** The estimator draws from its own generator when it is given a seed
    and from the global one, which it advances, otherwise
    ([check_random_state]). *)
Definition with_random_state {A} (seed : option Z)
    (fit : rng → (Py.exn + A) * rng) : M A :=
  λ w, match seed with
       | Some s => ((fit (RandomState s)).1, w)
       | None => let r := fit (np_random w) in (r.1, set_np_random r.2 w)
       end.

(** ** [preprocessing.py] *)

(** [str(x)]. *)
Definition py_str (c : cell) : string :=
  match c with
  | CStr s => s
  | CInt z => pretty z
  | CFloat q => float_repr q
  | CNaN => "nan"
  end.

Definition preprocess_text (text : cell) : string :=
  let text := py_str text in
  let text := map Text.lower_char (list_ascii_of_string text) in
  let text := Text.sub_non_letters text in
  let text := Text.sub_spaces text false in
  let text := Text.strip text in
  let words := Text.split text in
  let words := filter (λ word, word ∉ STOP_WORDS) words in
  Text.join words.

Definition preprocess_dataframe (df : Pd.DataFrame) (text_column : string)
  : Py.exn + Pd.DataFrame :=
  let? column := Pd.getitem df text_column in
  Pd.setitem df "preprocessed_text" (map (λ c, CStr (preprocess_text c)) column).

(** ** [vectorization.py] *)

Definition create_tfidf_vectorizer (max_features min_df : Z) : TfidfVectorizer :=
  mkTfidf max_features min_df None [].

(** The smoothed inverse document frequency. *)
Definition idf (n_doc df : nat) : Q :=
  (ln ((1 + inject_Z (Z.of_nat n_doc)) / (1 + inject_Z (Z.of_nat df))) + 1)%Q.

(** One row of the matrix: counts by column, weighted by idf, scaled to
    unit L2 norm unless it is null. *)
Definition tfidf_row (V : gmap string nat) (idf_ : list Q) (toks : list string)
  : gmap nat Q :=
  let counts := Tfidf.count_row V toks in
  let weighted :=
    map_imap (λ j c, Some (inject_Z (Z.of_nat c) * nth j idf_ 0)%Q) counts in
  let ss := La.sparse_sum_squares weighted in
  if Qeq_bool ss 0 then weighted else (λ x, x / sqrt ss)%Q <$> weighted.

(** [vectorizer.transform(raw_documents)]. *)
Definition TfidfVectorizer_transform (vec : TfidfVectorizer)
    (raw_documents : list string) : Py.exn + csr_matrix :=
  match vocabulary_ vec with
  | None => inl Py.NotFittedError
  | Some V =>
      match raw_documents with
      | [] => inl (Py.ValueError "Found array with 0 sample(s) while a minimum of 1 is required.")
      | _ =>
          inr (mkCsr (length raw_documents, size V)
                 (map (λ doc, tfidf_row V (idf_ vec) (Tfidf.analyze doc))
                    raw_documents))
      end
  end.

(** [vectorizer.fit_transform(raw_documents)]: the vocabulary is counted,
    sorted and limited, the idf weights are learnt, and the documents are
    transformed with them. *)
Definition TfidfVectorizer_fit_transform (vec : TfidfVectorizer)
    (raw_documents : list string) : Py.exn + (csr_matrix * TfidfVectorizer) :=
  if (max_features vec <? 1)%Z
  then inl (Py.ValueError "The 'max_features' parameter of TfidfVectorizer must be an int in the range [1, inf) or None.")
  else if (min_df vec <? 1)%Z
  then inl (Py.ValueError "The 'min_df' parameter of TfidfVectorizer must be an int in the range [1, inf).")
  else
    let docs := map Tfidf.analyze raw_documents in
    match concat docs with
    | [] => inl (Py.ValueError "empty vocabulary; perhaps the documents only contain stop words")
    | _ =>
        let n_doc := length raw_documents in
        if (Z.of_nat n_doc <? min_df vec)%Z
        then inl (Py.ValueError "max_df corresponds to < documents than min_df")
        else
          let kept := Tfidf.limit_features argsort docs (min_df vec) (max_features vec)
                        (Tfidf.sorted_terms docs) in
          match kept with
          | [] => inl (Py.ValueError "After pruning, no terms remain. Try a lower min_df or a higher max_df.")
          | _ =>
              let fitted :=
                mkTfidf (max_features vec) (min_df vec)
                  (Some (Tfidf.make_vocabulary kept))
                  (map (λ t, idf n_doc (Tfidf.doc_freq docs t)) kept) in
              let? X := TfidfVectorizer_transform fitted raw_documents in
              inr (X, fitted)
          end
    end.

Definition vectorize_texts (texts : list string) (vectorizer : option TfidfVectorizer)
    (max_features min_df : Z) : Py.exn + (csr_matrix * TfidfVectorizer) :=
  match vectorizer with
  | None =>
      let vectorizer := create_tfidf_vectorizer max_features min_df in
      TfidfVectorizer_fit_transform vectorizer texts
  | Some vectorizer =>
      let? tfidf_matrix := TfidfVectorizer_transform vectorizer texts in
      inr (tfidf_matrix, vectorizer)
  end.

(** ** [lsi.py] *)

Definition apply_lsi (tfidf_matrix : csr_matrix) (n_components : Z)
    (random_state : option Z) : M (ndarray * TruncatedSVD) :=
  let n_features := (csr_shape tfidf_matrix).2 in
  let actual_n_components := Z.min n_components (Z.of_nat n_features - 1) in
  let* _ :=
    (if (actual_n_components <? n_components)%Z then
       let* _ := print ("Warning: Requested " +:+ pretty n_components
                          +:+ " components but only " +:+ pretty n_features
                          +:+ " features available.") in
       print ("Using " +:+ pretty actual_n_components +:+ " components instead.")
     else ret tt) in
  let lsi_model := mkSVD actual_n_components random_state "randomized" 5 None 0 in
  let* (lsi_vectors, lsi_model) :=
    with_random_state random_state
      (TruncatedSVD_fit_transform lsi_model tfidf_matrix) in
  ret (lsi_vectors, lsi_model).

(** [lsi_model.transform(X)]: the rows of [X] against the fitted
    components. *)
Definition TruncatedSVD_transform (m : TruncatedSVD) (X : csr_matrix)
  : Py.exn + ndarray :=
  match components_ m with
  | None => inl Py.NotFittedError
  | Some comps =>
      if (csr_shape X).1 =? 0
      then inl (Py.ValueError "Found array with 0 sample(s) while a minimum of 1 is required.")
      else if negb ((csr_shape X).2 =? n_features_in_ m)
      then inl (Py.ValueError "X has a different number of features than TruncatedSVD is expecting.")
      else inr (mkArray ((csr_shape X).1, length comps)
                  (map (λ row, map (La.sparse_dot row) comps) (csr_rows X)))
  end.

(** ** [clustering.py], the fit *)

Definition apply_kmeans (lsi_vectors : ndarray) (n_clusters : Z)
    (random_state : option Z) : M (list Z * KMeans) :=
  let kmeans_model := mkKMeans n_clusters random_state 10 300 None in
  let* (cluster_labels, kmeans_model) :=
    with_random_state random_state
      (KMeans_fit_predict kmeans_model lsi_vectors) in
  ret (cluster_labels, kmeans_model).

(** ** [similarity.py] *)

(** [top_indices = np.argsort(similarities)[::-1][:top_k]]. *)
Definition top_indices (similarities : list Q) (top_k : Z) : list nat :=
  Py.slice_to (rev (argsort similarities)) top_k.

(** A row divided by its L2 norm; a norm below [10 * eps] counts as 1
    ([normalize] with [_handle_zeros_in_scale]). *)
Definition normalize (v : list Q) : list Q :=
  let norm := sqrt (La.sum_squares v) in
  let norm := if Qle_bool (10 * La.eps) norm then norm else 1%Q in
  map (λ x, (x / norm)%Q) v.

(** [sklearn.metrics.pairwise.cosine_similarity(X, Y)]. *)
Definition cosine_similarity (X Y : ndarray) : Py.exn + list (list Q) :=
  if ((shape X).1 =? 0) || ((shape Y).1 =? 0)
  then inl (Py.ValueError "Found array with 0 sample(s) while a minimum of 1 is required.")
  else if ((shape X).2 =? 0) || ((shape Y).2 =? 0)
  then inl (Py.ValueError "Found array with 0 feature(s) while a minimum of 1 is required.")
  else if negb ((shape X).2 =? (shape Y).2)
  then inl (Py.ValueError "Incompatible dimension for X and Y matrices")
  else inr (map (λ x, map (λ y, La.dot (normalize x) (normalize y)) (data Y))
              (data X)).

(** Lines 33-43 of [find_similar_incidents]: the cosine similarity of the
    query with every stored vector. *)
Definition similarities (query_text : cell) (tfidf_vectorizer : TfidfVectorizer)
    (lsi_model : TruncatedSVD) (lsi_vectors : ndarray) : Py.exn + list Q :=
  let preprocessed_query := preprocess_text query_text in
  let? query_tfidf :=
    TfidfVectorizer_transform tfidf_vectorizer [preprocessed_query] in
  let? query_lsi := TruncatedSVD_transform lsi_model query_tfidf in
  let? matrix := cosine_similarity query_lsi lsi_vectors in
  match matrix with
  | row :: _ => inr row
  | [] => inl Py.IndexError
  end.

(** [str(df.iloc[idx][name])] when the frame has the column; a missing
    value gives the empty string where the source asks for it. *)
Definition optional_field (df : Pd.DataFrame) (idx : nat) (name : string)
    (blank_na : bool) : Py.exn + option string :=
  if Pd.has_column df name then
    let? c := Pd.iloc df idx name in
    inr (Some (if blank_na && negb (Pd.notna c) then "" else py_str c))
  else inr None.

Definition find_similar_incidents (query_text : cell)
    (tfidf_vectorizer : TfidfVectorizer) (lsi_model : TruncatedSVD)
    (lsi_vectors : ndarray) (df : Pd.DataFrame) (top_k : Z)
  : Py.exn + list incident :=
  let? similarities :=
    similarities query_text tfidf_vectorizer lsi_model lsi_vectors in
  let top_indices := top_indices similarities top_k in
  mapR (λ idx,
    let? text := Pd.iloc df idx "combined_text" in
    let? type := Pd.iloc df idx "Complaint Type" in
    let? desc := Pd.iloc df idx "Descriptor" in
    let? key := optional_field df idx "Unique Key" false in
    let? date := optional_field df idx "Created Date" false in
    let? address := optional_field df idx "Incident Address" true in
    let? street := optional_field df idx "Street Name" true in
    let? zip := optional_field df idx "Incident Zip" true in
    let? boro := optional_field df idx "Borough" true in
    let? town := optional_field df idx "City" true in
    inr (mkIncident idx (nth idx similarities 0%Q) text type desc
           key date address street zip boro town))
    top_indices.

(** ** [clustering.py], the report *)

(** [[f(x) for x in l]] in the monad. *)
Fixpoint mapM {A B} (f : A → M B) (l : list A) : M (list B) :=
  match l with
  | [] => ret []
  | x :: l' => let* y := f x in let* ys := mapM f l' in ret (y :: ys)
  end.

(** The arguments of [analyze_clusters] behind their references. *)
Definition get_frame (l : nat) : M Pd.DataFrame :=
  let* o := deref l in
  match o with
  | ODataFrame df => ret df
  | _ => lift (inl (Py.TypeError "not a DataFrame"))
  end.

Definition get_labels (l : nat) : M (list Z) :=
  let* o := deref l in
  match o with
  | OLabels a => ret a
  | _ => lift (inl (Py.TypeError "not an array of labels"))
  end.

Definition get_matrix (l : nat) : M csr_matrix :=
  let* o := deref l in
  match o with
  | OCsr m => ret m
  | _ => lift (inl (Py.TypeError "not a sparse matrix"))
  end.

Definition get_vectorizer (l : nat) : M TfidfVectorizer :=
  let* o := deref l in
  match o with
  | OVectorizer v => ret v
  | _ => lift (inl (Py.TypeError "not a vectorizer"))
  end.

(** [X[mask]] on the rows of a sparse matrix. *)
Definition csr_getitem_mask (X : csr_matrix) (mask : list bool)
  : Py.exn + csr_matrix :=
  if length mask =? (csr_shape X).1
  then inr (mkCsr (length (filter (λ b, b = true) mask), (csr_shape X).2)
              (Np.compress mask (csr_rows X)))
  else inl Py.IndexError.

(** [vectorizer.get_feature_names_out()]: the terms by column. *)
Definition get_feature_names_out (vec : TfidfVectorizer) : Py.exn + list string :=
  match vocabulary_ vec with
  | None => inl Py.NotFittedError
  | Some V =>
      inr (merge_sort by_column (map_to_list V)).*1
  end.

Definition get_cluster_top_terms (tfidf_matrix cluster_labels tfidf_vectorizer : nat)
    (cluster_id : Z) (top_terms : Z) : M (list (string * Q)) :=
  let* labels := get_labels cluster_labels in
  let cluster_mask := map (λ l, (l =? cluster_id)%Z) labels in
  let* X := get_matrix tfidf_matrix in
  let* cluster_tfidf := lift (csr_getitem_mask X cluster_mask) in
  let* mean_scores :=
    lift (La.mean_axis0 (csr_shape cluster_tfidf).2 (csr_rows cluster_tfidf)) in
  let* vec := get_vectorizer tfidf_vectorizer in
  let* feature_names := lift (get_feature_names_out vec) in
  let top_indices := Py.slice_to (rev (argsort mean_scores)) top_terms in
  lift (mapR (λ idx, match feature_names !! idx, mean_scores !! idx with
                     | Some term, Some score => inr (term, score)
                     | _, _ => inl Py.IndexError
                     end) top_indices).

(** [df['cluster'] == cluster_id] on one cell. *)
Definition cell_is (cluster_id : Z) (c : cell) : bool :=
  match c with
  | CInt z => (z =? cluster_id)%Z
  | _ => false
  end.

(** [examples[['combined_text', 'Complaint Type', 'Descriptor']]
    .to_dict('records')]. *)
Definition to_records (examples : Pd.DataFrame) : Py.exn + list (cell * cell * cell) :=
  let? text := Pd.getitem examples "combined_text" in
  let? type := Pd.getitem examples "Complaint Type" in
  let? desc := Pd.getitem examples "Descriptor" in
  inr (zip (zip text type) desc).

Definition analyze_clusters (df cluster_labels tfidf_matrix tfidf_vectorizer : nat)
    (top_terms examples_per_cluster : Z) : M (list (nat * cluster_report)) :=
  (* df = df.copy() *)
  let* frame := get_frame df in
  let* df := new (ODataFrame frame) in
  (* df['cluster'] = cluster_labels *)
  let* labels := get_labels cluster_labels in
  let* frame := get_frame df in
  let* frame := lift (Pd.setitem frame "cluster" (map CInt labels)) in
  let* _ := assign df (ODataFrame frame) in
  let n_clusters := length (Np.unique labels) in
  mapM (λ cluster_id,
    let* frame := get_frame df in
    let* column := lift (Pd.getitem frame "cluster") in
    let cluster_data :=
      Pd.filter_rows frame (map (cell_is (Z.of_nat cluster_id)) column) in
    let examples := Pd.head cluster_data examples_per_cluster in
    (* for idx, row in examples.iterrows(): print(row['combined_text']) *)
    let* _ := (if 0 <? Pd.nrows examples
               then lift (Pd.getitem examples "combined_text")
               else ret []) in
    let* top_terms_list :=
      get_cluster_top_terms tfidf_matrix cluster_labels tfidf_vectorizer
        (Z.of_nat cluster_id) top_terms in
    let* records := lift (to_records examples) in
    ret (cluster_id,
         mkClusterReport (Pd.nrows cluster_data) records top_terms_list))
    (Py.range n_clusters).

(** ** [persistence.py] *)

(** [os.makedirs(directory, exist_ok=True)] for the six output
    directories. *)
Definition create_output_directories : M unit := ret tt.

(** The file that [sparse.save_npz] and [np.save] write for a path given
    as a string: the path itself when it ends with the extension, the path
    with the extension appended otherwise.  [load_npz] and [np.load] open
    the path as it is given. *)
Definition with_extension (file extension : string) : string :=
  if Py.endswith file extension then file else file +:+ extension.

Definition save_tfidf_vectors (tfidf_matrix : csr_matrix) (filepath : option string)
  : M string :=
  let filepath := default (Py.path_join EMBEDDINGS_DIR "tfidf_vectors.npz") filepath in
  let* _ := write_file (with_extension filepath ".npz") (FNpz tfidf_matrix) in
  ret filepath.

Definition load_tfidf_vectors (filepath : option string) : M csr_matrix :=
  let filepath := default (Py.path_join EMBEDDINGS_DIR "tfidf_vectors.npz") filepath in
  let* f := read_file filepath in
  match f with
  | FNpz m => ret m
  | _ => lift (inl (Py.ValueError "not an npz archive"))
  end.

Definition save_lsi_vectors (lsi_vectors : ndarray) (filepath : option string)
  : M string :=
  let filepath := default (Py.path_join EMBEDDINGS_DIR "lsi_vectors.npy") filepath in
  let* _ := write_file (with_extension filepath ".npy") (FNpy lsi_vectors) in
  ret filepath.

Definition load_lsi_vectors (filepath : option string) : M ndarray :=
  let filepath := default (Py.path_join EMBEDDINGS_DIR "lsi_vectors.npy") filepath in
  let* f := read_file filepath in
  match f with
  | FNpy a => ret a
  | _ => lift (inl (Py.ValueError "not an npy file"))
  end.

Definition save_embeddings (tfidf_matrix : csr_matrix) (lsi_vectors : ndarray)
  : M unit :=
  let* _ := create_output_directories in
  let* _ := save_tfidf_vectors tfidf_matrix None in
  let* _ := save_lsi_vectors lsi_vectors None in
  ret tt.

Definition load_embeddings : M (csr_matrix * ndarray) :=
  let* tfidf_matrix := load_tfidf_vectors None in
  let* lsi_vectors := load_lsi_vectors None in
  ret (tfidf_matrix, lsi_vectors).

(** [pd.read_csv(filepath)]. *)
Definition read_csv (filepath : string) : M Pd.DataFrame :=
  let* f := read_file filepath in
  match f with
  | FCsv df => ret (read_csv_infer df)
  | _ => lift (inl (Py.ValueError "not a CSV file"))
  end.

Definition save_processed_data (df : Pd.DataFrame) (filepath : option string)
  : M string :=
  let filepath := default (Py.path_join DATA_DIR "processed_data.csv") filepath in
  let* _ := create_output_directories in
  let* _ := write_file filepath (FCsv df) in
  ret filepath.

Definition load_processed_data (filepath : option string) : M Pd.DataFrame :=
  let filepath := default (Py.path_join DATA_DIR "processed_data.csv") filepath in
  read_csv filepath.

Definition save_cluster_assignments (df : Pd.DataFrame) (cluster_labels : list Z)
    (filepath : option string) : M string :=
  let filepath := default (Py.path_join DATA_DIR "cluster_assignments.csv") filepath in
  let* _ := create_output_directories in
  let* df_output := lift (Pd.setitem df "cluster" (map CInt cluster_labels)) in
  let* _ := write_file filepath (FCsv df_output) in
  ret filepath.

Definition load_cluster_assignments (filepath : option string)
  : M (Pd.DataFrame * list cell) :=
  let filepath := default (Py.path_join DATA_DIR "cluster_assignments.csv") filepath in
  let* df := read_csv filepath in
  let* cluster_labels := lift (Pd.getitem df "cluster") in
  let df := Pd.mkDataFrame (Pd.nrows df)
              (filter (λ c, c.1 ≠ "cluster") (Pd.columns df)) in
  ret (df, cluster_labels).

Definition save_models (tfidf_vectorizer : TfidfVectorizer) (lsi_model : TruncatedSVD)
    (kmeans_model : option KMeans) : M (string * string * option string) :=
  let* _ := create_output_directories in
  let tfidf_path := Py.path_join MODELS_DIR "tfidf_vectorizer.pkl" in
  let* _ := write_file tfidf_path (FPickle (PVectorizer tfidf_vectorizer)) in
  let lsi_path := Py.path_join MODELS_DIR "lsi_model.pkl" in
  let* _ := write_file lsi_path (FPickle (PSvd lsi_model)) in
  let* _ :=
    match kmeans_model with
    | Some k => write_file (Py.path_join MODELS_DIR "kmeans_model.pkl")
                  (FPickle (PKMeans k))
    | None => ret tt
    end in
  ret (tfidf_path, lsi_path,
       match kmeans_model with
       | Some _ => Some (Py.path_join MODELS_DIR "kmeans_model.pkl")
       | None => None
       end).

(** [pickle.load] of the file at [path]. *)
Definition load_pickle (path : string) : M pickled :=
  let* f := read_file path in
  match f with
  | FPickle o => ret o
  | _ => lift (inl (Py.ValueError "not a pickle"))
  end.

Definition load_models : M (pickled * pickled * option pickled) :=
  let tfidf_path := Py.path_join MODELS_DIR "tfidf_vectorizer.pkl" in
  let* tfidf_vectorizer := load_pickle tfidf_path in
  let lsi_path := Py.path_join MODELS_DIR "lsi_model.pkl" in
  let* lsi_model := load_pickle lsi_path in
  let kmeans_path := Py.path_join MODELS_DIR "kmeans_model.pkl" in
  let* present := path_exists kmeans_path in
  let* kmeans_model :=
    (if present : bool
     then let* k := load_pickle kmeans_path in ret (Some k)
     else ret None) in
  ret (tfidf_vectorizer, lsi_model, kmeans_model).

Definition save_metadata (config : config_t) (dataset_info : dataset_info_t)
    (filepath : option string) : M string :=
  let filepath := default (Py.path_join EMBEDDINGS_DIR "metadata.json") filepath in
  let* _ := create_output_directories in
  let* now := (λ w, (inr (clock w), w)) in
  let metadata :=
    mkMetadata "1.0" now dataset_info config
      [("tfidf_vectors", "embeddings/tfidf_vectors.npz");
       ("lsi_vectors", "embeddings/lsi_vectors.npy");
       ("processed_data", "data/processed_data.csv");
       ("cluster_assignments", "data/cluster_assignments.csv");
       ("tfidf_vectorizer", "models/tfidf_vectorizer.pkl");
       ("lsi_model", "models/lsi_model.pkl");
       ("kmeans_model", "models/kmeans_model.pkl")] in
  let* _ := write_file filepath (FJson metadata) in
  ret filepath.

Definition load_metadata (filepath : option string) : M metadata :=
  let filepath := default (Py.path_join EMBEDDINGS_DIR "metadata.json") filepath in
  let* f := read_file filepath in
  match f with
  | FJson m => ret m
  | _ => lift (inl (Py.ValueError "not a JSON document"))
  end.

Definition load_all_for_search : M (pickled * pickled * ndarray * Pd.DataFrame) :=
  let* (tfidf_vectorizer, lsi_model, _) := load_models in
  let* lsi_vectors := load_lsi_vectors None in
  let* df := load_processed_data None in
  ret (tfidf_vectorizer, lsi_model, lsi_vectors, df).

(** ** [visualization.py] and [reporting.py], as far as [main] sees them *)

Definition plot_clusters (coordinates_2d : ndarray) (cluster_labels : list Z)
    (sample_indices : list nat) (save_path : string) : M unit :=
  let* image := lift (render_plot coordinates_2d cluster_labels sample_indices) in
  write_file save_path (FText image).

Definition generate_html_report (cluster_analysis : list (nat * cluster_report))
    (df : Pd.DataFrame) (cluster_labels : list Z) (cluster_viz_path : string)
    (similarity_results : list (string * list incident)) (output_path : string)
  : M unit :=
  let* page := lift (render_html cluster_analysis df cluster_labels
                       cluster_viz_path similarity_results) in
  write_file output_path (FText page).

(** ** [main.py] *)

(** The documents of a column handed to the vectorizer. *)
Definition as_documents (column : list cell) : Py.exn + list string :=
  mapR (λ c, match c with
             | CStr s => inr s
             | CNaN => inl (Py.ValueError "np.nan is an invalid document, expected byte or unicode string.")
             | _ => inl (Py.TypeError "expected string or bytes-like object")
             end) column.

(** [len(tfidf_vectorizer.vocabulary_)]. *)
Definition vocabulary_len (vec : TfidfVectorizer) : Py.exn + nat :=
  match vocabulary_ vec with
  | Some V => inr (size V)
  | None => inl Py.NotFittedError
  end.

(** The body of [main] under the constants [cfg]. *)
Definition main_with (cfg : Config) : M unit :=
  let* _ := create_output_directories in
  let* _ := print "[Step 1] Loading data..." in
  let* present := path_exists (CSV_PATH cfg) in
  if negb present
  then print ("Error: CSV file '" +:+ CSV_PATH cfg +:+ "' not found!")
  else
  let* df := (λ w, (load_data (CSV_PATH cfg) (fs w), w)) in
  let* _ := print "[Step 2] Preprocessing text..." in
  let* df := lift (preprocess_dataframe df "combined_text") in
  let* _ := save_processed_data df None in
  let* _ := print "[Step 3] Creating TF-IDF vectors..." in
  let* column := lift (Pd.getitem df "preprocessed_text") in
  let* texts := lift (as_documents column) in
  let* (tfidf_matrix, tfidf_vectorizer) :=
    lift (vectorize_texts texts None (MAX_FEATURES cfg) (MIN_DF cfg)) in
  let* _ := save_tfidf_vectors tfidf_matrix None in
  let* _ := print "[Step 4] Applying Latent Semantic Indexing..." in
  let* (lsi_vectors, lsi_model) :=
    apply_lsi tfidf_matrix (N_COMPONENTS cfg) (RANDOM_STATE cfg) in
  let* _ := save_lsi_vectors lsi_vectors None in
  let* _ := print "[Step 5] Applying KMeans clustering..." in
  let* (cluster_labels, kmeans_model) :=
    apply_kmeans lsi_vectors (N_CLUSTERS cfg) (RANDOM_STATE cfg) in
  let* _ := save_cluster_assignments df cluster_labels None in
  let* _ := print "[Step 6] Analyzing clusters..." in
  (* the four arguments go by reference *)
  let* df_ref := new (ODataFrame df) in
  let* labels_ref := new (OLabels cluster_labels) in
  let* matrix_ref := new (OCsr tfidf_matrix) in
  let* vectorizer_ref := new (OVectorizer tfidf_vectorizer) in
  let* cluster_analysis :=
    analyze_clusters df_ref labels_ref matrix_ref vectorizer_ref 10 5 in
  let* _ := print "[Step 7] Creating 2D visualization..." in
  let* (coordinates_2d, sample_indices) :=
    (λ w, let r := reduce_to_2d lsi_vectors "tsne" (RANDOM_STATE cfg) 30000
                     (np_random w) in
          (r.1, set_np_random r.2 w)) in
  let viz_path :=
    Py.path_join (Py.path_join "output" "visualizations")
      "cluster_visualization.png" in
  let* _ := plot_clusters coordinates_2d cluster_labels sample_indices viz_path in
  let example_queries :=
    ["Noise - Residential"; "Illegal Parking - Blocked Driveway";
     "Noise - Street/Sidewalk"] in
  let* similarity_results :=
    mapM (λ query,
      let* similar :=
        lift (find_similar_incidents (CStr query) tfidf_vectorizer lsi_model
                lsi_vectors df 5) in
      ret (query, similar)) example_queries in
  let* _ := print "[Step 9] Generating HTML report..." in
  let report_path :=
    Py.path_join (Py.path_join "output" "reports") "analysis_report.html" in
  let* _ := generate_html_report cluster_analysis df cluster_labels viz_path
              similarity_results report_path in
  let* _ := print "[Step 10] Saving models..." in
  let* _ := save_models tfidf_vectorizer lsi_model (Some kmeans_model) in
  let legacy_path :=
    Py.path_join (Py.path_join "output" "models") "models.pkl" in
  let* _ := write_file legacy_path
              (FPickle (PLegacy tfidf_vectorizer lsi_model lsi_vectors df)) in
  let* _ := print "[Step 11] Saving metadata..." in
  let config :=
    mkConfigDict (MAX_FEATURES cfg) (MIN_DF cfg) (N_COMPONENTS cfg)
      (N_CLUSTERS cfg) (RANDOM_STATE cfg) in
  let* vocabulary_size := lift (vocabulary_len tfidf_vectorizer) in
  let dataset_info :=
    mkDatasetInfo (Pd.nrows df) (csr_shape tfidf_matrix).2 (shape lsi_vectors).2
      (N_CLUSTERS cfg) vocabulary_size in
  let* _ := save_metadata config dataset_info None in
  ret tt.

Definition main : M unit := main_with default_config.

(** ** What the claims speak of *)

(** A list of incidents in non-increasing order of similarity. *)
Definition by_descending_similarity (results : list incident) : Prop :=
  StronglySorted (λ r1 r2, (similarity r2 <= similarity r1)%Q) results.

(** Incidents of equal similarity in increasing order of their index. *)
Definition ties_by_ascending_index (results : list incident) : Prop :=
  ∀ p q r1 r2,
    p < q → results !! p = Some r1 → results !! q = Some r2 →
    (similarity r1 == similarity r2)%Q → index r1 < index r2.

(** A frame whose columns are as long as the frame. *)
Definition frame_ok (df : Pd.DataFrame) : Prop :=
  Forall (λ c, length c.2 = Pd.nrows df) (Pd.columns df).

(** An array whose rows agree with its shape. *)
Definition array_ok (a : ndarray) : Prop :=
  length (data a) = (shape a).1 ∧
  Forall (λ row, length row = (shape a).2) (data a).

(** What a search is given after a fit of [document_count] documents: a
    fitted vectorizer, a projector fitted on its columns, one latent
    vector per document in the projector's dimensions and a frame with the
    three text columns and a row per document. *)
Record stored_bundle (tfidf_vectorizer : TfidfVectorizer)
    (lsi_model : TruncatedSVD) (lsi_vectors : ndarray) (df : Pd.DataFrame)
    (document_count : nat) : Prop := mkStored {
  stored_vocabulary : ∃ V, vocabulary_ tfidf_vectorizer = Some V ∧
                           n_features_in_ lsi_model = size V;
  stored_components : ∃ comps, components_ lsi_model = Some comps ∧
                               length comps = (shape lsi_vectors).2;
  stored_dimensions : 0 < (shape lsi_vectors).2;
  stored_vectors : array_ok lsi_vectors;
  stored_count : (shape lsi_vectors).1 = document_count ∧ 0 < document_count;
  stored_frame : frame_ok df ∧ Pd.nrows df = document_count;
  stored_columns : Forall (λ name, Pd.has_column df name = true)
                     ["combined_text"; "Complaint Type"; "Descriptor"]
}.

(** A query none of whose terms has a column in the vocabulary. *)
Definition unrecognized_query (query_text : cell) (vec : TfidfVectorizer) : Prop :=
  ∀ V, vocabulary_ vec = Some V →
    Forall (λ t, V !! t = None) (Tfidf.analyze (preprocess_text query_text)).

(** A computation that leaves the process state as it found it. *)
Definition readonly {A} (c : M A) : Prop := ∀ w, (c w).2 = w.

(** The width of what [TruncatedSVD.fit_transform] returns with the
    randomized solver: a column per singular value that it finds,
    [n_components] of them, or as many as the matrix has rows or columns
    when that is fewer. *)
Definition fitted_width : Prop :=
  ∀ m X g V m',
    (TruncatedSVD_fit_transform m X g).1 = inr (V, m') →
    (shape V).2
    = Z.to_nat (n_components m) `min` ((csr_shape X).1 `min` (csr_shape X).2).







(** ** What the location statistics are measured against *)

(** The count that a dictionary of counts holds for a key, 0 without it. *)
Fixpoint count_of (key : string) (counts : list (string * nat)) : nat :=
  match counts with
  | [] => 0
  | (k, n) :: rest => if String.eqb k key then n else count_of key rest
  end.

(** How many results carry [key] in a field. *)
Definition occurrences (field : incident → option string) (key : string)
    (results : list incident) : nat :=
  length (filter (λ r, Locations.present (field r) = Some key) results).

(** The distinct non-empty values of a field, in order of first
    occurrence. *)
Definition distinct_values (field : incident → option string)
    (results : list incident) : list string :=
  remove_dups (omap (λ r, Locations.present (field r)) results).

(** What holds of the [top_n] list of a field: the items are in
    non-increasing order of their counts, no value comes twice, each count
    is the number of results with that value, and a value left out does
    not occur more often than one that is listed. *)
Definition top_counts (field : incident → option string)
    (results : list incident) (top : list (string * nat)) : Prop :=
  StronglySorted (λ a b, b.2 ≤ a.2) top ∧
  NoDup top.*1 ∧
  (∀ k n, (k, n) ∈ top →
     k ≠ "" ∧ 0 < n ∧ n = length (filter (λ r, field r = Some k) results)) ∧
  (∀ k n k', (k, n) ∈ top → k' ∉ top.*1 → k' ≠ "" →
     length (filter (λ r, field r = Some k') results) ≤ n).

(** ** What the properties of the text steps speak of *)

(** The characters of [' '.join(words)]. *)
Fixpoint joined (words : list (list ascii)) : list ascii :=
  match words with
  | [] => []
  | [w] => w
  | w :: ws => w ++ " "%char :: joined ws
  end.

(** A letter or a blank. *)
Definition plain (c : ascii) : Prop := Text.is_lower c = true ∨ c = " "%char.

(** A word of [preprocess_text]: lower-case letters, at least one. *)
Definition lower_word (w : string) : Prop :=
  w ≠ "" ∧ Forall (λ c, Text.is_lower c = true) (list_ascii_of_string w).
(** ** [search_interactive.py] and [web_search.py]: the stored bundle *)

(** [load_models] of [search_interactive.py] (lines 13-40): the bundle
    that [main] pickles under [output/models], or else the one in the
    working directory.  The source returns the four objects and the
    dictionary that holds them, or five times [None] when neither file is
    there; here that is the four objects, or [None]. *)
Definition search_interactive_load_models
  : M (option (TfidfVectorizer * TruncatedSVD * ndarray * Pd.DataFrame)) :=
  let legacy_path :=
    Py.path_join (Py.path_join "output" "models") "models.pkl" in
  let old_path := "models.pkl" in
  let* at_legacy := path_exists legacy_path in
  let* models_path :=
    (if at_legacy : bool then ret (Some legacy_path)
     else
       let* at_old := path_exists old_path in
       if at_old : bool then ret (Some old_path) else ret None) in
  match models_path with
  | None =>
      let* _ := print "Error: models.pkl not found!" in
      let* _ := print "Please run main.py first to generate the models." in
      ret None
  | Some models_path =>
      let* models := load_pickle models_path in
      match models with
      | PLegacy tfidf_vectorizer lsi_model lsi_vectors df =>
          ret (Some (tfidf_vectorizer, lsi_model, lsi_vectors, df))
      | _ => lift (inl (Py.TypeError "object is not subscriptable"))
      end
  end.

(** ** What the further properties speak of *)

(** A computation that leaves every file outside [paths] as it was. *)
Definition writes_within {A} (paths : list string) (c : M A) : Prop :=
  ∀ w path, path ∉ paths → fs (c w).2 !! path = fs w !! path.

(** The files that [main] writes. *)
Definition main_outputs : list string :=
  [Py.path_join DATA_DIR "processed_data.csv";
   Py.path_join EMBEDDINGS_DIR "tfidf_vectors.npz";
   Py.path_join EMBEDDINGS_DIR "lsi_vectors.npy";
   Py.path_join DATA_DIR "cluster_assignments.csv";
   Py.path_join VISUALIZATIONS_DIR "cluster_visualization.png";
   Py.path_join REPORTS_DIR "analysis_report.html";
   Py.path_join MODELS_DIR "tfidf_vectorizer.pkl";
   Py.path_join MODELS_DIR "lsi_model.pkl";
   Py.path_join MODELS_DIR "kmeans_model.pkl";
   Py.path_join MODELS_DIR "models.pkl";
   Py.path_join EMBEDDINGS_DIR "metadata.json"].

(** What [get_cluster_top_terms] is given: three live references, a
    matrix with a row per label and a fitted vectorizer with a term for
    every column. *)
Record cluster_inputs (w : world) (tfidf_matrix cluster_labels tfidf_vectorizer : nat)
    (X : csr_matrix) (labels : list Z) (vec : TfidfVectorizer)
    (V : gmap string nat) : Prop := mkClusterInputs {
  inputs_matrix : heap w !! tfidf_matrix = Some (OCsr X);
  inputs_labels : heap w !! cluster_labels = Some (OLabels labels);
  inputs_vectorizer : heap w !! tfidf_vectorizer = Some (OVectorizer vec);
  inputs_vocabulary : vocabulary_ vec = Some V ∧ (csr_shape X).2 ≤ size V;
  inputs_rows : length (csr_rows X) = (csr_shape X).1 ∧
                length labels = (csr_shape X).1
}.

(** The text of a cell of the frame, when the row and the column are
    there and the cell is not missing. *)
Definition cell_text (df : Pd.DataFrame) (idx : nat) (name : string)
  : option string :=
  match Pd.iloc df idx name with
  | inr c => if Pd.notna c then Some (py_str c) else None
  | inl _ => None
  end.

(** * Properties *)

(** ** Sorting and slicing *)

Lemma insert_by_Permutation key i l : Np.insert_by key i l ≡ₚ i :: l.
Proof.
  induction l as [|j l IH]; simpl; [done|].
  destruct (Qle_bool _ _); [done|].
  rewrite IH. apply Permutation_swap.
Qed.

Lemma insert_by_sorted (key : nat → Q) i l :
  StronglySorted (λ x y, (key x <= key y)%Q) l →
  StronglySorted (λ x y, (key x <= key y)%Q) (Np.insert_by key i l).
Proof.
  induction 1 as [|j l Hl IH Hj]; simpl.
  { repeat constructor. }
  destruct (Qle_bool (key i) (key j)) eqn:E.
  - apply Qle_bool_iff in E. constructor; [by constructor|].
    constructor; [done|].
    eapply Forall_impl; [exact Hj|]. intros k Hk. simpl in *.
    by eapply Qle_trans.
  - assert (key j <= key i)%Q as Hji.
    { destruct (Qlt_le_dec (key j) (key i)) as [H|H].
      - by apply Qlt_le_weak.
      - apply Qle_bool_iff in H. congruence. }
    constructor; [done|].
    rewrite insert_by_Permutation. by constructor.
Qed.

(** The index-order argsort keeps the contract of [np.argsort]. *)
Lemma stable_argsort_sorts : Np.sorts Np.argsort.
Proof.
  intros a. unfold Np.argsort. split.
  - induction (seq 0 (length a)) as [|i l IH]; simpl; [done|].
    by rewrite insert_by_Permutation, IH.
  - induction (seq 0 (length a)) as [|i l IH]; simpl.
    + constructor.
    + by apply (insert_by_sorted (λ i, nth i a 0%Q)).
Qed.

(** From here on [argsort] keeps its contract. *)
Hypothesis argsort_sorts : Np.sorts argsort.

Lemma argsort_Permutation a : argsort a ≡ₚ seq 0 (length a).
Proof. apply argsort_sorts. Qed.

Lemma argsort_sorted a :
  StronglySorted (λ i j, (nth i a 0 <= nth j a 0)%Q) (argsort a).
Proof. apply argsort_sorts. Qed.

Lemma argsort_length a : length (argsort a) = length a.
Proof. by rewrite argsort_Permutation, length_seq. Qed.

Lemma argsort_bound a i : i ∈ argsort a → i < length a.
Proof. rewrite argsort_Permutation, elem_of_seq. lia. Qed.

Lemma argsort_NoDup a : NoDup (argsort a).
Proof. rewrite argsort_Permutation. apply NoDup_seq. Qed.

Lemma StronglySorted_rev {A} (R : relation A) l :
  StronglySorted R l → StronglySorted (flip R) (rev l).
Proof.
  induction 1 as [|x l Hl IH Hx]; simpl; [constructor|].
  apply StronglySorted_app_2; [|done|repeat constructor].
  intros y z Hy Hz. apply list_elem_of_singleton in Hz as ->.
  rewrite Forall_forall in Hx. apply Hx.
  by apply list_elem_of_In, in_rev, list_elem_of_In.
Qed.

Lemma StronglySorted_take {A} (R : relation A) n l :
  StronglySorted R l → StronglySorted R (take n l).
Proof.
  intros H. rewrite <-(take_drop n l) in H.
  by apply StronglySorted_app_1_l in H.
Qed.

Lemma slice_to_sorted {A} (R : relation A) l k :
  StronglySorted R l → StronglySorted R (Py.slice_to l k).
Proof. unfold Py.slice_to. destruct (k <? 0)%Z; apply StronglySorted_take. Qed.

Lemma slice_to_subseteq {A} (l : list A) k : Py.slice_to l k ⊆ l.
Proof.
  unfold Py.slice_to. destruct (k <? 0)%Z; apply sublist_subseteq, sublist_take.
Qed.

Lemma slice_to_NoDup {A} (l : list A) k : NoDup l → NoDup (Py.slice_to l k).
Proof.
  unfold Py.slice_to. intros. destruct (k <? 0)%Z;
    (eapply sublist_NoDup; [done|apply sublist_take]).
Qed.

(** A bound beyond the end of the list keeps the whole list. *)
Lemma slice_to_all {A} (l : list A) k :
  (Z.of_nat (length l) ≤ k)%Z → Py.slice_to l k = l.
Proof.
  intros H. unfold Py.slice_to.
  destruct (k <? 0)%Z eqn:E; [lia|]. apply take_ge. lia.
Qed.

Lemma slice_to_length {A} (l : list A) k :
  (0 ≤ k)%Z → length (Py.slice_to l k) = Z.to_nat k `min` length l.
Proof.
  intros H. unfold Py.slice_to.
  destruct (k <? 0)%Z eqn:E; [lia|]. by rewrite length_take.
Qed.

Lemma top_indices_sorted sims k :
  StronglySorted (λ i j, (nth j sims 0 <= nth i sims 0)%Q) (top_indices sims k).
Proof.
  unfold top_indices. apply slice_to_sorted.
  apply (StronglySorted_rev _ _ (argsort_sorted sims)).
Qed.

Lemma top_indices_bound sims k i : i ∈ top_indices sims k → i < length sims.
Proof.
  intros H. apply slice_to_subseteq in H.
  apply argsort_bound. apply list_elem_of_In, in_rev, list_elem_of_In in H.
  done.
Qed.

Lemma top_indices_NoDup sims k : NoDup (top_indices sims k).
Proof.
  apply slice_to_NoDup. apply NoDup_ListNoDup, NoDup_rev, NoDup_ListNoDup.
  apply argsort_NoDup.
Qed.

Lemma top_indices_all sims k :
  (Z.of_nat (length sims) ≤ k)%Z → top_indices sims k ≡ₚ seq 0 (length sims).
Proof.
  intros H. unfold top_indices.
  rewrite slice_to_all by (by rewrite length_rev, argsort_length).
  rewrite <-argsort_Permutation. symmetry. apply Permutation_rev.
Qed.

(** ** Computations that can raise *)

Lemma mapR_Forall2 {A B} (f : A → Py.exn + B) l rs :
  mapR f l = inr rs → Forall2 (λ x y, f x = inr y) l rs.
Proof.
  revert rs. induction l as [|x l IH]; simpl; intros rs H.
  - injection H as <-. constructor.
  - destruct (f x) as [e|y] eqn:E; simpl in H; [done|].
    destruct (mapR f l) as [e|ys]; simpl in H; [done|].
    injection H as <-. constructor; auto.
Qed.

Lemma mapR_total {A B} (f : A → Py.exn + B) l :
  Forall (λ x, ∃ y, f x = inr y) l → ∃ rs, mapR f l = inr rs.
Proof.
  induction 1 as [|x l [y Hy] _ [rs IH]]; simpl.
  - by eexists.
  - rewrite Hy. simpl. rewrite IH. simpl. by eexists.
Qed.

Lemma StronglySorted_Forall2 {A B} (R : relation A) (R' : relation B)
    (P : A → B → Prop) l l' :
  (∀ x y x' y', R x y → P x x' → P y y' → R' x' y') →
  Forall2 P l l' → StronglySorted R l → StronglySorted R' l'.
Proof.
  intros HR HP. induction HP as [|x x' l l' Hx HP IH]; intros Hs.
  - constructor.
  - apply StronglySorted_cons in Hs as [Hall Hs]. constructor; [auto|].
    clear IH Hs. induction HP as [|y y' l l' Hy HP IH]; [constructor|].
    apply Forall_cons in Hall as [Hxy Hall]. constructor; eauto.
Qed.

(** ** Frames *)

Lemma lookup_column_elem_of name cols v :
  Pd.lookup_column name cols = Some v → ∃ n, (n, v) ∈ cols.
Proof.
  induction cols as [|[n w] cols IH]; simpl; [done|].
  destruct (String.eqb n name).
  - intros [= ->]. exists n. left.
  - intros H. destruct (IH H) as [n' Hn']. exists n'. by right.
Qed.

Lemma iloc_total df idx name :
  frame_ok df → Pd.has_column df name = true → idx < Pd.nrows df →
  ∃ c, Pd.iloc df idx name = inr c.
Proof.
  unfold frame_ok, Pd.has_column, Pd.iloc. intros Hok Hcol Hlt.
  destruct (Nat.ltb_spec idx (Pd.nrows df)); [|lia].
  destruct (Pd.lookup_column name (Pd.columns df)) as [v|] eqn:E; [|done].
  apply lookup_column_elem_of in E as [n Hn].
  rewrite Forall_forall in Hok. specialize (Hok _ Hn). simpl in Hok.
  destruct (lookup_lt_is_Some_2 v idx) as [c Hc]; [lia|].
  rewrite Hc. by eexists.
Qed.

Lemma optional_field_total df idx name blank :
  frame_ok df → idx < Pd.nrows df →
  ∃ o, optional_field df idx name blank = inr o.
Proof.
  intros Hok Hlt. unfold optional_field.
  destruct (Pd.has_column df name) eqn:E; [|by eexists].
  destruct (iloc_total df idx name Hok E Hlt) as [c ->]. simpl. by eexists.
Qed.

(** ** The similarity search *)

(** The similarities of a stored bundle, spelled out. *)
Lemma similarities_stored q vec lsi vectors df n V comps :
  stored_bundle vec lsi vectors df n →
  vocabulary_ vec = Some V → components_ lsi = Some comps →
  similarities q vec lsi vectors =
    inr (map (λ y, La.dot
                (normalize (map (La.sparse_dot
                   (tfidf_row V (idf_ vec) (Tfidf.analyze (preprocess_text q))))
                   comps))
                (normalize y)) (data vectors)).
Proof.
  intros [[V' [HV HnV]] [comps' [Hc Hlen]] Hdim [Hrows _] [Hcount Hpos] _ _] HV' Hc'.
  assert (V' = V) as -> by congruence.
  assert (comps' = comps) as -> by congruence.
  unfold similarities, TfidfVectorizer_transform. rewrite HV'. simpl.
  unfold TruncatedSVD_transform. rewrite Hc'. simpl.
  rewrite HnV, Nat.eqb_refl. simpl.
  unfold cosine_similarity. simpl.
  destruct (Nat.eqb_spec (shape vectors).1 0) as [|_]; [lia|].
  destruct (Nat.eqb_spec (length comps) 0) as [|_]; [lia|].
  destruct (Nat.eqb_spec (shape vectors).2 0) as [|_]; [lia|].
  rewrite Hlen, Nat.eqb_refl. simpl. done.
Qed.

Lemma similarities_length q vec lsi vectors df n :
  stored_bundle vec lsi vectors df n →
  ∃ sims, similarities q vec lsi vectors = inr sims ∧ length sims = n.
Proof.
  intros Hst. pose proof Hst as [[V [HV _]] [comps [Hc _]] _ [Hrows _] [Hcount _] _ _].
  eexists. split; [by eapply similarities_stored|].
  rewrite length_map. lia.
Qed.

(** Every index below the number of rows yields its incident. *)
Lemma find_similar_incidents_total q vec lsi vectors df n top_k :
  stored_bundle vec lsi vectors df n →
  ∃ sims results,
    similarities q vec lsi vectors = inr sims ∧ length sims = n ∧
    find_similar_incidents q vec lsi vectors df top_k = inr results ∧
    Forall2 (λ idx r, index r = idx ∧ similarity r = nth idx sims 0%Q)
      (top_indices sims top_k) results.
Proof.
  intros Hst. destruct (similarities_length q _ _ _ _ _ Hst) as (sims & Hs & Hlen).
  destruct Hst as [_ _ _ _ _ [Hok Hn] Hcols].
  apply Forall_cons in Hcols as [H1 Hcols].
  apply Forall_cons in Hcols as [H2 Hcols].
  apply Forall_cons in Hcols as [H3 _].
  unfold find_similar_incidents. rewrite Hs. simpl.
  set (f := λ idx : nat, _).
  assert (Forall (λ idx, ∃ r, f idx = inr r ∧ index r = idx ∧
                              similarity r = nth idx sims 0%Q)
            (top_indices sims top_k)) as Hall.
  { apply Forall_forall. intros idx Hidx.
    apply top_indices_bound in Hidx.
    assert (idx < Pd.nrows df) as Hlt by lia.
    unfold f.
    destruct (iloc_total df idx _ Hok H1 Hlt) as [c1 ->].
    destruct (iloc_total df idx _ Hok H2 Hlt) as [c2 ->].
    destruct (iloc_total df idx _ Hok H3 Hlt) as [c3 ->]. simpl.
    destruct (optional_field_total df idx "Unique Key" false Hok Hlt) as [o1 ->].
    destruct (optional_field_total df idx "Created Date" false Hok Hlt) as [o2 ->].
    destruct (optional_field_total df idx "Incident Address" true Hok Hlt) as [o3 ->].
    destruct (optional_field_total df idx "Street Name" true Hok Hlt) as [o4 ->].
    destruct (optional_field_total df idx "Incident Zip" true Hok Hlt) as [o5 ->].
    destruct (optional_field_total df idx "Borough" true Hok Hlt) as [o6 ->].
    destruct (optional_field_total df idx "City" true Hok Hlt) as [o7 ->].
    simpl. eexists. split; [done|]. done. }
  destruct (mapR_total f (top_indices sims top_k)) as [rs Hrs].
  { eapply Forall_impl; [exact Hall|]. intros idx (r & Hr & _). by eexists. }
  exists sims, rs. split_and!; [done..|].
  apply mapR_Forall2 in Hrs.
  clear -Hrs Hall. induction Hrs as [|idx r l rs Hr Hrs IH]; [constructor|].
  apply Forall_cons in Hall as [(r' & Hr' & Hi & Hsim) Hall].
  constructor; [|auto].
  rewrite Hr in Hr'. injection Hr' as <-. by split.
Qed.


(** ** A query without recognized terms *)

Lemma count_row_unrecognized (V : gmap string nat) toks :
  Forall (λ t, V !! t = None) toks → Tfidf.count_row V toks = ∅.
Proof.
  unfold Tfidf.count_row. induction 1 as [|t toks Ht _ IH]; simpl; [done|].
  by rewrite Ht.
Qed.

Lemma tfidf_row_unrecognized (V : gmap string nat) weights toks :
  Forall (λ t, V !! t = None) toks → tfidf_row V weights toks = ∅.
Proof.
  intros H. unfold tfidf_row. rewrite (count_row_unrecognized _ _ H).
  rewrite map_imap_empty. unfold La.sparse_sum_squares.
  rewrite map_to_list_empty. done.
Qed.

Lemma sparse_dot_empty v : La.sparse_dot ∅ v = 0%Q.
Proof. unfold La.sparse_dot. by rewrite map_to_list_empty. Qed.

Lemma dot_null_l u v : Forall (λ x, (x == 0)%Q) u → (La.dot u v == 0)%Q.
Proof.
  unfold La.dot. intros H. revert v.
  induction H as [|x u Hx _ IH]; intros [|y v]; simpl; try reflexivity.
  rewrite Hx, IH. ring.
Qed.

Lemma normalize_null v :
  Forall (λ x, (x == 0)%Q) v → Forall (λ x, (x == 0)%Q) (normalize v).
Proof.
  unfold normalize. intros H. apply Forall_forall. intros x Hx.
  apply list_elem_of_fmap in Hx as (y & -> & Hy).
  rewrite Forall_forall in H. rewrite (H _ Hy). unfold Qdiv. ring.
Qed.

Lemma similarities_unrecognized q vec lsi vectors df n :
  stored_bundle vec lsi vectors df n → unrecognized_query q vec →
  ∃ sims, similarities q vec lsi vectors = inr sims ∧ length sims = n ∧
          Forall (λ s, (s == 0)%Q) sims.
Proof.
  intros Hst Hq.
  pose proof Hst as [[V [HV _]] [comps [Hc _]] _ [Hrows _] [Hcount _] _ _].
  eexists. split; [by eapply similarities_stored|].
  split; [rewrite length_map; lia|].
  rewrite (tfidf_row_unrecognized _ _ _ (Hq _ HV)).
  apply Forall_forall. intros s Hs.
  apply list_elem_of_fmap in Hs as (y & -> & _).
  apply dot_null_l, normalize_null.
  apply Forall_forall. intros x Hx.
  apply list_elem_of_fmap in Hx as (c & -> & _).
  by rewrite sparse_dot_empty.
Qed.

Lemma nth_null (sims : list Q) idx :
  Forall (λ s, (s == 0)%Q) sims → (nth idx sims 0 == 0)%Q.
Proof.
  intros H. revert idx. induction H as [|s sims Hs _ IH]; intros [|idx]; simpl;
    auto; reflexivity.
Qed.

(** ** The claims on the similarity search *)

(** C2, as amended: for every query and every stored bundle the search
    returns its list in non-increasing order of cosine similarity.  (The
    list is the reversed ascending argsort; nothing puts documents of equal
    similarity in ascending index order.) *)
Theorem find_similar_incidents_descending q vec lsi vectors df n top_k :
  stored_bundle vec lsi vectors df n →
  ∃ results,
    find_similar_incidents q vec lsi vectors df top_k = inr results ∧
    by_descending_similarity results.
Proof.
  intros Hst.
  destruct (find_similar_incidents_total q _ _ _ _ _ top_k Hst)
    as (sims & results & _ & _ & Hres & Hall).
  exists results. split; [done|].
  unfold by_descending_similarity.
  eapply StronglySorted_Forall2; [|exact Hall|apply top_indices_sorted].
  intros i j r1 r2 Hij [_ ->] [_ ->]. done.
Qed.

(** C6: a query whose normalization leaves no term of the vocabulary has
    similarity 0 with every stored document, and the search returns its
    list, every entry with similarity 0, without raising. *)
Theorem unrecognized_query_similarity_zero q vec lsi vectors df n top_k :
  stored_bundle vec lsi vectors df n → unrecognized_query q vec →
  ∃ sims results,
    similarities q vec lsi vectors = inr sims ∧ length sims = n ∧
    Forall (λ s, (s == 0)%Q) sims ∧
    find_similar_incidents q vec lsi vectors df top_k = inr results ∧
    Forall (λ r, (similarity r == 0)%Q) results.
Proof.
  intros Hst Hq.
  destruct (similarities_unrecognized q _ _ _ _ _ Hst Hq) as (sims & Hs & Hlen & H0).
  destruct (find_similar_incidents_total q _ _ _ _ _ top_k Hst)
    as (sims' & results & Hs' & _ & Hres & Hall).
  assert (sims' = sims) as -> by congruence.
  exists sims, results. split_and!; [done..|].
  clear -Hall H0. induction Hall as [|idx r l rs [_ Hr] _ IH]; constructor; [|done].
  rewrite Hr. by apply nth_null.
Qed.

(** C8: with [top_k] above the number of stored documents the search
    returns exactly one entry per document, each document once, and does
    not raise. *)
Theorem top_k_beyond_document_count q vec lsi vectors df document_count top_k :
  stored_bundle vec lsi vectors df document_count →
  (Z.of_nat document_count < top_k)%Z →
  ∃ results,
    find_similar_incidents q vec lsi vectors df top_k = inr results ∧
    length results = document_count ∧
    index <$> results ≡ₚ seq 0 document_count.
Proof.
  intros Hst Hk.
  destruct (find_similar_incidents_total q _ _ _ _ _ top_k Hst)
    as (sims & results & _ & Hlen & Hres & Hall).
  exists results. split; [done|].
  assert (index <$> results = top_indices sims top_k) as Hidx.
  { clear -Hall. induction Hall as [|idx r l rs [Hi _] _ IH]; [done|].
    by rewrite fmap_cons, Hi, IH. }
  assert (top_indices sims top_k ≡ₚ seq 0 document_count) as Hperm.
  { rewrite <-Hlen. apply top_indices_all. lia. }
  split; [|by rewrite Hidx].
  rewrite <-(length_fmap index), Hidx, Hperm. apply length_seq.
Qed.

(** ** The fitted vocabulary *)

Lemma imap_pair_snd {A} (l : list A) : (imap (λ i t, (i, t)) l).*2 = l.
Proof.
  rewrite fmap_imap. rewrite (imap_ext _ (const id)) by done.
  by rewrite imap_const, list_fmap_id.
Qed.

Lemma limit_features_sublist docs low limit terms :
  Tfidf.limit_features argsort docs low limit terms `sublist_of` terms.
Proof.
  unfold Tfidf.limit_features.
  set (masked := filter _ terms).
  assert (masked `sublist_of` terms) as Hm by apply sublist_filter.
  destruct (limit <? _)%Z; [|done].
  etrans; [|exact Hm].
  rewrite <-(imap_pair_snd masked) at 2.
  apply fmap_sublist, sublist_filter.
Qed.

Lemma sorted_terms_NoDup docs : NoDup (Tfidf.sorted_terms docs).
Proof.
  unfold Tfidf.sorted_terms. rewrite merge_sort_Permutation.
  apply NoDup_remove_dups.
Qed.

Lemma sorted_terms_elem_of docs t :
  t ∈ Tfidf.sorted_terms docs ↔ ∃ toks, toks ∈ docs ∧ t ∈ toks.
Proof.
  unfold Tfidf.sorted_terms.
  rewrite merge_sort_Permutation, elem_of_remove_dups, list_elem_of_In, in_concat.
  setoid_rewrite <-list_elem_of_In. done.
Qed.

Lemma make_vocabulary_lookup kept t j :
  Tfidf.make_vocabulary kept !! t = Some j → j < length kept ∧ kept !! j = Some t.
Proof.
  unfold Tfidf.make_vocabulary. intros H.
  apply elem_of_list_to_map_2 in H.
  apply list_elem_of_lookup in H as [i Hi].
  apply lookup_zip_with_Some in Hi as (t' & j' & [= <- <-] & Ht & Hj).
  apply lookup_seq in Hj as [-> Hlt]. done.
Qed.

Lemma make_vocabulary_size kept :
  NoDup kept → size (Tfidf.make_vocabulary kept) = length kept.
Proof.
  intros H. unfold Tfidf.make_vocabulary.
  rewrite map_size_list_to_map.
  - rewrite length_zip_with, length_seq. lia.
  - rewrite fst_zip; [done|]. by rewrite length_seq.
Qed.

(** What a successful fit leaves in the vectorizer. *)
Lemma fit_transform_inr vec0 corpus X vec :
  TfidfVectorizer_fit_transform vec0 corpus = inr (X, vec) →
  ∃ kept,
    kept ≠ [] ∧ NoDup kept ∧
    kept `sublist_of` Tfidf.sorted_terms (map Tfidf.analyze corpus) ∧
    vocabulary_ vec = Some (Tfidf.make_vocabulary kept) ∧
    csr_shape X = (length corpus, length kept).
Proof.
  unfold TfidfVectorizer_fit_transform.
  destruct (max_features vec0 <? 1)%Z; [done|].
  destruct (min_df vec0 <? 1)%Z; [done|].
  destruct (concat _) eqn:Hc; [done|].
  destruct (_ <? min_df vec0)%Z; [done|].
  set (kept := Tfidf.limit_features _ _ _ _ _).
  assert (kept `sublist_of` Tfidf.sorted_terms (map Tfidf.analyze corpus))
    as Hsub by apply limit_features_sublist.
  assert (NoDup kept) as Hnd.
  { eapply sublist_NoDup; [apply sorted_terms_NoDup|done]. }
  destruct kept as [|t kept'] eqn:Hk; [done|].
  unfold TfidfVectorizer_transform. simpl.
  destruct corpus as [|doc corpus]; [done|]. simpl.
  intros [= <- <-]. exists (t :: kept'). simpl.
  split_and!; try done.
  by rewrite make_vocabulary_size.
Qed.

(** ** Transforming with a fitted vocabulary *)

Lemma count_row_lookup (V : gmap string nat) toks j :
  is_Some (Tfidf.count_row V toks !! j) → ∃ t, t ∈ toks ∧ V !! t = Some j.
Proof.
  unfold Tfidf.count_row. induction toks as [|t toks IH]; simpl.
  - rewrite lookup_empty. by intros [? ?].
  - destruct (V !! t) as [i|] eqn:E.
    + destruct (decide (i = j)) as [->|Hne].
      * intros _. exists t. split; [left|done].
      * rewrite lookup_insert_ne by done. intros H.
        destruct (IH H) as (t' & Ht' & HV). exists t'. split; [by right|done].
    + intros H. destruct (IH H) as (t' & Ht' & HV).
      exists t'. split; [by right|done].
Qed.

Lemma tfidf_row_lookup (V : gmap string nat) weights toks j :
  is_Some (tfidf_row V weights toks !! j) → ∃ t, t ∈ toks ∧ V !! t = Some j.
Proof.
  unfold tfidf_row. intros H. apply count_row_lookup.
  destruct (Qeq_bool _ _).
  - rewrite map_lookup_imap in H.
    destruct (Tfidf.count_row V toks !! j); [done|]. by destruct H.
  - rewrite lookup_fmap, map_lookup_imap in H.
    destruct (Tfidf.count_row V toks !! j); [done|]. by destruct H.
Qed.

(** C9: after a fit, transforming any one text with the fitted vectorizer
    does not raise, gives a one-row matrix as wide as the vocabulary, and
    every stored column is the column of a term of the text that the
    vocabulary knows, hence lies in [[0, |V|)]; terms without a column
    leave no entry. *)
Theorem transform_columns_in_vocabulary corpus max_features min_df X vec t mf md :
  vectorize_texts corpus None max_features min_df = inr (X, vec) →
  ∃ V X' row,
    vocabulary_ vec = Some V ∧
    vectorize_texts [t] (Some vec) mf md = inr (X', vec) ∧
    csr_shape X' = (1, size V) ∧ csr_rows X' = [row] ∧
    ∀ j, j ∈ dom row →
      j < size V ∧ ∃ term, term ∈ Tfidf.analyze t ∧ V !! term = Some j.
Proof.
  unfold vectorize_texts at 1. intros Hfit.
  apply fit_transform_inr in Hfit as (kept & _ & Hnd & _ & HV & _).
  exists (Tfidf.make_vocabulary kept). eexists. eexists.
  split; [done|].
  unfold vectorize_texts, TfidfVectorizer_transform. rewrite HV. simpl.
  split_and!; try done.
  intros j Hj. apply elem_of_dom in Hj.
  apply tfidf_row_lookup in Hj as (term & Hin & Hlook).
  split; [|by eauto].
  rewrite make_vocabulary_size by done.
  by apply make_vocabulary_lookup in Hlook as [? _].
Qed.

(** ** The monad *)

Lemma bind_inr {A B} (c : M A) (k : A → M B) w b w' :
  bind c k w = (inr b, w') →
  ∃ a w1, c w = (inr a, w1) ∧ k a w1 = (inr b, w').
Proof.
  unfold bind. destruct (c w) as [[e|a] w1]; [done|]. intros H. by exists a, w1.
Qed.

Lemma bind_inl {A B} (c : M A) (k : A → M B) w e w' :
  c w = (inl e, w') → bind c k w = (inl e, w').
Proof. unfold bind. by intros ->. Qed.

Lemma bind_step {A B} (c : M A) (k : A → M B) w a w1 :
  c w = (inr a, w1) → bind c k w = k a w1.
Proof. unfold bind. by intros ->. Qed.

Lemma readonly_ret {A} (a : A) : readonly (ret a).
Proof. done. Qed.

Lemma readonly_lift {A} (r : Py.exn + A) : readonly (lift r).
Proof. done. Qed.

Lemma readonly_deref l : readonly (deref l).
Proof. intros w. unfold deref. by destruct (heap w !! l). Qed.

Lemma readonly_bind {A B} (c : M A) (k : A → M B) :
  readonly c → (∀ a, readonly (k a)) → readonly (bind c k).
Proof.
  intros Hc Hk w. unfold bind. specialize (Hc w).
  destruct (c w) as [[e|a] w1]; simpl in *; subst; [done|]. apply Hk.
Qed.

Lemma readonly_mapM {A B} (f : A → M B) l :
  (∀ x, readonly (f x)) → readonly (mapM f l).
Proof.
  intros Hf. induction l as [|x l IH]; simpl; [apply readonly_ret|].
  apply readonly_bind; [done|]. intros y.
  apply readonly_bind; [done|]. intros ys. apply readonly_ret.
Qed.

Lemma readonly_get_frame l : readonly (get_frame l).
Proof.
  apply readonly_bind; [apply readonly_deref|]. by intros [].
Qed.

Lemma readonly_get_labels l : readonly (get_labels l).
Proof.
  apply readonly_bind; [apply readonly_deref|]. by intros [].
Qed.

Lemma readonly_get_matrix l : readonly (get_matrix l).
Proof.
  apply readonly_bind; [apply readonly_deref|]. by intros [].
Qed.

Lemma readonly_get_vectorizer l : readonly (get_vectorizer l).
Proof.
  apply readonly_bind; [apply readonly_deref|]. by intros [].
Qed.

Lemma readonly_get_cluster_top_terms X labels vec cluster_id top_terms :
  readonly (get_cluster_top_terms X labels vec cluster_id top_terms).
Proof.
  unfold get_cluster_top_terms.
  repeat first
    [ apply readonly_lift
    | apply readonly_get_labels | apply readonly_get_matrix
    | apply readonly_get_vectorizer
    | apply readonly_bind; [|intros ?] ].
Qed.

(** ** The seed of the fits *)

(** [apply_lsi] and [apply_kmeans] hand their [random_state] to the
    estimator.  With a seed the estimator draws from a generator of its
    own, made from the seed, and the generator of the process stays as it
    was; without a seed it draws from the generator of the process.  What
    the numerical routines of scikit-learn compute from the state of a
    generator is a parameter of this development, so the agreement of two
    fits to a tolerance is not a statement about this package. *)
Lemma seeded_fit_draws_from_seed tfidf_matrix k seed w :
  (apply_lsi tfidf_matrix k (Some seed) w).1
    = (TruncatedSVD_fit_transform
         (mkSVD (Z.min k (Z.of_nat (csr_shape tfidf_matrix).2 - 1)) (Some seed)
            "randomized" 5 None 0)
         tfidf_matrix (RandomState seed)).1 ∧
  np_random (apply_lsi tfidf_matrix k (Some seed) w).2 = np_random w.
Proof.
  unfold apply_lsi, bind, with_random_state, print, ret. simpl.
  destruct (Z.min k _ <? k)%Z; simpl;
    by destruct (TruncatedSVD_fit_transform _ _ _).1 as [e|[V m]].
Qed.

Lemma seeded_kmeans_draws_from_seed lsi_vectors n seed w :
  apply_kmeans lsi_vectors n (Some seed) w
  = ((KMeans_fit_predict (mkKMeans n (Some seed) 10 300 None) lsi_vectors
        (RandomState seed)).1, w).
Proof.
  unfold apply_kmeans, bind, with_random_state, ret. simpl.
  by destruct (KMeans_fit_predict _ _ _).1 as [e|[labels m]].
Qed.

Lemma unseeded_fit_draws_from_global tfidf_matrix k w :
  (apply_lsi tfidf_matrix k None w).1
    = (TruncatedSVD_fit_transform
         (mkSVD (Z.min k (Z.of_nat (csr_shape tfidf_matrix).2 - 1)) None
            "randomized" 5 None 0)
         tfidf_matrix (np_random w)).1.
Proof.
  unfold apply_lsi, bind, with_random_state, print, ret. simpl.
  destruct (Z.min k _ <? k)%Z; simpl;
    by destruct (TruncatedSVD_fit_transform _ _ _) as [[e|[V m]] g].
Qed.

(** ** The cluster report reads and does not write *)

Lemma bind_state_readonly {A B} (c : M A) (k : A → M B) w :
  readonly c →
  (bind c k w).2 = match (c w).1 with
                   | inl _ => w
                   | inr a => (k a w).2
                   end.
Proof.
  intros Hc. unfold bind. specialize (Hc w).
  destruct (c w) as [[e|a] w1]; simpl in *; by subst.
Qed.

Lemma readonly_cluster_entry df labels X vec top_terms examples_per_cluster cluster_id :
  readonly
    (let* frame := get_frame df in
     let* column := lift (Pd.getitem frame "cluster") in
     let cluster_data :=
       Pd.filter_rows frame (map (cell_is (Z.of_nat cluster_id)) column) in
     let examples := Pd.head cluster_data examples_per_cluster in
     let* _ := (if 0 <? Pd.nrows examples
                then lift (Pd.getitem examples "combined_text")
                else ret []) in
     let* top_terms_list :=
       get_cluster_top_terms X labels vec (Z.of_nat cluster_id) top_terms in
     let* records := lift (to_records examples) in
     ret (cluster_id,
          mkClusterReport (Pd.nrows cluster_data) records top_terms_list)).
Proof.
  apply readonly_bind; [apply readonly_get_frame|]. intros frame.
  apply readonly_bind; [apply readonly_lift|]. intros column.
  apply readonly_bind.
  { destruct (0 <? _); [apply readonly_lift|apply readonly_ret]. }
  intros _.
  apply readonly_bind; [apply readonly_get_cluster_top_terms|]. intros terms.
  apply readonly_bind; [apply readonly_lift|]. intros records.
  apply readonly_ret.
Qed.

(** C10: [analyze_clusters] leaves every object that existed before the
    call as it was, the frame, the label array, the TF-IDF matrix and the
    vectorizer it is handed among them, whether it returns or raises; the
    column it adds goes to a copy.  It writes no file either. *)
Theorem analyze_clusters_leaves_inputs df cluster_labels tfidf_matrix
    tfidf_vectorizer top_terms examples_per_cluster w :
  let w' := (analyze_clusters df cluster_labels tfidf_matrix tfidf_vectorizer
               top_terms examples_per_cluster w).2 in
  (∀ l o, heap w !! l = Some o → heap w' !! l = Some o) ∧ fs w' = fs w.
Proof.
  cbv zeta.
  set (P := λ w' : world,
         (∀ l o, heap w !! l = Some o → heap w' !! l = Some o) ∧ fs w' = fs w).
  change (P (analyze_clusters df cluster_labels tfidf_matrix tfidf_vectorizer
               top_terms examples_per_cluster w).2).
  assert (P w) as H0 by done.
  unfold analyze_clusters.
  rewrite bind_state_readonly by apply readonly_get_frame.
  destruct (get_frame df w).1 as [e|frame]; [exact H0|].
  unfold bind at 1. unfold new at 1. cbv beta iota zeta.
  set (l := fresh (dom (heap w))).
  set (w1 := set_heap (<[l:=ODataFrame frame]> (heap w)) w).
  assert (heap w !! l = None) as Hfresh.
  { apply not_elem_of_dom, is_fresh. }
  assert (P w1) as H1.
  { split; [|done]. intros l' o Ho. simpl.
    rewrite lookup_insert_ne; [done|]. congruence. }
  rewrite bind_state_readonly by apply readonly_get_labels.
  destruct (get_labels cluster_labels w1).1 as [e|labels]; [exact H1|].
  rewrite bind_state_readonly by apply readonly_get_frame.
  destruct (get_frame l w1).1 as [e|frame1]; [exact H1|].
  rewrite bind_state_readonly by apply readonly_lift.
  destruct (lift _ w1).1 as [e|frame2]; [exact H1|].
  unfold bind at 1. unfold assign at 1. cbv beta iota zeta.
  set (w2 := set_heap _ w1).
  rewrite (readonly_mapM _ _ (readonly_cluster_entry l cluster_labels
             tfidf_matrix tfidf_vectorizer top_terms examples_per_cluster)).
  split; [|done].
  intros l' o Ho. simpl. rewrite !lookup_insert_ne by congruence. done.
Qed.

(** ** A corpus without a qualifying term *)

Lemma fit_transform_no_qualifying_term vec0 corpus :
  (∀ t, t ∈ concat (map Tfidf.analyze corpus) →
        (Z.of_nat (Tfidf.doc_freq (map Tfidf.analyze corpus) t) < min_df vec0)%Z) →
  ∃ msg, TfidfVectorizer_fit_transform vec0 corpus = inl (Py.ValueError msg).
Proof.
  intros Hno. unfold TfidfVectorizer_fit_transform.
  destruct (max_features vec0 <? 1)%Z; [by eexists|].
  destruct (min_df vec0 <? 1)%Z; [by eexists|].
  destruct (concat _) eqn:Hc; [by eexists|]. rewrite <-Hc in *.
  destruct (_ <? min_df vec0)%Z; [by eexists|].
  set (docs := map Tfidf.analyze corpus) in *.
  assert (Tfidf.limit_features argsort docs (min_df vec0) (max_features vec0)
            (Tfidf.sorted_terms docs) = []) as ->; [|by eexists].
  unfold Tfidf.limit_features.
  assert (filter (λ t, (min_df vec0 ≤ Z.of_nat (Tfidf.doc_freq docs t))%Z)
            (Tfidf.sorted_terms docs) = []) as ->.
  { apply elem_of_nil_inv. intros t [Ht Hin]%list_elem_of_filter.
    apply sorted_terms_elem_of in Hin as (toks & Hdoc & Hin).
    assert (t ∈ concat docs) as Hcat.
    { apply list_elem_of_In, in_concat. exists toks.
      by rewrite <-!list_elem_of_In. }
    specialize (Hno t Hcat). lia. }
  simpl. by destruct (_ <? _)%Z.
Qed.

Lemma lookup_column_set_column name v cols :
  Pd.lookup_column name (Pd.set_column name v cols) = Some v.
Proof.
  induction cols as [|[n w] cols IH]; simpl.
  - by rewrite String.eqb_refl.
  - destruct (String.eqb n name) eqn:E; simpl; by rewrite E.
Qed.

Lemma as_documents_strings (l : list string) :
  as_documents (map CStr l) = inr l.
Proof.
  unfold as_documents. induction l as [|s l IH]; simpl; [done|].
  by rewrite IH.
Qed.

(** What [main] hands to the vectorizer. *)
Lemma preprocessed_texts df column :
  Pd.getitem df "combined_text" = inr column → length column = Pd.nrows df →
  ∃ df', preprocess_dataframe df "combined_text" = inr df' ∧
         Pd.nrows df' = Pd.nrows df ∧
         Pd.getitem df' "preprocessed_text"
           = inr (map CStr (map preprocess_text column)).
Proof.
  intros Hcol Hlen. unfold preprocess_dataframe. rewrite Hcol. simpl.
  unfold Pd.setitem. rewrite length_map, Hlen, Nat.eqb_refl.
  eexists. split; [done|]. split; [done|].
  unfold Pd.getitem. simpl. rewrite lookup_column_set_column.
  by rewrite map_map.
Qed.

(** C4, as amended: when the corpus is empty, or no term of it reaches
    [MIN_DF] documents, the vectorizer raises [ValueError]; [main] does not
    catch it, so the run ends on that exception after the banner of step 3,
    having written the processed data and nothing else: neither the
    projection nor the clustering has run. *)
Theorem main_stops_without_vocabulary cfg w df column :
  is_Some (fs w !! CSV_PATH cfg) →
  load_data (CSV_PATH cfg) (fs w) = inr df →
  Pd.getitem df "combined_text" = inr column → length column = Pd.nrows df →
  (∀ t, t ∈ concat (map Tfidf.analyze (map preprocess_text column)) →
     (Z.of_nat (Tfidf.doc_freq
                  (map Tfidf.analyze (map preprocess_text column)) t)
      < MIN_DF cfg)%Z) →
  ∃ msg df',
    preprocess_dataframe df "combined_text" = inr df' ∧
    main_with cfg w =
      (inl (Py.ValueError msg),
       set_stdout (stdout w ++ ["[Step 1] Loading data...";
                                "[Step 2] Preprocessing text...";
                                "[Step 3] Creating TF-IDF vectors..."])
         (set_fs (<[Py.path_join DATA_DIR "processed_data.csv" := FCsv df']>
                    (fs w)) w)).
Proof.
  intros Hcsv Hload Hcol Hlen Hno.
  destruct (preprocessed_texts df column Hcol Hlen) as (df' & Hpre & _ & Hget).
  destruct (fit_transform_no_qualifying_term
              (create_tfidf_vectorizer (MAX_FEATURES cfg) (MIN_DF cfg))
              (map preprocess_text column) Hno) as [msg Hfit].
  exists msg, df'. split; [done|].
  unfold main_with, bind, create_output_directories, ret, print, path_exists,
    lift, save_processed_data, write_file. simpl.
  rewrite bool_decide_eq_true_2 by done. simpl.
  rewrite Hload, Hpre. simpl. rewrite Hget, as_documents_strings.
  unfold vectorize_texts. rewrite Hfit. unfold set_stdout, set_fs. simpl.
  by rewrite <-!app_assoc.
Qed.

(** ** The effective number of components *)

Lemma apply_lsi_inr X k seed w V m w' :
  apply_lsi X k seed w = (inr (V, m), w') →
  ∃ g, (TruncatedSVD_fit_transform
          (mkSVD (Z.min k (Z.of_nat (csr_shape X).2 - 1)) seed "randomized" 5
             None 0) X g).1 = inr (V, m).
Proof.
  unfold apply_lsi. intros H.
  apply bind_inr in H as (u & w1 & _ & H).
  apply bind_inr in H as ([V' m'] & w2 & E & H).
  injection H as <- <- _.
  unfold with_random_state in E. destruct seed as [s|].
  - injection E as E _. by eexists.
  - injection E as E _. by eexists.
Qed.

Tactic Notation "bind_inv" hyp(H) "as" simple_intropattern(a) ident(w) ident(E) :=
  apply bind_inr in H as (a & w & E & H).

(** ** Saving and loading *)

Lemma read_file_lookup path f w :
  fs w !! path = Some f → read_file path w = (inr f, w).
Proof. unfold read_file. by intros ->. Qed.

(** Five files on disk are enough for [load_all_for_search]. *)
Lemma load_all_for_search_lookup w vec lsi kmeans vectors df :
  fs w !! Py.path_join MODELS_DIR "tfidf_vectorizer.pkl" = Some (FPickle vec) →
  fs w !! Py.path_join MODELS_DIR "lsi_model.pkl" = Some (FPickle lsi) →
  fs w !! Py.path_join MODELS_DIR "kmeans_model.pkl" = Some (FPickle kmeans) →
  fs w !! Py.path_join EMBEDDINGS_DIR "lsi_vectors.npy" = Some (FNpy vectors) →
  fs w !! Py.path_join DATA_DIR "processed_data.csv" = Some (FCsv df) →
  load_all_for_search w = (inr (vec, lsi, vectors, read_csv_infer df), w).
Proof.
  intros H1 H2 H3 H4 H5.
  unfold load_all_for_search, load_models, load_pickle, load_lsi_vectors,
    load_processed_data, read_csv.
  rewrite (bind_step (bind _ _) _ w (vec, lsi, Some kmeans) w).
  - rewrite (bind_step (bind _ _) _ w vectors w).
    + rewrite (bind_step (bind _ _) _ w (read_csv_infer df) w); [done|].
      by rewrite (bind_step _ _ w (FCsv df) w) by by apply read_file_lookup.
    + by rewrite (bind_step _ _ w (FNpy vectors) w) by by apply read_file_lookup.
  - rewrite (bind_step (bind _ _) _ w vec w).
    2:{ by rewrite (bind_step _ _ w (FPickle vec) w) by by apply read_file_lookup. }
    rewrite (bind_step (bind _ _) _ w lsi w).
    2:{ by rewrite (bind_step _ _ w (FPickle lsi) w) by by apply read_file_lookup. }
    rewrite (bind_step _ _ w true w).
    2:{ unfold path_exists. by rewrite bool_decide_eq_true_2 by by rewrite H3. }
    rewrite (bind_step (bind _ _) _ w (Some kmeans) w); [done|].
    rewrite (bind_step (bind _ _) _ w kmeans w); [done|].
    by rewrite (bind_step _ _ w (FPickle kmeans) w) by by apply read_file_lookup.
Qed.












(** ** Location statistics *)

Lemma count_of_count_key key k counts :
  count_of k (Locations.count_key key counts)
  = if decide (k = key) then S (count_of k counts) else count_of k counts.
Proof.
  induction counts as [|[k' n] rest IH]; simpl.
  - destruct (String.eqb_spec key k), (decide (k = key)); congruence.
  - destruct (String.eqb_spec k' key) as [->|Hne]; simpl.
    + destruct (String.eqb_spec key k), (decide (k = key)); congruence.
    + destruct (String.eqb_spec k' k) as [->|Hne'].
      * by rewrite decide_False by congruence.
      * apply IH.
Qed.

Lemma count_key_keys key counts :
  (Locations.count_key key counts).*1
  = if decide (key ∈ counts.*1) then counts.*1 else counts.*1 ++ [key].
Proof.
  induction counts as [|[k' n] rest IH].
  - case_decide as Hin; [by apply elem_of_nil in Hin|done].
  - cbn [Locations.count_key]. destruct (String.eqb_spec k' key) as [->|Hne].
    + clear IH. case_decide as Hin; [reflexivity|]. destruct Hin. left.
    + rewrite !fmap_cons, IH. cbn [fst].
      destruct (decide (key ∈ rest.*1)) as [Hin|Hin].
      * rewrite decide_True; [done|by right].
      * rewrite decide_False; [done|].
        intros [?|?]%elem_of_cons; simpl in *; congruence.
Qed.

Lemma count_key_NoDup key counts :
  NoDup counts.*1 → NoDup (Locations.count_key key counts).*1.
Proof.
  intros Hnd. rewrite count_key_keys. destruct (decide _); [done|].
  apply NoDup_app. split_and!; [done| |apply NoDup_singleton].
  intros x Hx ->%list_elem_of_singleton. done.
Qed.

Lemma count_key_positive key counts :
  Forall (λ p, 0 < p.2) counts →
  Forall (λ p, 0 < p.2) (Locations.count_key key counts).
Proof.
  induction 1 as [|[k n] rest Hp Hrest IH]; simpl.
  - repeat constructor.
  - destruct (String.eqb k key); constructor; simpl in *; auto with lia.
Qed.

Lemma count_of_elem_of k n counts :
  NoDup counts.*1 → (k, n) ∈ counts → count_of k counts = n.
Proof.
  induction counts as [|[k' n'] rest IH]; simpl; intros Hnd Hin.
  - by apply elem_of_nil in Hin.
  - apply NoDup_cons in Hnd as [Hfresh Hnd].
    apply elem_of_cons in Hin as [[= <- <-]|Hin].
    + by rewrite String.eqb_refl.
    + destruct (String.eqb_spec k' k) as [->|_]; [|by apply IH].
      destruct Hfresh. apply list_elem_of_fmap. by exists (k, n).
Qed.

Lemma elem_of_count_of k counts :
  0 < count_of k counts → (k, count_of k counts) ∈ counts.
Proof.
  induction counts as [|[k' n'] rest IH]; simpl; [lia|].
  destruct (String.eqb_spec k' k) as [->|_]; intros Hpos.
  - left.
  - right. by apply IH.
Qed.

Lemma count_field_snoc field results r :
  Locations.count_field field (results ++ [r])
  = match Locations.present (field r) with
    | Some key => Locations.count_key key (Locations.count_field field results)
    | None => Locations.count_field field results
    end.
Proof. unfold Locations.count_field. by rewrite foldl_snoc. Qed.

Lemma occurrences_snoc field k results r :
  occurrences field k (results ++ [r])
  = occurrences field k results
    + (if decide (Locations.present (field r) = Some k) then 1 else 0).
Proof.
  unfold occurrences. rewrite filter_app, length_app, filter_cons.
  by case_decide.
Qed.

Lemma count_field_spec field results :
  NoDup (Locations.count_field field results).*1 ∧
  Forall (λ p, 0 < p.2) (Locations.count_field field results) ∧
  ∀ k, count_of k (Locations.count_field field results)
       = occurrences field k results.
Proof.
  induction results as [|r results (Hnd & Hpos & Hcount)] using rev_ind.
  - split_and!; [constructor|constructor|done].
  - rewrite count_field_snoc.
    destruct (Locations.present (field r)) as [key|] eqn:Hkey.
    + split_and!; [by apply count_key_NoDup|by apply count_key_positive|].
      intros k. rewrite count_of_count_key, Hcount, occurrences_snoc, Hkey.
      destruct (decide (k = key)) as [->|Hne].
      * rewrite decide_True by done. lia.
      * rewrite decide_False by congruence. lia.
    + split_and!; [done|done|].
      intros k. rewrite Hcount, occurrences_snoc, Hkey.
      rewrite decide_False by done. lia.
Qed.

Lemma count_field_elem_of field results k n :
  (k, n) ∈ Locations.count_field field results
  ↔ 0 < n ∧ n = occurrences field k results.
Proof.
  destruct (count_field_spec field results) as (Hnd & Hpos & Hcount). split.
  - intros Hin. split.
    + by apply (proj1 (Forall_forall _ _) Hpos (k, n)).
    + by rewrite <- Hcount; symmetry; apply count_of_elem_of.
  - intros [Hn ->]. rewrite <- Hcount in *. by apply elem_of_count_of.
Qed.

Lemma insert_desc_Permutation x l : Locations.insert_desc x l ≡ₚ x :: l.
Proof.
  induction l as [|y l IH]; simpl; [done|].
  destruct (_ <? _); [|done]. rewrite IH. apply perm_swap.
Qed.

Lemma sorted_by_count_Permutation l : Locations.sorted_by_count l ≡ₚ l.
Proof.
  induction l as [|x l IH]; simpl; [done|].
  unfold Locations.sorted_by_count in *. simpl.
  by rewrite insert_desc_Permutation, IH.
Qed.

Lemma insert_desc_sorted x l :
  StronglySorted (λ a b, b.2 ≤ a.2) l →
  StronglySorted (λ a b, b.2 ≤ a.2) (Locations.insert_desc x l).
Proof.
  induction 1 as [|y l Hl IH Hy]; simpl; [repeat constructor|].
  destruct (Nat.ltb_spec x.2 y.2).
  - constructor; [done|]. rewrite insert_desc_Permutation.
    constructor; [lia|done].
  - constructor; [by constructor|]. constructor; [lia|].
    eapply Forall_impl; [exact Hy|]. simpl. lia.
Qed.

Lemma sorted_by_count_sorted l :
  StronglySorted (λ a b, b.2 ≤ a.2) (Locations.sorted_by_count l).
Proof.
  induction l as [|x l IH]; [constructor|]. by apply insert_desc_sorted.
Qed.

Lemma slice_to_take {A} (l : list A) k : ∃ m, Py.slice_to l k = take m l.
Proof. unfold Py.slice_to. destruct (_ <? _)%Z; eauto. Qed.

Lemma analyze_locations_eq results top_n :
  analyze_locations results top_n
  = mkLocationStats (length results)
      (Locations.count_field borough results)
      (Py.slice_to (Locations.sorted_by_count
                      (Locations.count_field street_name results)) top_n)
      (Py.slice_to (Locations.sorted_by_count
                      (Locations.count_field incident_zip results)) top_n).
Proof.
  destruct results; [|done]. unfold Py.slice_to. simpl.
  by destruct (_ <? _)%Z; rewrite ?take_nil.
Qed.

Lemma occurrences_present field k results :
  k ≠ "" →
  occurrences field k results = length (filter (λ r, field r = Some k) results).
Proof.
  intros Hk. unfold occurrences. f_equal. apply list_filter_iff. intros r.
  unfold Locations.present. destruct (field r) as [s|]; [|done].
  destruct (String.eqb_spec s ""); naive_solver.
Qed.

Lemma occurrences_blank field results : occurrences field "" results = 0.
Proof.
  unfold occurrences. induction results as [|r results IH]; [done|].
  rewrite filter_cons. case_decide as Hr; [|done]. exfalso.
  unfold Locations.present in Hr. destruct (field r) as [s|]; [|done].
  by destruct (String.eqb_spec s ""); simplify_eq.
Qed.

Lemma occurrences_positive field k results :
  0 < occurrences field k results → k ≠ "".
Proof. intros Hpos ->. rewrite occurrences_blank in Hpos. lia. Qed.

Lemma sum_count_key key counts :
  sum_list (Locations.count_key key counts).*2 = S (sum_list counts.*2).
Proof.
  induction counts as [|[k n] rest IH]; [done|]. cbn [Locations.count_key].
  destruct (String.eqb k key); rewrite !fmap_cons; cbn [snd sum_list].
  - done.
  - rewrite IH. lia.
Qed.

Lemma sum_count_field field results :
  sum_list (Locations.count_field field results).*2
  = length (filter (λ r, is_Some (Locations.present (field r))) results).
Proof.
  induction results as [|r results IH] using rev_ind; [done|].
  rewrite count_field_snoc, filter_app, length_app, filter_cons.
  destruct (Locations.present (field r)) as [key|].
  - rewrite sum_count_key, IH, decide_True by done. simpl. lia.
  - rewrite IH, decide_False by (by intros [??]). simpl. lia.
Qed.

Lemma count_field_keys field results :
  (Locations.count_field field results).*1 ≡ₚ distinct_values field results.
Proof.
  destruct (count_field_spec field results) as (Hnd & Hpos & Hcount).
  apply NoDup_Permutation; [done|apply NoDup_remove_dups|].
  intros k. unfold distinct_values. rewrite elem_of_remove_dups, list_elem_of_omap.
  rewrite list_elem_of_fmap. split.
  - intros [[k' n] [-> [Hn Hocc]%count_field_elem_of]]. simpl.
    unfold occurrences in Hocc.
    destruct (filter _ results) as [|r rest] eqn:Hf; [simpl in *; lia|].
    assert (r ∈ filter (λ r, Locations.present (field r) = Some k') results)
      as [??]%list_elem_of_filter by (rewrite Hf; left).
    eauto.
  - intros (r & Hr & Hk). exists (k, occurrences field k results). split; [done|].
    apply count_field_elem_of. split; [|done]. unfold occurrences.
    assert (r ∈ filter (λ r, Locations.present (field r) = Some k) results)
      as Hin by by apply list_elem_of_filter.
    destruct (filter _ results); [by apply elem_of_nil in Hin|simpl; lia].
Qed.

Lemma top_counts_spec field results top_n :
  top_counts field results
    (Py.slice_to (Locations.sorted_by_count
                    (Locations.count_field field results)) top_n).
Proof.
  destruct (count_field_spec field results) as (Hnd & Hpos & Hcount).
  pose proof (sorted_by_count_Permutation (Locations.count_field field results))
    as Hperm.
  pose proof (sorted_by_count_sorted (Locations.count_field field results))
    as Hsorted.
  destruct (slice_to_take (Locations.sorted_by_count
              (Locations.count_field field results)) top_n) as [m ->].
  set (sorted := Locations.sorted_by_count _) in *.
  assert (NoDup sorted.*1) as Hnd' by by rewrite Hperm.
  split_and!.
  - by apply StronglySorted_take.
  - rewrite <- (take_drop m sorted), fmap_app in Hnd'.
    by apply NoDup_app in Hnd' as (? & _ & _).
  - intros k n Hin.
    assert ((k, n) ∈ Locations.count_field field results) as Hin'.
    { rewrite <- Hperm. eapply subseteq_take, Hin. }
    apply count_field_elem_of in Hin' as [Hn ->].
    pose proof (occurrences_positive _ _ _ Hn) as Hk.
    rewrite occurrences_present in * by done. done.
  - intros k n k' Hin Hout Hk'.
    rewrite <- occurrences_present by done.
    destruct (decide (0 < occurrences field k' results)) as [Hpos'|]; [|lia].
    assert ((k', occurrences field k' results) ∈ sorted) as Hin'.
    { rewrite Hperm. by apply count_field_elem_of. }
    rewrite <- (take_drop m sorted) in Hin', Hsorted.
    apply elem_of_app in Hin' as [Hin'|Hin'].
    { destruct Hout. apply list_elem_of_fmap. by eexists (_, _). }
    by apply (StronglySorted_app_1_elem_of _ _ _ _ _ Hsorted Hin Hin').
Qed.

(** X1. [analyze_locations] lists every borough once; a borough is listed
    with a count exactly when its name is not empty and that many results,
    at least one, carry it; results without a borough are passed over, so
    the counts add up to no more than [total]. *)
Theorem analyze_locations_borough_counts results top_n :
  let stats := analyze_locations results top_n in
  NoDup (borough_counts stats).*1 ∧
  (∀ name n,
     (name, n) ∈ borough_counts stats
     ↔ name ≠ "" ∧ 0 < n ∧
       n = length (filter (λ r, borough r = Some name) results)) ∧
  total stats = length results ∧
  sum_list (borough_counts stats).*2 ≤ total stats.
Proof.
  rewrite analyze_locations_eq. cbn [borough_counts total].
  destruct (count_field_spec borough results) as (Hnd & _ & _).
  split_and!; [done| |done|].
  - intros name n. rewrite count_field_elem_of. split.
    + intros [Hn ->]. pose proof (occurrences_positive _ _ _ Hn).
      by rewrite occurrences_present in *.
    + intros (Hname & Hn & ->). by rewrite occurrences_present.
  - rewrite sum_count_field. apply length_filter.
Qed.

(** X2. The street and zip lists of [analyze_locations] are in
    non-increasing order of count, hold no value twice, give each value
    the number of results that carry it, and leave out no value that
    occurs more often than a listed one. *)
Theorem analyze_locations_top_counts results top_n :
  let stats := analyze_locations results top_n in
  top_counts street_name results (street_counts stats) ∧
  top_counts incident_zip results (zip_counts stats).
Proof.
  rewrite analyze_locations_eq. cbn [street_counts zip_counts].
  split; apply top_counts_spec.
Qed.

(** X3. For a non-negative [top_n], [analyze_locations] lists [top_n]
    streets (zip codes), or all the distinct ones when there are fewer. *)
Theorem analyze_locations_top_n results top_n :
  (0 ≤ top_n)%Z →
  let stats := analyze_locations results top_n in
  length (street_counts stats)
    = Z.to_nat top_n `min` length (distinct_values street_name results) ∧
  length (zip_counts stats)
    = Z.to_nat top_n `min` length (distinct_values incident_zip results).
Proof.
  intros Hn. rewrite analyze_locations_eq. cbn [street_counts zip_counts].
  unfold Py.slice_to. rewrite (proj2 (Z.ltb_ge _ _)) by done.
  rewrite !length_take, <- !count_field_keys, !length_fmap.
  by rewrite !sorted_by_count_Permutation.
Qed.

(** ** Text preprocessing *)

Lemma list_ascii_of_string_app s1 s2 :
  list_ascii_of_string (s1 ++ s2)
  = (list_ascii_of_string s1 ++ list_ascii_of_string s2)%list.
Proof. induction s1 as [|c s1 IH]; simpl; [done|by rewrite IH]. Qed.

Lemma join_chars words :
  list_ascii_of_string (Text.join words)
  = joined (map list_ascii_of_string words).
Proof.
  unfold Text.join. induction words as [|w [|w' ws] IH]; [done|done|].
  change (String.concat " " (w :: w' :: ws))
    with (w ++ " " ++ String.concat " " (w' :: ws))%string.
  rewrite !list_ascii_of_string_app, IH. done.
Qed.

Lemma filter_all {A} (P : A → Prop) `{!∀ x, Decision (P x)} (l : list A) :
  Forall P l → filter P l = l.
Proof.
  induction 1 as [|x l Hx Hl IH]; [done|].
  by rewrite filter_cons, decide_True, IH.
Qed.

Lemma rev_nil_inv {A} (l : list A) : rev l = [] → l = [].
Proof.
  intros H. rewrite <- (rev_involutive l), H. done.
Qed.

Lemma runs_app keep w s cur :
  Forall (λ c, keep c = true) w →
  Text.runs keep (w ++ s) cur = Text.runs keep s (rev w ++ cur).
Proof.
  intros Hw. revert cur. induction Hw as [|c w Hc Hw IH]; intros cur; [done|].
  simpl. rewrite Hc, IH. by rewrite <- app_assoc.
Qed.

(** The runs of a text made of words of [keep] characters with one
    character outside [keep] between them are these words. *)
Lemma runs_joined keep words :
  keep " "%char = false →
  Forall (λ w, w ≠ [] ∧ Forall (λ c, keep c = true) w) words →
  Text.runs keep (joined words) [] = words.
Proof.
  intros Hsp. induction 1 as [|w ws [Hne Hw] Hws IH]; [done|].
  destruct ws as [|w' ws].
  - simpl. rewrite <- (app_nil_r w) at 1. rewrite runs_app by done.
    simpl. rewrite app_nil_r. destruct (rev w) eqn:Hrev.
    + by apply rev_nil_inv in Hrev.
    + by rewrite <- Hrev, rev_involutive.
  - change (joined (w :: w' :: ws)) with (w ++ " "%char :: joined (w' :: ws)).
    rewrite runs_app by done. cbn [Text.runs]. rewrite Hsp, app_nil_r.
    destruct (rev w) eqn:Hrev.
    + by apply rev_nil_inv in Hrev.
    + by rewrite <- Hrev, rev_involutive, IH.
Qed.

Lemma runs_Forall keep (P : ascii → Prop) s cur :
  Forall P s → Forall P cur →
  Forall (λ w, w ≠ [] ∧ Forall P w) (Text.runs keep s cur).
Proof.
  intros Hs. revert cur. induction Hs as [|c s Hc Hs IH]; intros cur Hcur; simpl.
  - destruct cur as [|c cur]; [constructor|]. constructor; [|constructor].
    split.
    + by intros ?%rev_nil_inv.
    + rewrite Forall_forall in *. intros x Hx. apply Hcur.
      by apply list_elem_of_In, in_rev, list_elem_of_In.
  - destruct (keep c).
    + apply IH. by constructor.
    + destruct cur as [|c' cur]; [by apply IH|]. constructor; [|by apply IH].
      split.
      * by intros ?%rev_nil_inv.
      * rewrite Forall_forall in *. intros x Hx. apply Hcur.
        by apply list_elem_of_In, in_rev, list_elem_of_In.
Qed.

Lemma runs_keep keep s cur :
  Forall (λ c, keep c = true) cur →
  Forall (Forall (λ c, keep c = true)) (Text.runs keep s cur).
Proof.
  revert cur. induction s as [|c s IH]; intros cur Hcur; simpl.
  - destruct cur; [constructor|]. repeat constructor.
    rewrite Forall_forall in *. intros x Hx. apply Hcur.
    by apply list_elem_of_In, in_rev, list_elem_of_In.
  - destruct (keep c) eqn:Hc.
    + apply IH. by constructor.
    + destruct cur as [|c' cur]; [by apply IH|]. constructor; [|by apply IH].
      rewrite Forall_forall in *. intros x Hx. apply Hcur.
      by apply list_elem_of_In, in_rev, list_elem_of_In.
Qed.

Ltac by_cases_on c :=
  destruct c as [[] [] [] [] [] [] [] []]; vm_compute; intuition congruence.

Lemma is_lower_not_space c : Text.is_lower c = true → Text.is_space c = false.
Proof. by_cases_on c. Qed.

Lemma is_lower_is_word c : Text.is_lower c = true → Text.is_word c = true.
Proof. by_cases_on c. Qed.

Lemma lower_char_lower c : Text.is_lower c = true → Text.lower_char c = c.
Proof. by_cases_on c. Qed.

Lemma plain_not_space c : plain c → Text.is_space c = false → Text.is_lower c = true.
Proof. by intros [?| ->]. Qed.

Lemma lower_char_plain s : Forall plain s → map Text.lower_char s = s.
Proof.
  induction 1 as [|c s [Hc| ->] Hs IH]; simpl; [done| |].
  - by rewrite lower_char_lower, IH.
  - by rewrite IH.
Qed.

Lemma sub_non_letters_plain s : Forall plain s → Text.sub_non_letters s = s.
Proof.
  unfold Text.sub_non_letters.
  induction 1 as [|c s [Hc| ->] Hs IH]; simpl; [done| |].
  - by rewrite Hc, IH.
  - by rewrite IH.
Qed.

Lemma sub_non_letters_chars s :
  Forall (λ c, Text.is_lower c = true ∨ Text.is_space c = true)
    (Text.sub_non_letters s).
Proof.
  unfold Text.sub_non_letters. apply Forall_fmap, Forall_forall. intros c _.
  simpl. destruct (Text.is_lower c) eqn:?; [by left|].
  destruct (Text.is_space c) eqn:?; simpl; by right.
Qed.

Lemma sub_spaces_plain s b :
  Forall (λ c, Text.is_lower c = true ∨ Text.is_space c = true) s →
  Forall plain (Text.sub_spaces s b).
Proof.
  intros Hs. revert b. induction Hs as [|c s Hc Hs IH]; intros b; simpl; [done|].
  destruct (Text.is_space c) eqn:Hsp.
  - destruct b; [apply IH|]. constructor; [by right|apply IH].
  - constructor; [|apply IH]. left. by destruct Hc as [?|?]; [|congruence].
Qed.

Lemma lstrip_Forall (P : ascii → Prop) s : Forall P s → Forall P (Text.lstrip s).
Proof.
  induction 1 as [|c s Hc Hs IH]; simpl; [done|].
  destruct (Text.is_space c); [done|by constructor].
Qed.

Lemma strip_Forall (P : ascii → Prop) s : Forall P s → Forall P (Text.strip s).
Proof.
  intros Hs. unfold Text.strip.
  apply Forall_rev, lstrip_Forall, Forall_rev, lstrip_Forall, Hs.
Qed.

(** The words that [split] finds in a text of letters and blanks. *)
Lemma split_plain s : Forall plain s → Forall lower_word (Text.split s).
Proof.
  intros Hs. unfold Text.split. apply Forall_fmap.
  pose proof (runs_Forall (λ c, negb (Text.is_space c)) plain s [] Hs
                (Forall_nil_2 _)) as Hruns.
  pose proof (runs_keep (λ c, negb (Text.is_space c)) s [] (Forall_nil_2 _))
    as Hkeep.
  rewrite Forall_forall in *. intros w Hw.
  destruct (Hruns w Hw) as [Hne Hplain]. specialize (Hkeep w Hw). split; simpl.
  - destruct w; [done|]. done.
  - rewrite list_ascii_of_string_of_list_ascii, Forall_forall in *.
    intros c Hc. apply plain_not_space; [by apply Hplain|].
    by apply negb_true_iff, Hkeep.
Qed.

Lemma lower_word_chars w :
  lower_word w →
  list_ascii_of_string w ≠ [] ∧
  Forall (λ c, Text.is_lower c = true) (list_ascii_of_string w).
Proof.
  intros [Hne Hw]. split; [|done]. by destruct w.
Qed.

Lemma joined_plain words :
  Forall (Forall (λ c, Text.is_lower c = true)) words → Forall plain (joined words).
Proof.
  induction 1 as [|w ws Hw Hws IH]; [constructor|].
  assert (Forall plain w) as Hp by (eapply Forall_impl; [done|by left]).
  destruct ws as [|w' ws]; [done|].
  change (joined (w :: w' :: ws)) with (w ++ " "%char :: joined (w' :: ws)).
  apply Forall_app. split; [done|]. constructor; [by right|done].
Qed.

Lemma sub_spaces_word w rest b :
  w ≠ [] → Forall (λ c, Text.is_space c = false) w →
  Text.sub_spaces (w ++ rest) b = w ++ Text.sub_spaces rest false.
Proof.
  intros Hne Hw. revert b. induction Hw as [|c w Hc Hw IH]; intros b; [done|].
  simpl. rewrite Hc. f_equal. destruct w as [|c' w]; [done|]. by apply IH.
Qed.

Lemma sub_spaces_joined words b :
  Forall (λ w, w ≠ [] ∧ Forall (λ c, Text.is_space c = false) w) words →
  Text.sub_spaces (joined words) b = joined words.
Proof.
  intros Hws. revert b. induction Hws as [|w ws [Hne Hw] Hws IH]; intros b; [done|].
  destruct ws as [|w' ws].
  - simpl. rewrite <- (app_nil_r w) at 1. rewrite sub_spaces_word by done.
    simpl. by rewrite app_nil_r.
  - change (joined (w :: w' :: ws)) with (w ++ " "%char :: joined (w' :: ws)).
    rewrite sub_spaces_word by done. f_equal. simpl Text.sub_spaces at 1.
    change (Text.is_space " ") with true. cbn iota. by rewrite IH.
Qed.

Lemma lstrip_head c s : Text.is_space c = false → Text.lstrip (c :: s) = c :: s.
Proof. intros Hc. simpl. by rewrite Hc. Qed.

Lemma joined_ends words :
  Forall (λ w, w ≠ [] ∧ Forall (λ c, Text.is_space c = false) w) words →
  words = [] ∨
  (∃ c s, joined words = c :: s ∧ Text.is_space c = false) ∧
  (∃ c s, joined words = s ++ [c] ∧ Text.is_space c = false).
Proof.
  induction 1 as [|w ws [Hne Hw] Hws IH]; [by left|]. right. split.
  - destruct w as [|c w]; [done|]. apply Forall_cons in Hw as [Hc _].
    destruct ws; simpl; eauto.
  - destruct IH as [->|[_ (c & s & Hs & Hc)]].
    + simpl. destruct w as [|c w _] using rev_ind; [done|].
      apply Forall_app in Hw as [_ [Hc _]%Forall_cons]. eauto.
    + destruct ws as [|w' ws]; [by destruct s|].
      change (joined (w :: w' :: ws)) with (w ++ " "%char :: joined (w' :: ws)).
      rewrite Hs. exists c, (w ++ " "%char :: s). split; [|done].
      by rewrite <- app_assoc.
Qed.

Lemma strip_joined words :
  Forall (λ w, w ≠ [] ∧ Forall (λ c, Text.is_space c = false) w) words →
  Text.strip (joined words) = joined words.
Proof.
  intros [->|[(c & s & Hhead & Hc) (c' & s' & Hlast & Hc')]]%joined_ends; [done|].
  unfold Text.strip. rewrite Hhead, lstrip_head by done. rewrite <- Hhead, Hlast.
  rewrite rev_app_distr. simpl. rewrite Hc'. simpl.
  by rewrite rev_involutive.
Qed.

(** What [preprocess_text] makes of a text is a fixed point of its steps,
    and its words are the tokens of the vectorizer. *)
Lemma join_lower_words words :
  Forall lower_word words →
  let text := list_ascii_of_string (Text.join words) in
  Forall plain text ∧
  Text.strip (Text.sub_spaces
                (Text.sub_non_letters (map Text.lower_char text)) false) = text ∧
  Text.split text = words ∧
  Text.findall_words (Text.join words) = words.
Proof.
  intros Hws text. subst text. rewrite join_chars.
  set (ws := map list_ascii_of_string words).
  assert (Forall (λ w, w ≠ [] ∧ Forall (λ c, Text.is_lower c = true) w) ws)
    as Hlower.
  { apply Forall_fmap. eapply Forall_impl; [exact Hws|].
    intros w. apply lower_word_chars. }
  assert (Forall (λ w, w ≠ [] ∧ Forall (λ c, Text.is_space c = false) w) ws)
    as Hnosp.
  { eapply Forall_impl; [exact Hlower|]. intros w [? Hw]. split; [done|].
    eapply Forall_impl; [exact Hw|]. apply is_lower_not_space. }
  assert (map string_of_list_ascii ws = words) as Hback.
  { unfold ws. rewrite <- list_fmap_compose. rewrite <- (list_fmap_id words) at 2.
    apply list_fmap_ext. intros _ w _. apply string_of_list_ascii_of_string. }
  assert (Forall plain (joined ws)) as Hplain.
  { apply joined_plain. eapply Forall_impl; [exact Hlower|]. by intros w [_ ?]. }
  split_and!.
  - done.
  - rewrite lower_char_plain, sub_non_letters_plain by done.
    by rewrite sub_spaces_joined, strip_joined.
  - unfold Text.split. rewrite runs_joined; [done|done|].
    eapply Forall_impl; [exact Hnosp|]. intros w [? Hw]. split; [done|].
    eapply Forall_impl; [exact Hw|]. simpl. by intros c ->.
  - unfold Text.findall_words. rewrite join_chars. fold ws.
    rewrite runs_joined; [|done|].
    + rewrite filter_all; [done|].
      eapply Forall_impl; [exact Hlower|]. intros w [_ Hw].
      simpl. apply forallb_forall. rewrite Forall_forall in Hw.
      intros c Hc. by apply Hw, list_elem_of_In.
    + eapply Forall_impl; [exact Hlower|]. intros w [? Hw]. split; [done|].
      eapply Forall_impl; [exact Hw|]. apply is_lower_is_word.
Qed.

Lemma preprocess_text_words text :
  ∃ words,
    preprocess_text text = Text.join words ∧
    Forall lower_word words ∧ Forall (λ w, w ∉ STOP_WORDS) words.
Proof.
  unfold preprocess_text. eexists. split; [done|]. split.
  - eapply Forall_impl.
    + apply Forall_forall. intros w Hw%list_elem_of_filter. exact Hw.
    + simpl. intros w [_ Hw]. revert w Hw. apply Forall_forall, split_plain.
      apply strip_Forall, sub_spaces_plain, sub_non_letters_chars.
  - apply Forall_forall. by intros w [? _]%list_elem_of_filter.
Qed.

(** X4. What [preprocess_text] returns holds lower-case letters and
    blanks only; it is its words joined by single blanks, and each word is
    made of letters and is not a stop word. *)
Theorem preprocess_text_shape text :
  let chars := list_ascii_of_string (preprocess_text text) in
  Forall plain chars ∧
  Text.join (Text.split chars) = preprocess_text text ∧
  Forall (λ w, lower_word w ∧ w ∉ STOP_WORDS) (Text.split chars).
Proof.
  destruct (preprocess_text_words text) as (words & -> & Hlower & Hstop).
  destruct (join_lower_words words Hlower) as (Hplain & _ & Hsplit & _).
  cbn zeta. rewrite Hsplit. split_and!; [done|done|].
  apply Forall_and. done.
Qed.

(** X5. [preprocess_text] is idempotent: a text that went through it is
    left as it is by a second pass. *)
Theorem preprocess_text_idempotent text :
  preprocess_text (CStr (preprocess_text text)) = preprocess_text text.
Proof.
  destruct (preprocess_text_words text) as (words & -> & Hlower & Hstop).
  destruct (join_lower_words words Hlower) as (_ & Hfix & Hsplit & _).
  unfold preprocess_text at 1. cbn [py_str].
  rewrite Hfix, Hsplit. by rewrite filter_all.
Qed.

(** X6. The tokens that the vectorizer finds in a preprocessed text are
    the words of that text, all of them and in their order. *)
Theorem preprocess_text_tokens text :
  Tfidf.analyze (preprocess_text text)
  = Text.split (list_ascii_of_string (preprocess_text text)).
Proof.
  destruct (preprocess_text_words text) as (words & -> & Hlower & Hstop).
  destruct (join_lower_words words Hlower) as (_ & _ & -> & Htokens).
  exact Htokens.
Qed.

Lemma lookup_column_set_column_ne name name' v cols :
  name' ≠ name →
  Pd.lookup_column name' (Pd.set_column name v cols) = Pd.lookup_column name' cols.
Proof.
  intros Hne. induction cols as [|[n w] cols IH]; simpl.
  - by destruct (String.eqb_spec name name').
  - destruct (String.eqb_spec n name) as [->|]; simpl.
    + by destruct (String.eqb_spec name name').
    + by rewrite IH.
Qed.

Lemma set_column_lengths name v cols n :
  length v = n → Forall (λ c, length c.2 = n) cols →
  Forall (λ c, length c.2 = n) (Pd.set_column name v cols).
Proof.
  intros Hv. induction 1 as [|[k w] cols Hc Hcols IH]; simpl.
  - by repeat constructor.
  - destruct (String.eqb k name); by constructor.
Qed.

(** X7. [preprocess_dataframe] raises [KeyError] when the frame has no
    column of the given name; otherwise it returns a frame of as many rows
    whose column [preprocessed_text] holds the preprocessed cells, every
    other column being as it was. *)
Theorem preprocess_dataframe_columns df text_column :
  frame_ok df →
  match Pd.lookup_column text_column (Pd.columns df) with
  | None => preprocess_dataframe df text_column = inl (Py.KeyError text_column)
  | Some column =>
      ∃ df',
        preprocess_dataframe df text_column = inr df' ∧
        Pd.nrows df' = Pd.nrows df ∧ frame_ok df' ∧
        Pd.getitem df' "preprocessed_text"
          = inr (map (λ c, CStr (preprocess_text c)) column) ∧
        ∀ name, name ≠ "preprocessed_text" →
                Pd.getitem df' name = Pd.getitem df name
  end.
Proof.
  intros Hok. unfold preprocess_dataframe, Pd.getitem.
  destruct (Pd.lookup_column _ _) as [column|] eqn:Hcol; [|done].
  assert (length column = Pd.nrows df) as Hlen.
  { pose proof Hcol as [n Hin]%lookup_column_elem_of. unfold frame_ok in Hok.
    rewrite Forall_forall in Hok. apply (Hok _ Hin). }
  simpl. unfold Pd.setitem. rewrite length_map, Hlen, Nat.eqb_refl.
  eexists. split; [done|]. split_and!; simpl.
  - done.
  - apply set_column_lengths; [by rewrite length_map|done].
  - by rewrite lookup_column_set_column.
  - intros name Hname. by rewrite lookup_column_set_column_ne.
Qed.

(** ** Persistence *)

Lemma read_file_written path f w :
  read_file path (set_fs (<[path := f]> (fs w)) w)
  = (inr f, set_fs (<[path := f]> (fs w)) w).
Proof. apply read_file_lookup, lookup_insert_eq. Qed.

Lemma with_extension_present file extension :
  Py.endswith file extension = true → with_extension file extension = file.
Proof. unfold with_extension. by intros ->. Qed.

Lemma with_extension_absent file extension :
  Py.endswith file extension = false →
  with_extension file extension = file +:+ extension.
Proof. unfold with_extension. by intros ->. Qed.

Lemma append_ne (s t : string) : t ≠ "" → s +:+ t ≠ s.
Proof.
  intros Ht. induction s as [|a s IH]; simpl; [done|].
  intros [= H]. by apply IH.
Qed.

Lemma read_file_missing path w :
  fs w !! path = None → read_file path w = (inl (Py.FileNotFoundError path), w).
Proof. unfold read_file. by intros ->. Qed.

(** What a saver leaves for the loaders, by the path it is given. *)
Lemma saved_under_extension path extension f w :
  let w1 := set_fs (<[with_extension path extension := f]> (fs w)) w in
  extension ≠ "" →
  (Py.endswith path extension = true → read_file path w1 = (inr f, w1)) ∧
  (Py.endswith path extension = false → fs w !! path = None →
   read_file path w1 = (inl (Py.FileNotFoundError path), w1) ∧
   read_file (path +:+ extension) w1 = (inr f, w1)).
Proof.
  intros w1 Hext. split.
  - intros H. apply read_file_lookup. subst w1. cbn [fs set_fs].
    rewrite (with_extension_present _ _ H). apply lookup_insert_eq.
  - intros H Hnone. subst w1. rewrite (with_extension_absent _ _ H). split.
    + apply read_file_missing. cbn [fs set_fs].
      rewrite lookup_insert_ne by by apply append_ne. done.
    + apply read_file_lookup, lookup_insert_eq.
Qed.

(** X8. [sparse.save_npz] and [np.save] write under the path with the
    extension [.npz] or [.npy], which they append to a path that lacks
    it, and the loaders open the path as it is given.  So what
    [save_tfidf_vectors] and [save_lsi_vectors] store under a path with
    the extension, [load_tfidf_vectors] and [load_lsi_vectors] return from
    that path; for a path without it and with no file of that name, the
    loader raises [FileNotFoundError] on the path and finds the data under
    the path with the extension.  With the default paths the savers and
    loaders agree; [load_embeddings] returns the pair that
    [save_embeddings] was given, and [save_embeddings] touches no file but
    its two. *)
Theorem embeddings_round_trip tfidf_matrix lsi_vectors filepath w :
  (Py.endswith filepath ".npz" = true →
   ∃ w1,
     save_tfidf_vectors tfidf_matrix (Some filepath) w = (inr filepath, w1) ∧
     load_tfidf_vectors (Some filepath) w1 = (inr tfidf_matrix, w1)) ∧
  (Py.endswith filepath ".npy" = true →
   ∃ w1,
     save_lsi_vectors lsi_vectors (Some filepath) w = (inr filepath, w1) ∧
     load_lsi_vectors (Some filepath) w1 = (inr lsi_vectors, w1)) ∧
  (Py.endswith filepath ".npz" = false → fs w !! filepath = None →
   ∃ w1,
     save_tfidf_vectors tfidf_matrix (Some filepath) w = (inr filepath, w1) ∧
     load_tfidf_vectors (Some filepath) w1
       = (inl (Py.FileNotFoundError filepath), w1) ∧
     load_tfidf_vectors (Some (filepath +:+ ".npz")) w1
       = (inr tfidf_matrix, w1)) ∧
  (Py.endswith filepath ".npy" = false → fs w !! filepath = None →
   ∃ w1,
     save_lsi_vectors lsi_vectors (Some filepath) w = (inr filepath, w1) ∧
     load_lsi_vectors (Some filepath) w1
       = (inl (Py.FileNotFoundError filepath), w1) ∧
     load_lsi_vectors (Some (filepath +:+ ".npy")) w1
       = (inr lsi_vectors, w1)) ∧
  (∃ w1,
     save_tfidf_vectors tfidf_matrix None w
       = (inr (Py.path_join EMBEDDINGS_DIR "tfidf_vectors.npz"), w1) ∧
     load_tfidf_vectors None w1 = (inr tfidf_matrix, w1)) ∧
  (∃ w1,
     save_lsi_vectors lsi_vectors None w
       = (inr (Py.path_join EMBEDDINGS_DIR "lsi_vectors.npy"), w1) ∧
     load_lsi_vectors None w1 = (inr lsi_vectors, w1)) ∧
  (∃ w1,
     save_embeddings tfidf_matrix lsi_vectors w = (inr tt, w1) ∧
     load_embeddings w1 = (inr (tfidf_matrix, lsi_vectors), w1) ∧
     ∀ path,
       path ≠ Py.path_join EMBEDDINGS_DIR "tfidf_vectors.npz" →
       path ≠ Py.path_join EMBEDDINGS_DIR "lsi_vectors.npy" →
       fs w1 !! path = fs w !! path).
Proof.
  split_and!.
  - intros Hext. eexists. split; [reflexivity|]. unfold load_tfidf_vectors.
    cbn [default].
    destruct (saved_under_extension filepath ".npz" (FNpz tfidf_matrix) w)
      as [Hread _]; [done|].
    by rewrite (bind_step _ _ _ _ _ (Hread Hext)).
  - intros Hext. eexists. split; [reflexivity|]. unfold load_lsi_vectors.
    cbn [default].
    destruct (saved_under_extension filepath ".npy" (FNpy lsi_vectors) w)
      as [Hread _]; [done|].
    by rewrite (bind_step _ _ _ _ _ (Hread Hext)).
  - intros Hext Hnone. eexists. split; [reflexivity|].
    unfold load_tfidf_vectors. cbn [default].
    destruct (saved_under_extension filepath ".npz" (FNpz tfidf_matrix) w)
      as [_ Hread]; [done|].
    destruct (Hread Hext Hnone) as [Hmiss Hfound].
    rewrite (bind_inl _ _ _ _ _ Hmiss). split; [done|].
    by rewrite (bind_step _ _ _ _ _ Hfound).
  - intros Hext Hnone. eexists. split; [reflexivity|].
    unfold load_lsi_vectors. cbn [default].
    destruct (saved_under_extension filepath ".npy" (FNpy lsi_vectors) w)
      as [_ Hread]; [done|].
    destruct (Hread Hext Hnone) as [Hmiss Hfound].
    rewrite (bind_inl _ _ _ _ _ Hmiss). split; [done|].
    by rewrite (bind_step _ _ _ _ _ Hfound).
  - exists (set_fs (<[Py.path_join EMBEDDINGS_DIR "tfidf_vectors.npz"
                      := FNpz tfidf_matrix]> (fs w)) w).
    split; [reflexivity|]. unfold load_tfidf_vectors.
    by erewrite bind_step by apply read_file_written.
  - exists (set_fs (<[Py.path_join EMBEDDINGS_DIR "lsi_vectors.npy"
                      := FNpy lsi_vectors]> (fs w)) w).
    split; [reflexivity|]. unfold load_lsi_vectors.
    by erewrite bind_step by apply read_file_written.
  - exists (set_fs (<[Py.path_join EMBEDDINGS_DIR "lsi_vectors.npy"
                      := FNpy lsi_vectors]>
                     (<[Py.path_join EMBEDDINGS_DIR "tfidf_vectors.npz"
                          := FNpz tfidf_matrix]> (fs w))) w).
    split; [reflexivity|]. split.
    + set (w1 := set_fs _ w).
      assert (read_file (Py.path_join EMBEDDINGS_DIR "tfidf_vectors.npz") w1
              = (inr (FNpz tfidf_matrix), w1)) as H1.
      { apply read_file_lookup. subst w1. cbn [fs set_fs].
        rewrite lookup_insert_ne by done. apply lookup_insert_eq. }
      assert (read_file (Py.path_join EMBEDDINGS_DIR "lsi_vectors.npy") w1
              = (inr (FNpy lsi_vectors), w1)) as H2.
      { apply read_file_lookup, lookup_insert_eq. }
      unfold load_embeddings, load_tfidf_vectors, load_lsi_vectors.
      rewrite (bind_step (bind _ _) _ w1 tfidf_matrix w1)
        by by rewrite (bind_step _ _ _ _ _ H1).
      by rewrite (bind_step (bind _ _) _ w1 lsi_vectors w1)
        by by rewrite (bind_step _ _ _ _ _ H2).
    + intros path H1 H2. cbn [fs set_fs].
      by rewrite !lookup_insert_ne by done.
Qed.

(** X9. [load_metadata] returns what [save_metadata] wrote under the same
    path: the configuration and the dataset information it was given,
    under version 1.0 and the time of the call. *)
Theorem metadata_round_trip config dataset_info filepath w :
  ∃ path w1 md,
    save_metadata config dataset_info filepath w = (inr path, w1) ∧
    load_metadata filepath w1 = (inr md, w1) ∧
    md_configuration md = config ∧ md_dataset_info md = dataset_info ∧
    pipeline_version md = "1.0" ∧ timestamp md = clock w.
Proof.
  set (path := default (Py.path_join EMBEDDINGS_DIR "metadata.json") filepath).
  eexists path, (set_fs (<[path := FJson _]> (fs w)) w), _.
  split; [reflexivity|]. split.
  - unfold load_metadata. fold path.
    by erewrite bind_step by apply read_file_written.
  - done.
Qed.

Lemma drop_set_column name v cols :
  Pd.lookup_column name cols = None →
  filter (λ c, c.1 ≠ name) (Pd.set_column name v cols) = cols.
Proof.
  induction cols as [|[n w] cols IH]; simpl.
  - intros _. by rewrite filter_cons, decide_False by (by intros ?).
  - destruct (String.eqb_spec n name) as [->|Hne]; [done|]. intros Hcols.
    rewrite filter_cons, decide_True by done. by rewrite IH.
Qed.

(** X10. A frame without a column [cluster] and one label per row come
    back from [load_cluster_assignments] as [save_cluster_assignments]
    was given them, when [pd.read_csv] infers the written frame back as
    it was. *)
Theorem cluster_assignments_round_trip df cluster_labels filepath w :
  Pd.has_column df "cluster" = false →
  length cluster_labels = Pd.nrows df →
  (∀ df_output,
     Pd.setitem df "cluster" (map CInt cluster_labels) = inr df_output →
     read_csv_infer df_output = df_output) →
  ∃ path w1,
    save_cluster_assignments df cluster_labels filepath w = (inr path, w1) ∧
    load_cluster_assignments filepath w1
      = (inr (df, map CInt cluster_labels), w1).
Proof.
  intros Hfresh Hlen Hcsv.
  assert (Pd.lookup_column "cluster" (Pd.columns df) = None) as Hnone.
  { unfold Pd.has_column in Hfresh. by destruct (Pd.lookup_column _ _). }
  set (path := default (Py.path_join DATA_DIR "cluster_assignments.csv") filepath).
  set (df_output := Pd.mkDataFrame (Pd.nrows df)
                      (Pd.set_column "cluster" (map CInt cluster_labels)
                         (Pd.columns df))).
  assert (Pd.setitem df "cluster" (map CInt cluster_labels) = inr df_output)
    as Hset.
  { unfold Pd.setitem. by rewrite length_map, Hlen, Nat.eqb_refl. }
  exists path, (set_fs (<[path := FCsv df_output]> (fs w)) w). split.
  - unfold save_cluster_assignments, create_output_directories. fold path.
    rewrite (bind_step _ _ w tt w) by done.
    by rewrite (bind_step _ _ w df_output w) by by rewrite <- Hset.
  - unfold load_cluster_assignments, read_csv. fold path.
    set (w1 := set_fs _ w).
    rewrite (bind_step (bind _ _) _ w1 df_output w1).
    2:{ erewrite bind_step by apply read_file_written.
        cbv beta iota. unfold ret. by rewrite (Hcsv _ Hset). }
    rewrite (bind_step _ _ w1 (map CInt cluster_labels) w1).
    2:{ unfold lift, Pd.getitem. subst df_output. cbn [Pd.columns].
        by rewrite lookup_column_set_column. }
    subst df_output. cbn [Pd.columns Pd.nrows].
    rewrite drop_set_column by done. by destruct df.
Qed.

(** X11. [load_models] returns the vectorizer and the LSI model that
    [save_models] stored, and the KMeans model when one was stored; when
    none was given and no KMeans file was there before, it returns [None]
    for it and does not raise. *)
Theorem models_round_trip tfidf_vectorizer lsi_model kmeans_model w :
  (kmeans_model = None →
   fs w !! Py.path_join MODELS_DIR "kmeans_model.pkl" = None) →
  ∃ paths w1,
    save_models tfidf_vectorizer lsi_model kmeans_model w = (inr paths, w1) ∧
    load_models w1
      = (inr (PVectorizer tfidf_vectorizer, PSvd lsi_model,
              PKMeans <$> kmeans_model), w1).
Proof.
  intros Hstale.
  destruct (save_models tfidf_vectorizer lsi_model kmeans_model w)
    as [r w1] eqn:Hsave.
  assert (∃ paths, r = inr paths ∧
            fs w1 !! Py.path_join MODELS_DIR "tfidf_vectorizer.pkl"
              = Some (FPickle (PVectorizer tfidf_vectorizer)) ∧
            fs w1 !! Py.path_join MODELS_DIR "lsi_model.pkl"
              = Some (FPickle (PSvd lsi_model)) ∧
            fs w1 !! Py.path_join MODELS_DIR "kmeans_model.pkl"
              = (λ k, FPickle (PKMeans k)) <$> kmeans_model)
    as (paths & -> & H1 & H2 & H3).
  { destruct kmeans_model as [k|]; injection Hsave as <- <-;
      (eexists; split; [reflexivity|]); cbn [fs set_fs]; split_and!.
    - do 2 (rewrite lookup_insert_ne by done). apply lookup_insert_eq.
    - rewrite lookup_insert_ne by done. apply lookup_insert_eq.
    - apply lookup_insert_eq.
    - rewrite lookup_insert_ne by done. apply lookup_insert_eq.
    - apply lookup_insert_eq.
    - do 2 (rewrite lookup_insert_ne by done). by apply Hstale. }
  exists paths, w1. split; [done|].
  unfold load_models, load_pickle.
  rewrite (bind_step (bind _ _) _ w1 (PVectorizer tfidf_vectorizer) w1)
    by by rewrite (bind_step _ _ _ _ _ (read_file_lookup _ _ _ H1)).
  rewrite (bind_step (bind _ _) _ w1 (PSvd lsi_model) w1)
    by by rewrite (bind_step _ _ _ _ _ (read_file_lookup _ _ _ H2)).
  rewrite (bind_step _ _ w1 (bool_decide (is_Some kmeans_model)) w1).
  2:{ unfold path_exists. rewrite H3. do 2 f_equal.
      destruct kmeans_model; by simpl. }
  destruct kmeans_model as [k|]; cbn [bool_decide decide_rel]; simpl.
  - rewrite (bind_step (bind _ _) _ w1 (Some (PKMeans k)) w1); [done|].
    rewrite (bind_step (bind _ _) _ w1 (PKMeans k) w1); [done|].
    by rewrite (bind_step _ _ _ _ _ (read_file_lookup _ _ _ H3)).
  - by rewrite (bind_step _ _ w1 None w1).
Qed.

(** A computation that only reads: its result as a function of the
    state. *)
Lemma bind_pure {A B} (c : M A) (k : A → M B) r r' w :
  c w = (r, w) → (∀ a, k a w = (r' a, w)) → bind c k w = (bindR r r', w).
Proof. unfold bind. intros -> Hk. destruct r; [done|apply Hk]. Qed.

Lemma read_file_pure path w :
  read_file path w
  = (match fs w !! path with
     | Some f => inr f
     | None => inl (Py.FileNotFoundError path)
     end, w).
Proof. unfold read_file. by destruct (fs w !! path). Qed.

Lemma load_pickle_pure path w :
  load_pickle path w
  = (match fs w !! path with
     | Some (FPickle o) => inr o
     | Some _ => inl (Py.ValueError "not a pickle")
     | None => inl (Py.FileNotFoundError path)
     end, w).
Proof.
  unfold load_pickle, bind. rewrite read_file_pure.
  by destruct (fs w !! path) as [[]|].
Qed.

Lemma load_models_pure w :
  load_models w
  = (let? vec :=
       (load_pickle (Py.path_join MODELS_DIR "tfidf_vectorizer.pkl") w).1 in
     let? lsi := (load_pickle (Py.path_join MODELS_DIR "lsi_model.pkl") w).1 in
     let? kmeans :=
       (match fs w !! Py.path_join MODELS_DIR "kmeans_model.pkl" with
        | Some _ =>
            let? k :=
              (load_pickle (Py.path_join MODELS_DIR "kmeans_model.pkl") w).1 in
            inr (Some k)
        | None => inr None
        end) in
     inr (vec, lsi, kmeans), w).
Proof.
  unfold load_models.
  apply bind_pure; [by rewrite load_pickle_pure|]. intros vec.
  apply bind_pure; [by rewrite load_pickle_pure|]. intros lsi.
  rewrite (bind_step _ _ w
             (bool_decide (is_Some (fs w !! Py.path_join MODELS_DIR "kmeans_model.pkl")))
             w) by done.
  apply bind_pure; [|done].
  destruct (fs w !! Py.path_join MODELS_DIR "kmeans_model.pkl") as [f|] eqn:Hf.
  - rewrite bool_decide_eq_true_2 by done.
    apply bind_pure; [|done]. rewrite load_pickle_pure. by rewrite Hf.
  - rewrite bool_decide_eq_false_2 by (by intros [??]). done.
Qed.

Lemma load_all_for_search_pure w :
  load_all_for_search w
  = (let? (vec, lsi, _) := (load_models w).1 in
     let? vectors :=
       (match fs w !! Py.path_join EMBEDDINGS_DIR "lsi_vectors.npy" with
        | Some (FNpy a) => inr a
        | Some _ => inl (Py.ValueError "not an npy file")
        | None =>
            inl (Py.FileNotFoundError
                   (Py.path_join EMBEDDINGS_DIR "lsi_vectors.npy"))
        end) in
     let? df :=
       (match fs w !! Py.path_join DATA_DIR "processed_data.csv" with
        | Some (FCsv df) => inr (read_csv_infer df)
        | Some _ => inl (Py.ValueError "not a CSV file")
        | None =>
            inl (Py.FileNotFoundError
                   (Py.path_join DATA_DIR "processed_data.csv"))
        end) in
     inr (vec, lsi, vectors, df), w).
Proof.
  unfold load_all_for_search.
  apply bind_pure; [by rewrite load_models_pure|]. intros [[vec lsi] kmeans].
  apply bind_pure.
  { unfold load_lsi_vectors, bind. cbn [default]. rewrite read_file_pure.
    by destruct (fs w !! _) as [[]|]. }
  intros vectors. apply bind_pure; [|done].
  unfold load_processed_data, read_csv, bind. cbn [default].
  rewrite read_file_pure. by destruct (fs w !! _) as [[]|].
Qed.

(** X12. [load_all_for_search] writes no file, and it returns exactly
    when the two model files hold pickles, the vector file an array and
    the data file a frame, and the KMeans file, which a search does not
    use, is either absent or a pickle as well. *)
Theorem load_all_for_search_returns w vec lsi vectors df' :
  fs (load_all_for_search w).2 = fs w ∧
  ((load_all_for_search w).1 = inr (vec, lsi, vectors, df')
   ↔ fs w !! Py.path_join MODELS_DIR "tfidf_vectorizer.pkl" = Some (FPickle vec) ∧
     fs w !! Py.path_join MODELS_DIR "lsi_model.pkl" = Some (FPickle lsi) ∧
     (∀ f, fs w !! Py.path_join MODELS_DIR "kmeans_model.pkl" = Some f →
           ∃ k, f = FPickle k) ∧
     fs w !! Py.path_join EMBEDDINGS_DIR "lsi_vectors.npy" = Some (FNpy vectors) ∧
     ∃ df, fs w !! Py.path_join DATA_DIR "processed_data.csv" = Some (FCsv df) ∧
           df' = read_csv_infer df).
Proof.
  rewrite load_all_for_search_pure, load_models_pure, !load_pickle_pure.
  cbn [fst snd]. split; [done|].
  destruct (fs w !! Py.path_join MODELS_DIR "tfidf_vectorizer.pkl")
    as [[]|]; cbn [bindR]; try (split; [done|by intros (? & _)]).
  destruct (fs w !! Py.path_join MODELS_DIR "lsi_model.pkl")
    as [[]|]; cbn [bindR]; try (split; [done|by intros (_ & ? & _)]).
  destruct (fs w !! Py.path_join MODELS_DIR "kmeans_model.pkl")
    as [[]|]; cbn [bindR];
    try (split; [done|by intros (_ & _ & Hk & _); destruct (Hk _ eq_refl)]).
  all: destruct (fs w !! Py.path_join EMBEDDINGS_DIR "lsi_vectors.npy")
    as [[]|]; cbn [bindR]; try (split; [done|by intros (_ & _ & _ & ? & _)]).
  all: destruct (fs w !! Py.path_join DATA_DIR "processed_data.csv")
    as [[]|]; cbn [bindR];
    try (split; [done|by intros (_ & _ & _ & _ & ? & ? & _)]).
  all: split;
    [intros [= -> -> -> <-]; split_and!; [done|done| |done|by eexists];
     intros ? [= <-]; by eexists
    |intros ([= ->] & [= ->] & _ & [= ->] & ? & [= <-] & ->); done].
Qed.

(** ** What [main] writes *)

Lemma writes_bind {A B} paths (c : M A) (k : A → M B) :
  writes_within paths c → (∀ a, writes_within paths (k a)) →
  writes_within paths (bind c k).
Proof.
  intros Hc Hk w path Hpath. unfold bind. specialize (Hc w path Hpath).
  destruct (c w) as [[e|a] w1]; [done|]. simpl in Hc.
  by rewrite (Hk a w1 path Hpath).
Qed.

Lemma writes_readonly {A} paths (c : M A) : readonly c → writes_within paths c.
Proof. intros Hc w path _. by rewrite Hc. Qed.

Lemma writes_same_files {A} paths (c : M A) :
  (∀ w, fs (c w).2 = fs w) → writes_within paths c.
Proof. intros Hc w path _. by rewrite Hc. Qed.

Lemma writes_write_file paths path f :
  path ∈ paths → writes_within paths (write_file path f).
Proof.
  intros Hin w path' Hout. simpl. apply lookup_insert_ne. by intros ->.
Qed.

Lemma writes_mapM {A B} paths (f : A → M B) l :
  (∀ x, writes_within paths (f x)) → writes_within paths (mapM f l).
Proof.
  intros Hf. induction l as [|x l IH]; simpl; [done|].
  apply writes_bind; [done|]. intros y.
  apply writes_bind; [done|]. by intros ys.
Qed.

Lemma writes_with_random_state {A} paths seed
    (fit : rng → (Py.exn + A) * rng) :
  writes_within paths (with_random_state seed fit).
Proof. intros w path _. unfold with_random_state. by destruct seed. Qed.

(** The steps of a computation, one [bind] at a time. *)
Ltac writes_steps :=
  repeat first
    [ apply writes_bind; [|intros ?]
    | apply writes_mapM; intros ?
    | apply writes_write_file; solve [repeat first [left | right]]
    | match goal with
      | |- writes_within _ (if ?b then _ else _) => destruct b
      | |- writes_within _ (match ?x with _ => _ end) => destruct x
      end
    | by apply writes_same_files
    | apply writes_readonly, readonly_deref
    | apply writes_with_random_state
    ].

Lemma writes_analyze_clusters paths df labels X vec top_terms examples :
  writes_within paths (analyze_clusters df labels X vec top_terms examples).
Proof.
  unfold analyze_clusters, get_cluster_top_terms, get_frame, get_labels,
    get_matrix, get_vectorizer.
  writes_steps.
Qed.

(** X13. [main] writes its eleven output files and no other file,
    whether it completes, returns early or ends on an exception: a file
    that is not one of these outputs, the dataset among them, is after the
    run what it was before. *)
Theorem main_writes_only_outputs cfg w path :
  path ∉ main_outputs →
  fs (main_with cfg w).2 !! path = fs w !! path.
Proof using Type.
  revert w path. change (writes_within main_outputs (main_with cfg)).
  unfold main_with, create_output_directories, save_processed_data,
    save_tfidf_vectors, save_lsi_vectors, save_cluster_assignments,
    plot_clusters, generate_html_report, save_models, save_metadata,
    apply_lsi, apply_kmeans.
  cbn [default].
  writes_steps.
Qed.

(** ** What a completed run leaves on disk *)

Lemma same_files_step {A} (c : M A) w r w' :
  writes_within [] c → c w = (r, w') → fs w' = fs w.
Proof.
  intros Hc E. apply map_eq. intros path.
  specialize (Hc w path (not_elem_of_nil _)). by rewrite E in Hc.
Qed.

Lemma save_processed_data_step df filepath w r w' :
  save_processed_data df filepath w = (r, w') →
  fs w' = <[default (Py.path_join DATA_DIR "processed_data.csv") filepath
            := FCsv df]> (fs w).
Proof. by intros [= _ <-]. Qed.

Lemma save_tfidf_vectors_step X filepath w r w' :
  save_tfidf_vectors X filepath w = (r, w') →
  fs w' = <[with_extension
              (default (Py.path_join EMBEDDINGS_DIR "tfidf_vectors.npz") filepath)
              ".npz" := FNpz X]> (fs w).
Proof. by intros [= _ <-]. Qed.

Lemma save_lsi_vectors_step V filepath w r w' :
  save_lsi_vectors V filepath w = (r, w') →
  fs w' = <[with_extension
              (default (Py.path_join EMBEDDINGS_DIR "lsi_vectors.npy") filepath)
              ".npy" := FNpy V]> (fs w).
Proof. by intros [= _ <-]. Qed.

Lemma save_cluster_assignments_step df labels filepath w path w' :
  save_cluster_assignments df labels filepath w = (inr path, w') →
  fs w' = <[default (Py.path_join DATA_DIR "cluster_assignments.csv") filepath
            := FCsv (Pd.mkDataFrame (Pd.nrows df)
                       (Pd.set_column "cluster" (map CInt labels)
                          (Pd.columns df)))]> (fs w).
Proof.
  unfold save_cluster_assignments, create_output_directories. intros H.
  bind_inv H as [] w1 E. injection E as <-.
  bind_inv H as out w2 E. unfold lift, Pd.setitem in E.
  destruct (_ =? _); [|done]. injection E as <- <-.
  by injection H as _ <-.
Qed.

Lemma plot_clusters_step coordinates labels sample path w w' :
  plot_clusters coordinates labels sample path w = (inr tt, w') →
  ∃ image, fs w' = <[path := FText image]> (fs w).
Proof.
  unfold plot_clusters. intros H. bind_inv H as image w1 E.
  injection E as _ <-. injection H as <-. by exists image.
Qed.

Lemma generate_html_report_step analysis df labels viz results path w w' :
  generate_html_report analysis df labels viz results path w = (inr tt, w') →
  ∃ page, fs w' = <[path := FText page]> (fs w).
Proof.
  unfold generate_html_report. intros H. bind_inv H as page w1 E.
  injection E as _ <-. injection H as <-. by exists page.
Qed.

Lemma save_models_step vec lsi kmeans w r w' :
  save_models vec lsi (Some kmeans) w = (r, w') →
  fs w' = <[Py.path_join MODELS_DIR "kmeans_model.pkl" := FPickle (PKMeans kmeans)]>
            (<[Py.path_join MODELS_DIR "lsi_model.pkl" := FPickle (PSvd lsi)]>
               (<[Py.path_join MODELS_DIR "tfidf_vectorizer.pkl"
                    := FPickle (PVectorizer vec)]> (fs w))).
Proof. by intros [= _ <-]. Qed.

Lemma save_metadata_step config info filepath w r w' :
  save_metadata config info filepath w = (r, w') →
  ∃ md, fs w' = <[default (Py.path_join EMBEDDINGS_DIR "metadata.json") filepath
                  := FJson md]> (fs w).
Proof. intros [= _ <-]. by eexists. Qed.

Lemma search_interactive_load_models_legacy w vec lsi vectors df :
  fs w !! Py.path_join MODELS_DIR "models.pkl"
    = Some (FPickle (PLegacy vec lsi vectors df)) →
  search_interactive_load_models w = (inr (Some (vec, lsi, vectors, df)), w).
Proof.
  intros Hfile.
  change (Py.path_join MODELS_DIR "models.pkl")
    with (Py.path_join (Py.path_join "output" "models") "models.pkl") in Hfile.
  unfold search_interactive_load_models.
  rewrite (bind_step _ _ w true w).
  2:{ unfold path_exists. rewrite bool_decide_eq_true_2; [done|].
      by rewrite Hfile. }
  rewrite (bind_step _ _ w
             (Some (Py.path_join (Py.path_join "output" "models") "models.pkl"))
             w) by done.
  rewrite (bind_step _ _ w (PLegacy vec lsi vectors df) w); [done|].
  rewrite load_pickle_pure. by rewrite Hfile.
Qed.

(** The files after one more step of [main] that leaves them alone. *)
Ltac same_files E Hfs :=
  apply same_files_step in E;
  [rewrite Hfs in E; clear Hfs; rename E into Hfs
  |unfold apply_lsi, apply_kmeans; writes_steps].

(** X14. After a run of [main] that completes on a dataset, the bundle
    pickled for the search tools holds the vectorizer, the LSI model, the
    latent vectors and the frame of that run; [load_all_for_search] loads
    the same models and vectors from the separate files (and the frame as
    [pd.read_csv] infers it), and [load_models] of the interactive search
    returns the bundle. *)
Theorem main_stores_search_bundle cfg w w' :
  is_Some (fs w !! CSV_PATH cfg) →
  main_with cfg w = (inr tt, w') →
  ∃ vec lsi vectors df,
    fs w' !! Py.path_join MODELS_DIR "models.pkl"
      = Some (FPickle (PLegacy vec lsi vectors df)) ∧
    load_all_for_search w'
      = (inr (PVectorizer vec, PSvd lsi, vectors, read_csv_infer df), w') ∧
    search_interactive_load_models w'
      = (inr (Some (vec, lsi, vectors, df)), w').
Proof.
  intros Hcsv H. unfold main_with in H.
  bind_inv H as [] w1 E. apply same_files_step in E; [|writes_steps].
  rename E into Hfs.
  bind_inv H as [] w2 E. same_files E Hfs.
  bind_inv H as present w3 E. injection E as <- <-.
  rewrite Hfs, bool_decide_eq_true_2 in H by done. cbn [negb] in H.
  bind_inv H as df0 w4 E. same_files E Hfs.
  bind_inv H as [] w5 E. same_files E Hfs.
  bind_inv H as df w6 E. same_files E Hfs.
  bind_inv H as p1 w7 E. apply save_processed_data_step in E.
  rewrite Hfs in E. clear Hfs. rename E into Hfs.
  bind_inv H as [] w8 E. same_files E Hfs.
  bind_inv H as column w9 E. same_files E Hfs.
  bind_inv H as texts w10 E. same_files E Hfs.
  bind_inv H as [tfidf_matrix tfidf_vectorizer] w11 E. same_files E Hfs.
  bind_inv H as p2 w12 E. apply save_tfidf_vectors_step in E.
  rewrite Hfs in E. clear Hfs. rename E into Hfs.
  bind_inv H as [] w13 E. same_files E Hfs.
  bind_inv H as [lsi_vectors lsi_model] w14 E. same_files E Hfs.
  bind_inv H as p3 w15 E. apply save_lsi_vectors_step in E.
  rewrite Hfs in E. clear Hfs. rename E into Hfs.
  bind_inv H as [] w16 E. same_files E Hfs.
  bind_inv H as [cluster_labels kmeans_model] w17 E. same_files E Hfs.
  bind_inv H as p4 w18 E. apply save_cluster_assignments_step in E.
  rewrite Hfs in E. clear Hfs. rename E into Hfs.
  bind_inv H as [] w19 E. same_files E Hfs.
  bind_inv H as df_ref w20 E. same_files E Hfs.
  bind_inv H as labels_ref w21 E. same_files E Hfs.
  bind_inv H as matrix_ref w22 E. same_files E Hfs.
  bind_inv H as vectorizer_ref w23 E. same_files E Hfs.
  bind_inv H as cluster_analysis w24 E. same_files E Hfs.
  bind_inv H as [] w25 E. same_files E Hfs.
  bind_inv H as [coordinates_2d sample_indices] w26 E.
  cbv beta zeta in E. injection E as _ <-.
  bind_inv H as [] w27 E. apply plot_clusters_step in E as [image E].
  cbn [fs set_np_random] in E. rewrite Hfs in E. clear Hfs. rename E into Hfs.
  bind_inv H as similarity_results w28 E. same_files E Hfs.
  bind_inv H as [] w29 E. same_files E Hfs.
  bind_inv H as [] w30 E. apply generate_html_report_step in E as [page E].
  rewrite Hfs in E. clear Hfs. rename E into Hfs.
  bind_inv H as [] w31 E. same_files E Hfs.
  bind_inv H as p5 w32 E. apply save_models_step in E.
  rewrite Hfs in E. clear Hfs. rename E into Hfs.
  bind_inv H as [] w33 E. injection E as <-.
  bind_inv H as [] w34 E. same_files E Hfs.
  bind_inv H as vocabulary_size w35 E. same_files E Hfs.
  bind_inv H as p6 w36 E. apply save_metadata_step in E as [md E].
  rewrite Hfs in E. clear Hfs. rename E into Hfs.
  injection H as <-. cbn [default fs set_fs] in Hfs.
  exists tfidf_vectorizer, lsi_model, lsi_vectors, df.
  assert (fs w36 !! Py.path_join MODELS_DIR "models.pkl"
          = Some (FPickle (PLegacy tfidf_vectorizer lsi_model lsi_vectors df)))
    as Hlegacy.
  { rewrite Hfs. rewrite lookup_insert_ne by done. apply lookup_insert_eq. }
  split_and!.
  - done.
  - apply (load_all_for_search_lookup w36 _ _ (PKMeans kmeans_model));
      rewrite Hfs.
    + do 4 (rewrite lookup_insert_ne by done). apply lookup_insert_eq.
    + do 3 (rewrite lookup_insert_ne by done). apply lookup_insert_eq.
    + do 2 (rewrite lookup_insert_ne by done). apply lookup_insert_eq.
    + do 8 (rewrite lookup_insert_ne by done). apply lookup_insert_eq.
    + do 10 (rewrite lookup_insert_ne by done). apply lookup_insert_eq.
  - by apply search_interactive_load_models_legacy.
Qed.

(** ** The number of components that a run records *)

Lemma preprocessed_documents df0 df column texts :
  preprocess_dataframe df0 "combined_text" = inr df →
  Pd.getitem df "preprocessed_text" = inr column →
  as_documents column = inr texts →
  length texts = Pd.nrows df.
Proof.
  unfold preprocess_dataframe, bindR, Pd.setitem, Pd.getitem.
  destruct (Pd.lookup_column "combined_text" _) as [col|]; [|done].
  destruct (Nat.eqb_spec (length (map (λ c, CStr (preprocess_text c)) col))
              (Pd.nrows df0)) as [Hlen|]; [|done].
  intros [= <-]. cbn [Pd.columns Pd.nrows].
  rewrite lookup_column_set_column. intros [= <-] Htexts.
  apply mapR_Forall2, Forall2_length in Htexts. lia.
Qed.

(** C5: with more components requested than the vocabulary size minus
    one, [apply_lsi] hands the estimator exactly that clamped number and
    the run does not raise on that account; the requested number stays in
    the configuration part of [metadata.json].  What a run of [main] that
    completes records as [n_components_lsi] is the width of the latent
    matrix that the fit returned, the one saved as [lsi_vectors.npy].
    With the width that the randomized solver gives, this is the clamped
    number only when the dataset has at least that many records, and the
    number of records when it has fewer. *)
Theorem effective_components_recorded cfg w w' :
  is_Some (fs w !! CSV_PATH cfg) →
  main_with cfg w = (inr tt, w') →
  ∃ md X V m g,
    fs w' !! Py.path_join EMBEDDINGS_DIR "metadata.json" = Some (FJson md) ∧
    fs w' !! Py.path_join EMBEDDINGS_DIR "tfidf_vectors.npz" = Some (FNpz X) ∧
    fs w' !! Py.path_join EMBEDDINGS_DIR "lsi_vectors.npy" = Some (FNpy V) ∧
    (TruncatedSVD_fit_transform
       (mkSVD (Z.min (N_COMPONENTS cfg) (Z.of_nat (csr_shape X).2 - 1))
          (RANDOM_STATE cfg) "randomized" 5 None 0) X g).1 = inr (V, m) ∧
    cfg_lsi_components (md_configuration md) = N_COMPONENTS cfg ∧
    vocabulary_size (md_dataset_info md) = (csr_shape X).2 ∧
    n_features_tfidf (md_dataset_info md) = (csr_shape X).2 ∧
    total_records (md_dataset_info md) = (csr_shape X).1 ∧
    n_components_lsi (md_dataset_info md) = (shape V).2 ∧
    (fitted_width →
     n_components_lsi (md_dataset_info md)
       = Z.to_nat (Z.min (N_COMPONENTS cfg)
                     (Z.of_nat (vocabulary_size (md_dataset_info md)) - 1))
           `min` total_records (md_dataset_info md) ∧
     ((Z.of_nat (vocabulary_size (md_dataset_info md)) - 1 < N_COMPONENTS cfg)%Z →
      vocabulary_size (md_dataset_info md) - 1
        ≤ total_records (md_dataset_info md) →
      n_components_lsi (md_dataset_info md)
        = vocabulary_size (md_dataset_info md) - 1)).
Proof.
  intros Hcsv H. unfold main_with in H.
  bind_inv H as [] w1 E. apply same_files_step in E; [|writes_steps].
  rename E into Hfs.
  bind_inv H as [] w2 E. same_files E Hfs.
  bind_inv H as present w3 E. injection E as <- <-.
  rewrite Hfs, bool_decide_eq_true_2 in H by done. cbn [negb] in H.
  bind_inv H as df0 w4 E. same_files E Hfs.
  bind_inv H as [] w5 E. same_files E Hfs.
  bind_inv H as df w6 E. pose proof E as Hpre. same_files E Hfs.
  bind_inv H as p1 w7 E. apply save_processed_data_step in E.
  rewrite Hfs in E. clear Hfs. rename E into Hfs.
  bind_inv H as [] w8 E. same_files E Hfs.
  bind_inv H as column w9 E. pose proof E as Hcol. same_files E Hfs.
  bind_inv H as texts w10 E. pose proof E as Htexts. same_files E Hfs.
  bind_inv H as [tfidf_matrix tfidf_vectorizer] w11 E. pose proof E as Hfit.
  same_files E Hfs.
  bind_inv H as p2 w12 E. apply save_tfidf_vectors_step in E.
  rewrite Hfs in E. clear Hfs. rename E into Hfs.
  bind_inv H as [] w13 E. same_files E Hfs.
  bind_inv H as [lsi_vectors lsi_model] w14 E. pose proof E as Hlsi.
  same_files E Hfs.
  bind_inv H as p3 w15 E. apply save_lsi_vectors_step in E.
  rewrite Hfs in E. clear Hfs. rename E into Hfs.
  bind_inv H as [] w16 E. same_files E Hfs.
  bind_inv H as [cluster_labels kmeans_model] w17 E. same_files E Hfs.
  bind_inv H as p4 w18 E. apply save_cluster_assignments_step in E.
  rewrite Hfs in E. clear Hfs. rename E into Hfs.
  bind_inv H as [] w19 E. same_files E Hfs.
  bind_inv H as df_ref w20 E. same_files E Hfs.
  bind_inv H as labels_ref w21 E. same_files E Hfs.
  bind_inv H as matrix_ref w22 E. same_files E Hfs.
  bind_inv H as vectorizer_ref w23 E. same_files E Hfs.
  bind_inv H as cluster_analysis w24 E. same_files E Hfs.
  bind_inv H as [] w25 E. same_files E Hfs.
  bind_inv H as [coordinates_2d sample_indices] w26 E.
  cbv beta zeta in E. injection E as _ <-.
  bind_inv H as [] w27 E. apply plot_clusters_step in E as [image E].
  cbn [fs set_np_random] in E. rewrite Hfs in E. clear Hfs. rename E into Hfs.
  bind_inv H as similarity_results w28 E. same_files E Hfs.
  bind_inv H as [] w29 E. same_files E Hfs.
  bind_inv H as [] w30 E. apply generate_html_report_step in E as [page E].
  rewrite Hfs in E. clear Hfs. rename E into Hfs.
  bind_inv H as [] w31 E. same_files E Hfs.
  bind_inv H as p5 w32 E. apply save_models_step in E.
  rewrite Hfs in E. clear Hfs. rename E into Hfs.
  bind_inv H as [] w33 E. injection E as <-.
  bind_inv H as [] w34 E. same_files E Hfs.
  bind_inv H as vocabulary_size w35 E. pose proof E as Hlen. same_files E Hfs.
  bind_inv H as p6 w36 Hmeta.
  injection H as <-. cbn [default fs set_fs] in Hfs.
  (* the documents, the vocabulary and the matrix *)
  injection Hpre as Hpre _. injection Hcol as Hcol _.
  injection Htexts as Htexts _.
  pose proof (preprocessed_documents _ _ _ _ Hpre Hcol Htexts) as Hrecords.
  injection Hfit as Hfit _. unfold vectorize_texts in Hfit.
  apply fit_transform_inr in Hfit as (kept & _ & Hnd & _ & HV & HX).
  unfold lift, vocabulary_len in Hlen. rewrite HV in Hlen.
  injection Hlen as <- _.
  (* the latent matrix *)
  apply apply_lsi_inr in Hlsi as [g Hsvd].
  (* the metadata *)
  unfold save_metadata in Hmeta.
  bind_inv Hmeta as [] w37 E. injection E as <-.
  bind_inv Hmeta as now w38 E. injection E as _ <-.
  bind_inv Hmeta as [] w39 E. injection Hmeta as _ <-.
  injection E as <-. cbn [default fs set_fs].
  eexists _, tfidf_matrix, lsi_vectors, lsi_model, g.
  split; [apply lookup_insert_eq|]. rewrite Hfs. cbn.
  rewrite make_vocabulary_size, HX by done. cbn [fst snd].
  split_and!; try done.
  - do 9 (rewrite lookup_insert_ne by done). apply lookup_insert_eq.
  - do 8 (rewrite lookup_insert_ne by done). apply lookup_insert_eq.
  - by rewrite HX in Hsvd.
  - intros Hwidth. apply Hwidth in Hsvd. cbn [n_components] in Hsvd.
    rewrite Hsvd, HX. cbn [fst snd]. lia.
Qed.

(** X15. Without a file at [CSV_PATH], [main] announces step 1, reports
    the missing file and returns normally: no stage runs, no object is
    created and no file is written. *)
Theorem main_without_dataset cfg w :
  fs w !! CSV_PATH cfg = None →
  ∃ w',
    main_with cfg w = (inr tt, w') ∧
    fs w' = fs w ∧ heap w' = heap w ∧ np_random w' = np_random w ∧
    stdout w'
      = stdout w ++ ["[Step 1] Loading data...";
                     "Error: CSV file '" +:+ CSV_PATH cfg +:+ "' not found!"].
Proof.
  intros Hcsv.
  set (w1 := set_stdout (stdout w ++ ["[Step 1] Loading data..."]) w).
  exists (set_stdout
            (stdout w1 ++ ["Error: CSV file '" +:+ CSV_PATH cfg +:+ "' not found!"])
            w1).
  split.
  - unfold main_with, create_output_directories.
    rewrite (bind_step _ _ w tt w) by done.
    rewrite (bind_step _ _ w tt w1) by done.
    rewrite (bind_step _ _ w1 false w1); [done|].
    unfold path_exists. subst w1. cbn [fs set_stdout].
    rewrite Hcsv, bool_decide_eq_false_2; [done|by intros [??]].
  - cbn. by rewrite <- app_assoc.
Qed.

(** X16. [load_models] of the interactive search prefers the bundle
    under [output/models] to the one in the working directory and reads
    the latter only when the former is absent; when there is neither it
    prints its two lines and returns [None] without raising.  It writes no
    file. *)
Theorem search_interactive_load_models_paths w :
  let run := search_interactive_load_models w in
  let bundle (f : file) :=
    match f with
    | FPickle (PLegacy vec lsi vectors df) => inr (Some (vec, lsi, vectors, df))
    | FPickle _ => inl (Py.TypeError "object is not subscriptable")
    | _ => inl (Py.ValueError "not a pickle")
    end in
  fs run.2 = fs w ∧
  match fs w !! Py.path_join MODELS_DIR "models.pkl", fs w !! "models.pkl" with
  | Some f, _ => run = (bundle f, w)
  | None, Some f => run = (bundle f, w)
  | None, None =>
      run = (inr None,
             set_stdout (stdout w ++ ["Error: models.pkl not found!";
                                      "Please run main.py first to generate the models."])
               w)
  end.
Proof.
  cbv zeta.
  change (Py.path_join MODELS_DIR "models.pkl")
    with (Py.path_join (Py.path_join "output" "models") "models.pkl").
  unfold search_interactive_load_models.
  rewrite (bind_step (path_exists _) _ w
             (bool_decide (is_Some (fs w !! Py.path_join
                                      (Py.path_join "output" "models") "models.pkl")))
             w) by done.
  destruct (fs w !! Py.path_join (Py.path_join "output" "models") "models.pkl")
    as [f|] eqn:Hlegacy.
  - rewrite bool_decide_eq_true_2 by done.
    rewrite (bind_step (ret _) _ w
               (Some (Py.path_join (Py.path_join "output" "models") "models.pkl"))
               w) by done.
    unfold bind. rewrite load_pickle_pure, Hlegacy.
    by destruct f as [[]| | | | |].
  - rewrite bool_decide_eq_false_2 by (by intros [??]).
    destruct (fs w !! "models.pkl") as [f|] eqn:Hold.
    + rewrite (bind_step _ _ w (Some "models.pkl") w).
      2:{ rewrite (bind_step (path_exists _) _ w true w); [done|].
          unfold path_exists. by rewrite Hold, bool_decide_eq_true_2. }
      unfold bind. rewrite load_pickle_pure, Hold.
      by destruct f as [[]| | | | |].
    + rewrite (bind_step _ _ w None w).
      2:{ rewrite (bind_step (path_exists _) _ w false w); [done|].
          unfold path_exists. rewrite Hold, bool_decide_eq_false_2; [done|].
          by intros [??]. }
      split; [done|]. cbn. by rewrite <- app_assoc.
Qed.

(** ** The best matches *)

Lemma top_indices_dominate sims k i j :
  i ∈ top_indices sims k → j < length sims → j ∉ top_indices sims k →
  (nth j sims 0 <= nth i sims 0)%Q.
Proof.
  unfold top_indices. intros Hi Hj Hout.
  destruct (slice_to_take (rev (argsort sims)) k) as [m Hm].
  rewrite Hm in Hi, Hout.
  pose proof (StronglySorted_rev _ _ (argsort_sorted sims)) as Hsorted.
  rewrite <- (take_drop m (rev (argsort sims))) in Hsorted.
  assert (j ∈ rev (argsort sims)) as Hin.
  { assert (j ∈ argsort sims) as Hj'.
    { rewrite argsort_Permutation. apply elem_of_seq. lia. }
    apply list_elem_of_In. apply (proj1 (in_rev _ _)). by apply list_elem_of_In. }
  rewrite <- (take_drop m (rev (argsort sims))) in Hin.
  apply elem_of_app in Hin as [Hin|Hin]; [done|].
  apply (StronglySorted_app_1_elem_of _ _ _ _ _ Hsorted Hi Hin).
Qed.

Lemma top_indices_length sims k :
  length (top_indices sims k)
  = if (k <? 0)%Z then length sims - Z.to_nat (- k)
    else Z.to_nat k `min` length sims.
Proof.
  unfold top_indices, Py.slice_to.
  destruct (k <? 0)%Z; rewrite length_take, length_rev, argsort_length; lia.
Qed.

Lemma Forall2_index idxs results sims :
  Forall2 (λ idx r, index r = idx ∧ similarity r = nth idx sims 0%Q)
    idxs results →
  index <$> results = idxs.
Proof.
  induction 1 as [|idx r l rs [Hi _] _ IH]; [done|].
  by rewrite fmap_cons, Hi, IH.
Qed.

(** X17. On a stored bundle a search returns for every [top_k], zero and
    negative ones included, and never raises on its account: [top_k]
    results when it is not negative, all the documents when there are
    fewer, and all but the [-top_k] least similar documents when it is
    negative. *)
Theorem find_similar_incidents_count q vec lsi vectors df n top_k :
  stored_bundle vec lsi vectors df n →
  ∃ results,
    find_similar_incidents q vec lsi vectors df top_k = inr results ∧
    length results
    = if (top_k <? 0)%Z then n - Z.to_nat (- top_k) else Z.to_nat top_k `min` n.
Proof.
  intros Hst.
  destruct (find_similar_incidents_total q _ _ _ _ _ top_k Hst)
    as (sims & results & _ & Hlen & Hres & Hall).
  exists results. split; [done|].
  rewrite <- (length_fmap index), (Forall2_index _ _ _ Hall).
  by rewrite top_indices_length, Hlen.
Qed.

(** X18. The results of a search on a stored bundle are distinct
    documents, each with its own similarity to the query, and they are the
    best ones: no document that is left out is more similar to the query
    than one that is returned. *)
Theorem find_similar_incidents_best q vec lsi vectors df n top_k :
  stored_bundle vec lsi vectors df n →
  ∃ sims results,
    similarities q vec lsi vectors = inr sims ∧ length sims = n ∧
    find_similar_incidents q vec lsi vectors df top_k = inr results ∧
    NoDup (index <$> results) ∧
    Forall (λ r, index r < n ∧ similarity r = nth (index r) sims 0%Q) results ∧
    ∀ r j, r ∈ results → j < n → j ∉ index <$> results →
           (nth j sims 0 <= similarity r)%Q.
Proof.
  intros Hst.
  destruct (find_similar_incidents_total q _ _ _ _ _ top_k Hst)
    as (sims & results & Hsims & Hlen & Hres & Hall).
  exists sims, results.
  pose proof (Forall2_index _ _ _ Hall) as Hidx.
  assert (Forall (λ r, index r ∈ top_indices sims top_k ∧
                       similarity r = nth (index r) sims 0%Q) results) as Hr.
  { apply Forall_forall. intros r [p Hp]%list_elem_of_lookup.
    destruct (Forall2_lookup_r _ _ _ _ _ Hall Hp) as (idx & Hi & <- & Hs).
    split; [by eapply list_elem_of_lookup_2|done]. }
  split_and!; [done..| | |].
  - rewrite Hidx. apply top_indices_NoDup.
  - eapply Forall_impl; [exact Hr|]. intros r [Hin Hs]. split; [|done].
    rewrite <- Hlen. by eapply top_indices_bound.
  - intros r j Hin Hj Hout. rewrite Forall_forall in Hr.
    destruct (Hr r Hin) as [Hi ->]. rewrite Hidx in Hout.
    apply (top_indices_dominate sims top_k); [done|lia|done].
Qed.

(** ** The limits of the vocabulary *)

Lemma imap_pair_fst {A} (l : list A) :
  (imap (λ i t, (i, t)) l).*1 = seq 0 (length l).
Proof.
  apply list_eq. intros i.
  rewrite list_lookup_fmap, list_lookup_imap.
  destruct (l !! i) as [x|] eqn:Hx; simpl.
  - symmetry. apply lookup_seq. split; [done|]. by eapply lookup_lt_Some.
  - symmetry. apply lookup_seq_ge. by apply lookup_ge_None.
Qed.

Lemma limit_features_masked docs low limit terms :
  Tfidf.limit_features argsort docs low limit terms
    `sublist_of` filter (λ t, (low ≤ Z.of_nat (Tfidf.doc_freq docs t))%Z) terms.
Proof.
  unfold Tfidf.limit_features. set (masked := filter _ terms).
  destruct (limit <? _)%Z; [|done].
  rewrite <- (imap_pair_snd masked) at 2. apply fmap_sublist, sublist_filter.
Qed.

Lemma limit_features_length docs low limit terms :
  (0 ≤ limit)%Z →
  length (Tfidf.limit_features argsort docs low limit terms) ≤ Z.to_nat limit.
Proof.
  intros Hlimit. unfold Tfidf.limit_features. set (masked := filter _ terms).
  destruct (Z.ltb_spec limit (Z.of_nat (length masked))); [|lia].
  set (tfs := map _ masked). set (mask_inds := Py.slice_to (argsort tfs) limit).
  set (kept := filter _ _).
  rewrite length_fmap, <- (length_fmap fst).
  transitivity (length mask_inds).
  - apply submseteq_length, NoDup_submseteq.
    + eapply sublist_NoDup; [|apply fmap_sublist, sublist_filter].
      rewrite imap_pair_fst. apply NoDup_seq.
    + intros i [[i' t] [-> Hin]]%list_elem_of_fmap.
      by apply list_elem_of_filter in Hin as [? _].
  - unfold mask_inds. rewrite slice_to_length by done. lia.
Qed.

Lemma limit_features_most_frequent docs low limit terms t t' :
  t ∈ Tfidf.limit_features argsort docs low limit terms →
  t' ∈ terms → (low ≤ Z.of_nat (Tfidf.doc_freq docs t'))%Z →
  t' ∉ Tfidf.limit_features argsort docs low limit terms →
  Tfidf.term_freq docs t' ≤ Tfidf.term_freq docs t.
Proof.
  unfold Tfidf.limit_features. set (masked := filter _ terms).
  intros Hin Hterm Hdf Hout.
  assert (t' ∈ masked) as Hmasked by by apply list_elem_of_filter.
  destruct (limit <? _)%Z; [|done].
  set (tfs := map (λ t, inject_Z (- Z.of_nat (Tfidf.term_freq docs t))) masked)
    in *.
  apply list_elem_of_fmap in Hin as [[i t0] [-> Hin]].
  apply list_elem_of_filter in Hin as [Hi Hin]. simpl in Hi |- *.
  apply list_elem_of_lookup in Hin as [p Hp].
  rewrite list_lookup_imap in Hp.
  destruct (masked !! p) as [t1|] eqn:Hp1; [|done]. injection Hp as <- <-.
  apply list_elem_of_lookup in Hmasked as [j Hj].
  assert (j ∉ Py.slice_to (argsort tfs) limit) as Hjout.
  { intros Hjin. apply Hout, list_elem_of_fmap. exists (j, t'). split; [done|].
    apply list_elem_of_filter. split; [done|].
    apply list_elem_of_lookup. exists j. by rewrite list_lookup_imap, Hj. }
  destruct (slice_to_take (argsort tfs) limit) as [m Hm].
  rewrite Hm in Hi, Hjout.
  pose proof (argsort_sorted tfs) as Hsorted.
  rewrite <- (take_drop m (argsort tfs)) in Hsorted.
  assert (j ∈ argsort tfs) as Hjin.
  { rewrite argsort_Permutation. apply elem_of_seq. unfold tfs.
    rewrite length_map. apply lookup_lt_Some in Hj. lia. }
  rewrite <- (take_drop m (argsort tfs)) in Hjin.
  apply elem_of_app in Hjin as [?|Hjin]; [done|].
  pose proof (StronglySorted_app_1_elem_of _ _ _ _ _ Hsorted Hi Hjin) as Hle.
  simpl in Hle.
  assert (∀ k u, masked !! k = Some u →
                 nth k tfs 0%Q = inject_Z (- Z.of_nat (Tfidf.term_freq docs u)))
    as Hnth.
  { intros k u Hk. apply nth_lookup_Some with (d := 0%Q).
    unfold tfs. by rewrite list_lookup_fmap, Hk. }
  rewrite (Hnth _ _ Hp1), (Hnth _ _ Hj) in Hle.
  rewrite <- Zle_Qle in Hle. lia.
Qed.

Lemma make_vocabulary_is_Some kept t :
  is_Some (Tfidf.make_vocabulary kept !! t) ↔ t ∈ kept.
Proof.
  unfold Tfidf.make_vocabulary.
  pose proof (not_elem_of_list_to_map (M := gmap string)
                (zip kept (seq 0 (length kept))) t) as Hnone.
  rewrite fst_zip in Hnone by (by rewrite length_seq).
  destruct (list_to_map _ !! t) as [j|] eqn:Hj.
  - split; [intros _|by eauto]. apply dec_stable. intros Hout.
    by apply Hnone in Hout.
  - split; [by intros [??]|]. intros Hin. by apply Hnone in Hin.
Qed.

Lemma doc_freq_positive docs t :
  0 < Tfidf.doc_freq docs t → ∃ toks, toks ∈ docs ∧ t ∈ toks.
Proof.
  unfold Tfidf.doc_freq. intros Hpos.
  destruct (filter _ docs) as [|toks rest] eqn:Hf; [simpl in Hpos; lia|].
  assert (toks ∈ filter (λ toks, t ∈ toks) docs) as [? ?]%list_elem_of_filter
    by (rewrite Hf; left).
  eauto.
Qed.

Lemma fit_transform_limits vec0 corpus X vec :
  TfidfVectorizer_fit_transform vec0 corpus = inr (X, vec) →
  let docs := map Tfidf.analyze corpus in
  ∃ V,
    vocabulary_ vec = Some V ∧
    0 < size V ∧ (Z.of_nat (size V) ≤ max_features vec0)%Z ∧
    csr_shape X = (length corpus, size V) ∧
    length (csr_rows X) = length corpus ∧
    (∀ t, is_Some (V !! t) →
          (min_df vec0 ≤ Z.of_nat (Tfidf.doc_freq docs t))%Z) ∧
    (∀ t t', is_Some (V !! t) → V !! t' = None →
             (min_df vec0 ≤ Z.of_nat (Tfidf.doc_freq docs t'))%Z →
             Tfidf.term_freq docs t' ≤ Tfidf.term_freq docs t).
Proof.
  unfold TfidfVectorizer_fit_transform.
  destruct (Z.ltb_spec (max_features vec0) 1); [done|].
  destruct (Z.ltb_spec (min_df vec0) 1); [done|].
  destruct (concat _) eqn:Hc; [done|].
  destruct (_ <? min_df vec0)%Z; [done|].
  set (docs := map Tfidf.analyze corpus).
  set (kept := Tfidf.limit_features _ _ _ _ _).
  pose proof (limit_features_masked docs (min_df vec0) (max_features vec0)
                (Tfidf.sorted_terms docs)) as Hmasked.
  pose proof (limit_features_length docs (min_df vec0) (max_features vec0)
                (Tfidf.sorted_terms docs)) as Hlength.
  pose proof (limit_features_most_frequent docs (min_df vec0) (max_features vec0)
                (Tfidf.sorted_terms docs)) as Hmost.
  fold kept in Hmasked, Hlength, Hmost.
  assert (NoDup kept) as Hnd.
  { eapply sublist_NoDup; [apply sorted_terms_NoDup|].
    etrans; [exact Hmasked|apply sublist_filter]. }
  destruct kept as [|t0 kept'] eqn:Hk; [done|]. rewrite <- Hk in *.
  unfold TfidfVectorizer_transform. cbn [vocabulary_ bindR idf_].
  destruct corpus as [|doc corpus]; [done|].
  intros [= <- <-]. cbv zeta. eexists. split; [reflexivity|].
  cbn [csr_shape csr_rows]. rewrite make_vocabulary_size by done.
  split_and!; [rewrite Hk; simpl; lia|lia|done|simpl; by rewrite length_map| |].
  - intros t Ht%make_vocabulary_is_Some.
    apply (sublist_subseteq _ _ Hmasked), list_elem_of_filter in Ht as [? _].
    done.
  - intros t t' Ht%make_vocabulary_is_Some Ht' Hdf.
    apply Hmost; [done| |done|].
    + apply sorted_terms_elem_of, doc_freq_positive. lia.
    + intros Hin%make_vocabulary_is_Some. rewrite Ht' in Hin. by destruct Hin.
Qed.

(** X19. After a fit by [vectorize_texts] the vocabulary is not empty
    and holds at most [max_features] terms, each of them found in at least
    [min_df] documents; a term that reaches [min_df] documents and is left
    out does not occur more often in the corpus than a term that is kept;
    and the matrix has one row per text and one column per term. *)
Theorem fit_vocabulary_limits texts max_features min_df X vec :
  vectorize_texts texts None max_features min_df = inr (X, vec) →
  let docs := map Tfidf.analyze texts in
  ∃ V,
    vocabulary_ vec = Some V ∧
    0 < size V ∧ (Z.of_nat (size V) ≤ max_features)%Z ∧
    csr_shape X = (length texts, size V) ∧
    length (csr_rows X) = length texts ∧
    (∀ t, is_Some (V !! t) → (min_df ≤ Z.of_nat (Tfidf.doc_freq docs t))%Z) ∧
    (∀ t t', is_Some (V !! t) → V !! t' = None →
             (min_df ≤ Z.of_nat (Tfidf.doc_freq docs t'))%Z →
             Tfidf.term_freq docs t' ≤ Tfidf.term_freq docs t).
Proof.
  unfold vectorize_texts, create_tfidf_vectorizer. intros Hfit.
  apply fit_transform_limits in Hfit. exact Hfit.
Qed.

(** ** The order of the features *)

Lemma ascii_compare_refl c : Ascii.compare c c = Eq.
Proof. unfold Ascii.compare. apply N.compare_refl. Qed.

Lemma string_compare_trans s1 s2 s3 :
  String.compare s1 s2 ≠ Gt → String.compare s2 s3 ≠ Gt →
  String.compare s1 s3 ≠ Gt.
Proof.
  revert s2 s3. induction s1 as [|c1 s1 IH]; intros [|c2 s2] [|c3 s3];
    simpl; try done.
  destruct (Ascii.compare c1 c2) eqn:E12; [|clear IH|done];
    (destruct (Ascii.compare c2 c3) eqn:E23; [| |done]).
  - apply Ascii.compare_eq_iff in E12 as ->.
    apply Ascii.compare_eq_iff in E23 as ->.
    rewrite ascii_compare_refl. apply IH.
  - apply Ascii.compare_eq_iff in E12 as ->. by rewrite E23.
  - apply Ascii.compare_eq_iff in E23 as <-. by rewrite E12.
  - unfold Ascii.compare in *. apply N.compare_lt_iff in E12, E23.
    intros _ _. rewrite (proj2 (N.compare_lt_iff _ _)); [done|].
    etrans; done.
Qed.

Global Instance str_le_trans : Transitive str_le.
Proof.
  intros s1 s2 s3. unfold str_le, String.leb. intros H12 H23.
  pose proof (string_compare_trans s1 s2 s3) as Htrans.
  destruct (String.compare s1 s2), (String.compare s2 s3),
    (String.compare s1 s3); try done; by destruct Htrans.
Qed.

Global Instance str_le_total : Total str_le.
Proof. intros s t. apply String.leb_total. Qed.

Lemma sorted_terms_sorted docs : StronglySorted str_le (Tfidf.sorted_terms docs).
Proof. apply StronglySorted_merge_sort; apply _. Qed.

Lemma sublist_StronglySorted {A} (R : relation A) l k :
  l `sublist_of` k → StronglySorted R k → StronglySorted R l.
Proof.
  induction 1 as [|x l k Hlk IH|x l k Hlk IH]; intros Hk; [done| |].
  - apply StronglySorted_inv in Hk as [Hk Hx]. constructor; [by apply IH|].
    rewrite Forall_forall in *. intros y Hy. apply Hx.
    by apply (sublist_subseteq _ _ Hlk).
  - apply StronglySorted_inv in Hk as [Hk _]. by apply IH.
Qed.

Global Instance by_column_trans : Transitive by_column.
Proof. intros a b c. unfold by_column. lia. Qed.

Global Instance by_column_total : Total by_column.
Proof. intros a b. unfold by_column. lia. Qed.

Lemma zip_seq_lookup {A} (l : list A) a x j :
  (x, j) ∈ zip l (seq a (length l)) → a ≤ j ∧ l !! (j - a) = Some x.
Proof.
  intros [i Hi]%list_elem_of_lookup.
  apply lookup_zip_with_Some in Hi as (x' & j' & [= <- <-] & Hx & Hj).
  apply lookup_seq in Hj as [-> Hlt]. split; [lia|].
  by replace (a + i - a) with i by lia.
Qed.

Lemma zip_seq_sorted {A} (l : list A) a :
  StronglySorted (λ x y : A * nat, x.2 ≤ y.2) (zip l (seq a (length l))).
Proof.
  revert a. induction l as [|x l IH]; intros a; simpl; constructor; [apply IH|].
  apply Forall_forall. intros [y j] [Hj _]%zip_seq_lookup. simpl. lia.
Qed.

(** The features of a vocabulary built from a list of distinct terms
    are these terms, in the order of the list. *)
Lemma feature_names_make_vocabulary kept :
  NoDup kept →
  (merge_sort by_column (map_to_list (Tfidf.make_vocabulary kept))).*1 = kept.
Proof.
  intros Hnd. unfold Tfidf.make_vocabulary.
  set (items := zip kept (seq 0 (length kept))).
  assert (NoDup items.*1) as Hkeys.
  { unfold items. by rewrite fst_zip by (by rewrite length_seq). }
  assert (merge_sort by_column (map_to_list (list_to_map items : gmap _ _))
          ≡ₚ items) as Hperm.
  { rewrite merge_sort_Permutation. by apply map_to_list_to_map. }
  assert (merge_sort by_column (map_to_list (list_to_map items : gmap _ _))
          = items) as ->.
  { apply (Sorted_unique_strong by_column); [| | |done].
    - intros [t1 j1] [t2 j2] H1 H2 H12 H21. unfold by_column in *. simpl in *.
      assert (j1 = j2) as -> by lia. f_equal.
      rewrite Hperm in H1.
      apply zip_seq_lookup in H1 as [_ H1]. apply zip_seq_lookup in H2 as [_ H2].
      congruence.
    - apply Sorted_merge_sort. apply _.
    - apply StronglySorted_Sorted, zip_seq_sorted. }
  unfold items. by rewrite fst_zip by (by rewrite length_seq).
Qed.

Lemma make_vocabulary_lookup_iff kept t j :
  NoDup kept → (Tfidf.make_vocabulary kept !! t = Some j ↔ kept !! j = Some t).
Proof.
  intros Hnd. split; [by intros [_ ?]%make_vocabulary_lookup|]. intros Hj.
  unfold Tfidf.make_vocabulary. apply elem_of_list_to_map.
  - by rewrite fst_zip by (by rewrite length_seq).
  - apply list_elem_of_lookup. exists j. apply lookup_zip_with_Some.
    exists t, j. split_and!; [done|done|].
    apply lookup_seq. split; [done|]. by eapply lookup_lt_Some.
Qed.

(** X20. After a fit the features are the terms of the vocabulary in
    alphabetical order: [get_feature_names_out] lists each term at its
    column, once, and the terms increase strictly along the columns. *)
Theorem fit_feature_order texts max_features min_df X vec :
  vectorize_texts texts None max_features min_df = inr (X, vec) →
  ∃ V names,
    vocabulary_ vec = Some V ∧
    get_feature_names_out vec = inr names ∧
    length names = size V ∧
    (∀ j t, names !! j = Some t ↔ V !! t = Some j) ∧
    StronglySorted (λ s t, String.ltb s t = true) names.
Proof.
  unfold vectorize_texts. intros Hfit.
  apply fit_transform_inr in Hfit as (kept & _ & Hnd & Hsub & HV & _).
  exists (Tfidf.make_vocabulary kept), kept.
  unfold get_feature_names_out. rewrite HV.
  rewrite feature_names_make_vocabulary by done.
  split_and!; [done|done|by rewrite make_vocabulary_size| |].
  - intros j t. by rewrite make_vocabulary_lookup_iff.
  - pose proof (sublist_StronglySorted _ _ _ Hsub (sorted_terms_sorted _))
      as Hsorted.
    clear -Hsorted Hnd. induction Hsorted as [|s l Hl IH Hs]; [constructor|].
    apply NoDup_cons in Hnd as [Hfresh Hnd]. constructor; [by apply IH|].
    rewrite Forall_forall in *. intros t Ht. specialize (Hs t Ht).
    unfold str_le, String.leb, String.ltb in *.
    destruct (String.compare s t) eqn:Hcmp; [|done|done].
    apply String.compare_eq_iff in Hcmp as ->. done.
Qed.

(** ** The terms of a cluster *)

Lemma deref_lookup l o w : heap w !! l = Some o → deref l w = (inr o, w).
Proof. unfold deref. by intros ->. Qed.

Lemma get_labels_lookup l labels w :
  heap w !! l = Some (OLabels labels) → get_labels l w = (inr labels, w).
Proof.
  intros H. unfold get_labels. by rewrite (bind_step _ _ _ _ _ (deref_lookup _ _ _ H)).
Qed.

Lemma get_matrix_lookup l X w :
  heap w !! l = Some (OCsr X) → get_matrix l w = (inr X, w).
Proof.
  intros H. unfold get_matrix. by rewrite (bind_step _ _ _ _ _ (deref_lookup _ _ _ H)).
Qed.

Lemma get_vectorizer_lookup l vec w :
  heap w !! l = Some (OVectorizer vec) → get_vectorizer l w = (inr vec, w).
Proof.
  intros H. unfold get_vectorizer.
  by rewrite (bind_step _ _ _ _ _ (deref_lookup _ _ _ H)).
Qed.

Lemma get_frame_lookup l df w :
  heap w !! l = Some (ODataFrame df) → get_frame l w = (inr df, w).
Proof.
  intros H. unfold get_frame. by rewrite (bind_step _ _ _ _ _ (deref_lookup _ _ _ H)).
Qed.

Lemma compress_length {A} mask (l : list A) :
  length mask = length l →
  length (Np.compress mask l) = length (filter (λ b, b = true) mask).
Proof.
  revert l. induction mask as [|b mask IH]; intros [|x l]; simpl; try done.
  intros [= Hlen]. rewrite filter_cons. destruct b; simpl.
  - by rewrite IH.
  - by rewrite IH.
Qed.

Lemma mask_count (labels : list Z) cluster_id :
  length (filter (λ b, b = true) (map (λ l, (l =? cluster_id)%Z) labels))
  = length (filter (λ l, l = cluster_id) labels).
Proof.
  induction labels as [|l labels IH]; [done|]. cbn [map]. rewrite !filter_cons.
  destruct (Z.eqb_spec l cluster_id) as [->|Hne].
  - rewrite !decide_True by done. cbn [length]. by f_equal.
  - rewrite decide_False by done. by rewrite decide_False by done.
Qed.

Lemma member_count (labels : list Z) cluster_id :
  cluster_id ∈ labels ↔ 0 < length (filter (λ l, l = cluster_id) labels).
Proof.
  split.
  - intros Hin.
    assert (cluster_id ∈ filter (λ l, l = cluster_id) labels) as Hin'
      by by apply list_elem_of_filter.
    destruct (filter _ labels); [by apply elem_of_nil in Hin'|simpl; lia].
  - intros Hpos. destruct (filter _ labels) as [|l rest] eqn:Hf; [simpl in *; lia|].
    assert (l ∈ filter (λ l, l = cluster_id) labels) as [-> ?]%list_elem_of_filter
      by (rewrite Hf; left).
    done.
Qed.

Lemma mean_axis0_length n rows scores :
  La.mean_axis0 n rows = inr scores → length scores = n.
Proof.
  unfold La.mean_axis0. destruct rows; [done|]. intros [= <-].
  by rewrite length_map, length_seq.
Qed.

Lemma feature_names_length vec V :
  vocabulary_ vec = Some V →
  ∃ names, get_feature_names_out vec = inr names ∧ length names = size V.
Proof.
  intros HV. unfold get_feature_names_out. rewrite HV. eexists. split; [done|].
  rewrite length_fmap, merge_sort_Permutation. apply length_map_to_list.
Qed.

Lemma cluster_mean_scores X (labels : list Z) cluster_id :
  length (csr_rows X) = (csr_shape X).1 → length labels = (csr_shape X).1 →
  let rows := Np.compress (map (λ l, (l =? cluster_id)%Z) labels) (csr_rows X) in
  csr_getitem_mask X (map (λ l, (l =? cluster_id)%Z) labels)
    = inr (mkCsr (length (filter (λ l, l = cluster_id) labels), (csr_shape X).2)
             rows) ∧
  length rows = length (filter (λ l, l = cluster_id) labels).
Proof.
  intros Hrows Hlabels rows. unfold csr_getitem_mask.
  rewrite length_map, Hlabels, Nat.eqb_refl, mask_count. split; [done|].
  unfold rows. rewrite compress_length by (rewrite length_map; lia).
  apply mask_count.
Qed.

Lemma top_terms_of_cluster tfidf_matrix cluster_labels tfidf_vectorizer
    cluster_id top_terms w X labels vec V :
  cluster_inputs w tfidf_matrix cluster_labels tfidf_vectorizer X labels vec V →
  cluster_id ∈ labels →
  ∃ terms names scores,
    get_cluster_top_terms tfidf_matrix cluster_labels tfidf_vectorizer
      cluster_id top_terms w = (inr terms, w) ∧
    get_feature_names_out vec = inr names ∧
    La.mean_axis0 (csr_shape X).2
      (Np.compress (map (λ l, (l =? cluster_id)%Z) labels) (csr_rows X))
      = inr scores ∧
    Forall2 (λ column term,
               names !! column = Some term.1 ∧ scores !! column = Some term.2)
      (top_indices scores top_terms) terms ∧
    Forall (λ term, term.1 ∈ names) terms ∧
    StronglySorted (λ a b, (b.2 <= a.2)%Q) terms ∧
    length terms
    = if (top_terms <? 0)%Z then (csr_shape X).2 - Z.to_nat (- top_terms)
      else Z.to_nat top_terms `min` (csr_shape X).2.
Proof.
  intros [HX Hlabels Hvec [HV Hwidth] [Hrows Hlen]] Hmember.
  destruct (cluster_mean_scores X labels cluster_id Hrows Hlen)
    as [Hmask Hcount].
  destruct (feature_names_length vec V HV) as (names & Hnames & Hnlen).
  apply member_count in Hmember.
  destruct (La.mean_axis0 (csr_shape X).2
              (Np.compress (map (λ l, (l =? cluster_id)%Z) labels) (csr_rows X)))
    as [e|scores] eqn:Hmean.
  { unfold La.mean_axis0 in Hmean. destruct (Np.compress _ _); [|done].
    simpl in Hcount. lia. }
  pose proof (mean_axis0_length _ _ _ Hmean) as Hscores.
  set (f := λ idx : nat,
         match names !! idx, scores !! idx with
         | Some term, Some score => inr (term, score)
         | _, _ => inl Py.IndexError
         end : Py.exn + string * Q).
  assert (Forall (λ idx, ∃ term, f idx = inr term ∧ term.1 ∈ names ∧
                                 term.2 = nth idx scores 0%Q ∧
                                 names !! idx = Some term.1 ∧
                                 scores !! idx = Some term.2)
            (top_indices scores top_terms)) as Hall.
  { apply Forall_forall. intros idx Hidx%top_indices_bound. unfold f.
    destruct (lookup_lt_is_Some_2 names idx) as [term Hterm]; [lia|].
    destruct (lookup_lt_is_Some_2 scores idx) as [score Hscore]; [lia|].
    rewrite Hterm, Hscore. eexists. split; [done|]. simpl. split_and!; [|
      |done..].
    - by eapply list_elem_of_lookup_2.
    - symmetry. by apply nth_lookup_Some. }
  destruct (mapR_total f (top_indices scores top_terms)) as [terms Hterms].
  { eapply Forall_impl; [exact Hall|]. intros idx (term & ? & _). by eexists. }
  assert (Forall2 (λ idx term, (term.1 ∈ names ∧ term.2 = nth idx scores 0%Q) ∧
                               names !! idx = Some term.1 ∧
                               scores !! idx = Some term.2)
            (top_indices scores top_terms) terms) as Hpairs.
  { pose proof (mapR_Forall2 _ _ _ Hterms) as Hf.
    clear -Hf Hall. induction Hf as [|idx term l ts Ht Hts IH]; [constructor|].
    apply Forall_cons in Hall as [(term' & Ht' & Hin & Hs & Hn & Hsc) Hall].
    constructor; [|auto]. rewrite Ht in Ht'. injection Ht' as <-. done. }
  assert (Forall2 (λ idx term, term.1 ∈ names ∧ term.2 = nth idx scores 0%Q)
            (top_indices scores top_terms) terms) as Hrel.
  { eapply Forall2_impl; [exact Hpairs|]. by intros idx term [? _]. }
  exists terms, names, scores. split_and!.
  - unfold get_cluster_top_terms.
    rewrite (bind_step _ _ w labels w (get_labels_lookup _ _ _ Hlabels)).
    rewrite (bind_step _ _ w X w (get_matrix_lookup _ _ _ HX)).
    rewrite (bind_step _ _ w _ w (f_equal (λ r, (r, w)) Hmask)).
    cbn [csr_shape csr_rows snd].
    rewrite (bind_step _ _ w _ w (f_equal (λ r, (r, w)) Hmean)).
    rewrite (bind_step _ _ w vec w (get_vectorizer_lookup _ _ _ Hvec)).
    rewrite (bind_step _ _ w _ w (f_equal (λ r, (r, w)) Hnames)).
    change (Py.slice_to (rev (argsort scores)) top_terms)
      with (top_indices scores top_terms).
    fold f. unfold lift. by rewrite Hterms.
  - done.
  - done.
  - eapply Forall2_impl; [exact Hpairs|]. by intros idx term [_ ?].
  - clear -Hrel. induction Hrel as [|???? [? _]]; by constructor.
  - eapply StronglySorted_Forall2; [|exact Hrel|apply top_indices_sorted].
    intros i j a b Hij [_ ->] [_ ->]. done.
  - rewrite <- (Forall2_length _ _ _ Hrel), top_indices_length. by rewrite Hscores.
Qed.

(** X21. Given live references to a matrix with a row per label and to
    a fitted vectorizer with a term for every column,
    [get_cluster_top_terms] returns for a cluster that has a member.
    With [scores] the means of the columns over the rows of the matrix
    whose label is the cluster, every entry of its list is the term of a
    column with the mean score of that same column; the columns are
    distinct and they are the best ones: no column that is left out has a
    higher mean than one that is listed.  The list is in non-increasing
    order of score and holds [top_terms] entries when that is not
    negative, or one per column when there are fewer columns. *)
Theorem get_cluster_top_terms_returns tfidf_matrix cluster_labels
    tfidf_vectorizer cluster_id top_terms w X labels vec V :
  cluster_inputs w tfidf_matrix cluster_labels tfidf_vectorizer X labels vec V →
  cluster_id ∈ labels →
  ∃ terms names scores columns,
    get_cluster_top_terms tfidf_matrix cluster_labels tfidf_vectorizer
      cluster_id top_terms w = (inr terms, w) ∧
    get_feature_names_out vec = inr names ∧
    La.mean_axis0 (csr_shape X).2
      (Np.compress (map (λ l, (l =? cluster_id)%Z) labels) (csr_rows X))
      = inr scores ∧
    Forall2 (λ column term,
               names !! column = Some term.1 ∧ scores !! column = Some term.2)
      columns terms ∧
    NoDup columns ∧
    (∀ i j, i ∈ columns → j < (csr_shape X).2 → j ∉ columns →
            (nth j scores 0 <= nth i scores 0)%Q) ∧
    Forall (λ term, term.1 ∈ names) terms ∧
    StronglySorted (λ a b, (b.2 <= a.2)%Q) terms ∧
    length terms
    = if (top_terms <? 0)%Z then (csr_shape X).2 - Z.to_nat (- top_terms)
      else Z.to_nat top_terms `min` (csr_shape X).2.
Proof.
  intros Hinputs Hmember.
  destruct (top_terms_of_cluster _ _ _ _ top_terms _ _ _ _ _ Hinputs Hmember)
    as (terms & names & scores & Hrun & Hnames & Hmean & Hpairs & Hin & Hsorted
        & Hlen).
  exists terms, names, scores, (top_indices scores top_terms).
  split_and!; try done.
  - apply top_indices_NoDup.
  - intros i j Hi Hj Hout. apply (top_indices_dominate scores top_terms); [done| |done].
    by rewrite (mean_axis0_length _ _ _ Hmean).
Qed.

(** X22. For a cluster without a member [get_cluster_top_terms] raises
    (the mean over no row divides by zero) and returns no list, however
    the matrix and the vectorizer are. *)
Theorem get_cluster_top_terms_no_member tfidf_matrix cluster_labels
    tfidf_vectorizer cluster_id top_terms w X labels :
  heap w !! tfidf_matrix = Some (OCsr X) →
  heap w !! cluster_labels = Some (OLabels labels) →
  length labels = (csr_shape X).1 →
  cluster_id ∉ labels →
  get_cluster_top_terms tfidf_matrix cluster_labels tfidf_vectorizer
    cluster_id top_terms w = (inl Py.ZeroDivisionError, w).
Proof.
  intros HX Hlabels Hlen Hout. unfold get_cluster_top_terms.
  rewrite (bind_step _ _ w labels w (get_labels_lookup _ _ _ Hlabels)).
  rewrite (bind_step _ _ w X w (get_matrix_lookup _ _ _ HX)).
  assert (Np.compress (map (λ l, (l =? cluster_id)%Z) labels) (csr_rows X) = [])
    as Hnone.
  { clear -Hout. generalize (csr_rows X).
    induction labels as [|l labels IH]; intros [|row rows]; simpl; try done.
    apply not_elem_of_cons in Hout as [Hne Hout].
    destruct (Z.eqb_spec l cluster_id); [done|]. by apply IH. }
  unfold csr_getitem_mask. rewrite length_map, Hlen, Nat.eqb_refl.
  unfold lift at 1. unfold bind at 1. cbn [csr_rows csr_shape].
  rewrite Hnone. done.
Qed.

(** ** The report of the clusters *)

Lemma mapM_Forall2 {A B} (f : A → M B) (P : A → B → Prop) l w :
  Forall (λ x, ∃ y, f x w = (inr y, w) ∧ P x y) l →
  ∃ ys, mapM f l w = (inr ys, w) ∧ Forall2 P l ys.
Proof.
  induction 1 as [|x l (y & Hy & HP) _ (ys & Hys & IH)]; simpl.
  - by exists [].
  - exists (y :: ys). split; [|by constructor].
    rewrite (bind_step _ _ _ _ _ Hy). by rewrite (bind_step _ _ _ _ _ Hys).
Qed.

Lemma lookup_column_map name (g : list cell → list cell) cols :
  Pd.lookup_column name (map (λ '(n, v), (n, g v)) cols)
  = g <$> Pd.lookup_column name cols.
Proof.
  induction cols as [|[n v] cols IH]; simpl; [done|].
  by destruct (String.eqb n name).
Qed.

Lemma has_column_lookup df name :
  Pd.has_column df name = true → ∃ v, Pd.lookup_column name (Pd.columns df) = Some v.
Proof.
  unfold Pd.has_column. destruct (Pd.lookup_column _ _); [by eexists|done].
Qed.

Lemma slice_to_length_eq {A B} (l : list A) (k : list B) n :
  length l = length k → length (Py.slice_to l n) = length (Py.slice_to k n).
Proof.
  intros Hlen. unfold Py.slice_to. destruct (n <? 0)%Z; rewrite !length_take; lia.
Qed.

Lemma cell_mask (labels : list Z) cluster_id :
  map (cell_is cluster_id) (map CInt labels)
  = map (λ l, (l =? cluster_id)%Z) labels.
Proof. by rewrite <- list_fmap_compose. Qed.

Lemma examples_column frame (labels : list Z) mask n name col :
  name ≠ "cluster" →
  Pd.lookup_column name (Pd.columns frame) = Some col →
  Pd.getitem
    (Pd.head
       (Pd.filter_rows
          (Pd.mkDataFrame (Pd.nrows frame)
             (Pd.set_column "cluster" (map CInt labels) (Pd.columns frame)))
          mask) n) name
  = inr (Py.slice_to (Np.compress mask col) n).
Proof.
  intros Hname Hcol. unfold Pd.getitem, Pd.head, Pd.filter_rows.
  cbn [Pd.columns].
  rewrite (lookup_column_map name (λ v, Py.slice_to v n)).
  rewrite (lookup_column_map name (Np.compress mask)).
  by rewrite lookup_column_set_column_ne, Hcol.
Qed.

(** One entry of the report, for a cluster that has a member. *)
Lemma cluster_entry df tfidf_matrix cluster_labels tfidf_vectorizer top_terms
    examples_per_cluster cluster_id w frame X labels vec V :
  heap w !! df
    = Some (ODataFrame
              (Pd.mkDataFrame (Pd.nrows frame)
                 (Pd.set_column "cluster" (map CInt labels) (Pd.columns frame)))) →
  cluster_inputs w tfidf_matrix cluster_labels tfidf_vectorizer X labels vec V →
  frame_ok frame → Pd.nrows frame = length labels →
  Forall (λ name, Pd.has_column frame name = true)
    ["combined_text"; "Complaint Type"; "Descriptor"] →
  Z.of_nat cluster_id ∈ labels →
  ∃ entry,
    (let* frame := get_frame df in
     let* column := lift (Pd.getitem frame "cluster") in
     let cluster_data :=
       Pd.filter_rows frame (map (cell_is (Z.of_nat cluster_id)) column) in
     let examples := Pd.head cluster_data examples_per_cluster in
     let* _ := (if 0 <? Pd.nrows examples
                then lift (Pd.getitem examples "combined_text")
                else ret []) in
     let* top_terms_list :=
       get_cluster_top_terms tfidf_matrix cluster_labels tfidf_vectorizer
         (Z.of_nat cluster_id) top_terms in
     let* records := lift (to_records examples) in
     ret (cluster_id,
          mkClusterReport (Pd.nrows cluster_data) records top_terms_list)) w
    = (inr (cluster_id, entry), w) ∧
    cluster_size entry
      = length (filter (λ l, l = Z.of_nat cluster_id) labels) ∧
    length (cluster_examples entry)
      = length (Py.slice_to (seq 0 (cluster_size entry)) examples_per_cluster).
Proof.
  intros Hdf Hin Hok Hrows Hcols Hmember.
  apply Forall_cons in Hcols as [[text Htext]%has_column_lookup Hcols].
  apply Forall_cons in Hcols as [[type Htype]%has_column_lookup Hcols].
  apply Forall_cons in Hcols as [[desc Hdesc]%has_column_lookup _].
  destruct (top_terms_of_cluster tfidf_matrix cluster_labels tfidf_vectorizer
              (Z.of_nat cluster_id) top_terms w X labels vec V Hin Hmember)
    as (terms & names & scores & Hterms & _).
  set (mask := map (cell_is (Z.of_nat cluster_id)) (map CInt labels)).
  assert (length (filter (λ b, b = true) mask)
          = length (filter (λ l, l = Z.of_nat cluster_id) labels)) as Hcount.
  { unfold mask. rewrite cell_mask. apply mask_count. }
  assert (∀ name col, Pd.lookup_column name (Pd.columns frame) = Some col →
            length (Py.slice_to (Np.compress mask col) examples_per_cluster)
            = length (Py.slice_to
                        (seq 0 (length (filter (λ b, b = true) mask)))
                        examples_per_cluster)) as Hlen.
  { intros name col Hcol. apply slice_to_length_eq.
    rewrite length_seq. apply compress_length.
    pose proof Hcol as [n Hn]%lookup_column_elem_of.
    unfold frame_ok in Hok. rewrite Forall_forall in Hok.
    specialize (Hok _ Hn). simpl in Hok.
    unfold mask. rewrite !length_map. lia. }
  set (frame2 := Pd.mkDataFrame (Pd.nrows frame)
                   (Pd.set_column "cluster" (map CInt labels) (Pd.columns frame)))
    in *.
  eexists.
  rewrite (bind_step _ _ w frame2 w (get_frame_lookup _ _ _ Hdf)).
  rewrite (bind_step _ _ w (map CInt labels) w).
  2:{ unfold lift, Pd.getitem, frame2. cbn [Pd.columns].
      by rewrite lookup_column_set_column. }
  cbv zeta. fold mask.
  rewrite (bind_step _ _ w
             (if 0 <? Pd.nrows (Pd.head (Pd.filter_rows frame2 mask)
                                  examples_per_cluster)
              then Py.slice_to (Np.compress mask text) examples_per_cluster
              else []) w).
  2:{ destruct (0 <? _); [|done]. unfold lift.
      by rewrite (examples_column frame labels mask _ "combined_text" text). }
  rewrite (bind_step _ _ w _ w Hterms).
  rewrite (bind_step _ _ w
             (zip (zip (Py.slice_to (Np.compress mask text) examples_per_cluster)
                     (Py.slice_to (Np.compress mask type) examples_per_cluster))
                (Py.slice_to (Np.compress mask desc) examples_per_cluster)) w).
  2:{ unfold lift, to_records.
      rewrite (examples_column frame labels mask _ "combined_text" text) by done.
      rewrite (examples_column frame labels mask _ "Complaint Type" type) by done.
      by rewrite (examples_column frame labels mask _ "Descriptor" desc) by done. }
  split; [reflexivity|]. cbn [cluster_size cluster_examples Pd.nrows Pd.filter_rows].
  split; [done|].
  rewrite !length_zip_with, (Hlen _ _ Htext), (Hlen _ _ Htype), (Hlen _ _ Hdesc).
  lia.
Qed.

(** ** Every row in one cluster *)

Lemma insert_unique_elem_of x y l :
  y ∈ Np.insert_unique x l ↔ y = x ∨ y ∈ l.
Proof.
  induction l as [|z l IH]; simpl.
  - rewrite list_elem_of_singleton. split; [by left|].
    by intros [?|?%elem_of_nil].
  - destruct (Z.ltb_spec x z).
    + by rewrite elem_of_cons.
    + destruct (Z.eqb_spec x z) as [->|Hne].
      * split; [by right|]. intros [->|?]; [left|done].
      * rewrite !elem_of_cons, IH.
        split; (intros [?|[?|?]]; [by right; left|by left|by right; right]).
Qed.

Lemma unique_elem_of a x : x ∈ Np.unique a ↔ x ∈ a.
Proof.
  unfold Np.unique. induction a as [|y a IH]; simpl; [done|].
  by rewrite insert_unique_elem_of, IH, elem_of_cons.
Qed.

Lemma insert_unique_sorted x l :
  StronglySorted Z.lt l → StronglySorted Z.lt (Np.insert_unique x l).
Proof.
  induction 1 as [|z l Hl IH Hz]; simpl; [repeat constructor|].
  destruct (Z.ltb_spec x z).
  - constructor; [by constructor|]. constructor; [done|].
    eapply Forall_impl; [exact Hz|]. simpl. lia.
  - destruct (Z.eqb_spec x z) as [->|Hne]; [by constructor|].
    constructor; [done|]. apply Forall_forall.
    intros y [->|Hy]%insert_unique_elem_of; [lia|].
    rewrite Forall_forall in Hz. by apply Hz.
Qed.

Lemma unique_NoDup a : NoDup (Np.unique a).
Proof.
  assert (StronglySorted Z.lt (Np.unique a)) as Hsorted.
  { unfold Np.unique. induction a as [|x a IH]; simpl; [constructor|].
    by apply insert_unique_sorted. }
  induction Hsorted as [|x l Hl IH Hx]; constructor; [|done].
  intros Hin. rewrite Forall_forall in Hx. specialize (Hx x Hin). lia.
Qed.

(** When every id below the number of distinct labels has a member, the
    labels are these ids. *)
Lemma contiguous_labels (labels : list Z) :
  (∀ id, id < length (Np.unique labels) → Z.of_nat id ∈ labels) →
  ∀ l, l ∈ labels → ∃ id, id < length (Np.unique labels) ∧ l = Z.of_nat id.
Proof.
  intros Hmembers l Hl.
  set (ids := map Z.of_nat (seq 0 (length (Np.unique labels)))).
  assert (ids ≡ₚ Np.unique labels) as Hperm.
  { apply submseteq_length_Permutation.
    - apply NoDup_submseteq.
      + apply NoDup_fmap; [apply _|apply NoDup_seq].
      + intros x (id & -> & Hid%elem_of_seq)%list_elem_of_fmap.
        apply unique_elem_of, Hmembers. lia.
    - unfold ids. by rewrite length_map, length_seq. }
  apply unique_elem_of in Hl. rewrite <- Hperm in Hl.
  apply list_elem_of_fmap in Hl as (id & -> & Hid%elem_of_seq).
  exists id. split; [lia|done].
Qed.

Lemma count_partition (labels : list Z) u :
  (∀ l, l ∈ labels → ∃ id, id < u ∧ l = Z.of_nat id) →
  sum_list (map (λ id, length (filter (λ l, l = Z.of_nat id) labels)) (seq 0 u))
  = length labels.
Proof.
  induction labels as [|l labels IH]; intros Hrange.
  - simpl. induction (seq 0 u) as [|id ids IHids]; [done|]. simpl. by rewrite IHids.
  - destruct (Hrange l) as (id0 & Hid0 & ->); [left|].
    cbn [length].
    rewrite <- (IH (λ l Hl, Hrange l (list_elem_of_further _ _ _ Hl))).
    clear IH Hrange.
    assert (∀ a n, a ≤ id0 < a + n →
              sum_list (map (λ id, length (filter (λ l, l = Z.of_nat id)
                                             (Z.of_nat id0 :: labels)))
                          (seq a n))
              = S (sum_list (map (λ id, length (filter (λ l, l = Z.of_nat id)
                                                  labels))
                               (seq a n)))) as Hin.
    { intros a n. revert a. induction n as [|n IHn]; intros a Ha; [lia|].
      cbn [seq map sum_list]. rewrite filter_cons.
      destruct (decide (a = id0)) as [Heq|Hne].
      - subst a. rewrite decide_True by done. cbn [length].
        assert (∀ b m, id0 < b →
                  map (λ id, length (filter (λ l, l = Z.of_nat id)
                                       (Z.of_nat id0 :: labels))) (seq b m)
                  = map (λ id, length (filter (λ l, l = Z.of_nat id) labels))
                      (seq b m)) as Hout.
        { intros b m Hb. apply list_fmap_ext.
          intros i id [-> _]%lookup_seq. rewrite filter_cons.
          by rewrite decide_False by lia. }
        rewrite Hout by lia. unfold id. lia.
      - rewrite decide_False by lia. rewrite IHn by lia. unfold id. lia. }
    apply Hin. lia.
Qed.

(** X23. Given live references to a frame with the three text columns,
    one label per row, a matrix with a row per label and a fitted
    vectorizer, and labels such that every id below the number of distinct
    labels has a member, [analyze_clusters] returns a report with one entry
    per id in order; the size of an entry is the number of rows with that
    label, and its examples are [examples_per_cluster] of them, or all
    when there are fewer; the sizes add up to the number of rows, every
    row being in one cluster. *)
Theorem analyze_clusters_report df cluster_labels tfidf_matrix tfidf_vectorizer
    top_terms examples_per_cluster w frame X labels vec V :
  heap w !! df = Some (ODataFrame frame) →
  cluster_inputs w tfidf_matrix cluster_labels tfidf_vectorizer X labels vec V →
  frame_ok frame → Pd.nrows frame = length labels →
  Forall (λ name, Pd.has_column frame name = true)
    ["combined_text"; "Complaint Type"; "Descriptor"] →
  (∀ cluster_id, cluster_id < length (Np.unique labels) →
                 Z.of_nat cluster_id ∈ labels) →
  ∃ report w',
    analyze_clusters df cluster_labels tfidf_matrix tfidf_vectorizer top_terms
      examples_per_cluster w = (inr report, w') ∧
    report.*1 = seq 0 (length (Np.unique labels)) ∧
    Forall (λ entry,
              cluster_size entry.2
                = length (filter (λ l, l = Z.of_nat entry.1) labels) ∧
              length (cluster_examples entry.2)
                = length (Py.slice_to (seq 0 (cluster_size entry.2))
                            examples_per_cluster))
      report ∧
    sum_list (cluster_size <$> report.*2) = Pd.nrows frame.
Proof.
  intros Hdf Hin Hok Hrows Hcols Hmembers.
  pose proof Hin as [HX Hlabels Hvec HV Hshape].
  unfold analyze_clusters.
  rewrite (bind_step _ _ w frame w (get_frame_lookup _ _ _ Hdf)).
  set (l := fresh (dom (heap w))).
  assert (heap w !! l = None) as Hfresh.
  { apply not_elem_of_dom, is_fresh. }
  set (w1 := set_heap (<[l := ODataFrame frame]> (heap w)) w).
  rewrite (bind_step (new _) _ w l w1) by done.
  assert (∀ r o, heap w !! r = Some o → heap w1 !! r = Some o) as Hkeep1.
  { intros r o Hr. unfold w1. cbn [heap set_heap].
    rewrite lookup_insert_ne; [done|]. congruence. }
  rewrite (bind_step _ _ w1 labels w1 (get_labels_lookup _ _ _ (Hkeep1 _ _ Hlabels))).
  rewrite (bind_step _ _ w1 frame w1).
  2:{ apply get_frame_lookup. unfold w1. cbn [heap set_heap].
      apply lookup_insert_eq. }
  set (frame2 := Pd.mkDataFrame (Pd.nrows frame)
                   (Pd.set_column "cluster" (map CInt labels) (Pd.columns frame))).
  rewrite (bind_step _ _ w1 frame2 w1).
  2:{ unfold lift, Pd.setitem. by rewrite length_map, <- Hrows, Nat.eqb_refl. }
  set (w2 := set_heap (<[l := ODataFrame frame2]> (heap w1)) w1).
  rewrite (bind_step (assign _ _) _ w1 tt w2) by done.
  assert (∀ r o, heap w !! r = Some o → heap w2 !! r = Some o) as Hkeep2.
  { intros r o Hr. unfold w2. cbn [heap set_heap].
    rewrite lookup_insert_ne; [by apply Hkeep1|]. congruence. }
  assert (cluster_inputs w2 tfidf_matrix cluster_labels tfidf_vectorizer
            X labels vec V) as Hin2.
  { constructor; auto. }
  cbv zeta.
  match goal with
  | |- ∃ report w', mapM ?f ?ids w2 = _ ∧ _ =>
      destruct (mapM_Forall2 f
                  (λ cluster_id entry,
                     entry.1 = cluster_id ∧
                     cluster_size entry.2
                       = length (filter (λ l, l = Z.of_nat entry.1) labels) ∧
                     length (cluster_examples entry.2)
                       = length (Py.slice_to (seq 0 (cluster_size entry.2))
                                   examples_per_cluster))
                  ids w2) as (report & Hrun & Hrel)
  end.
  { apply Forall_forall. intros cluster_id Hid%elem_of_seq.
    destruct (cluster_entry l tfidf_matrix cluster_labels tfidf_vectorizer
                top_terms examples_per_cluster cluster_id w2 frame X labels
                vec V) as (entry & Hentry & Hsize & Hexamples); try done.
    - unfold w2. cbn [heap set_heap]. apply lookup_insert_eq.
    - apply Hmembers. lia.
    - exists (cluster_id, entry). split; [exact Hentry|done]. }
  exists report, w2. split; [done|]. split_and!.
  - clear -Hrel. unfold Py.range in Hrel.
    induction Hrel as [|id e ids es [He _] _ IH]; [done|].
    by rewrite fmap_cons, He, IH.
  - clear -Hrel. induction Hrel as [|id e ids es [_ He] _ IH]; by constructor.
  - rewrite Hrows, <- (count_partition labels (length (Np.unique labels)))
      by by apply contiguous_labels.
    f_equal. clear -Hrel. unfold Py.range in Hrel.
    induction Hrel as [|id e ids es (He & Hsize & _) _ IH]; [done|].
    rewrite !fmap_cons. cbn [map]. by rewrite Hsize, He, IH.
Qed.

(** ** The columns of a transformed text *)

Lemma count_row_known (V : gmap string nat) toks t j :
  t ∈ toks → V !! t = Some j → is_Some (Tfidf.count_row V toks !! j).
Proof.
  unfold Tfidf.count_row. induction toks as [|t0 toks IH]; simpl.
  - by intros ?%elem_of_nil.
  - intros [->|Hin]%elem_of_cons Hj.
    + rewrite Hj, lookup_insert_eq. by eexists.
    + destruct (V !! t0) as [i|]; [|by apply IH].
      destruct (decide (i = j)) as [->|Hne].
      * rewrite lookup_insert_eq. by eexists.
      * rewrite lookup_insert_ne by done. by apply IH.
Qed.

Lemma tfidf_row_known (V : gmap string nat) weights toks t j :
  t ∈ toks → V !! t = Some j → is_Some (tfidf_row V weights toks !! j).
Proof.
  intros Hin Hj. destruct (count_row_known V toks t j Hin Hj) as [c Hc].
  unfold tfidf_row. destruct (Qeq_bool _ _).
  - rewrite map_lookup_imap, Hc. by eexists.
  - rewrite lookup_fmap, map_lookup_imap, Hc. by eexists.
Qed.

(** X24. A fitted vectorizer gives one text a row whose stored columns
    are exactly the columns of the terms of the text that the vocabulary
    knows: every known term of the text has its entry, and there is no
    other entry. *)
Theorem transform_row_support vec V text mf md :
  vocabulary_ vec = Some V →
  ∃ X row,
    vectorize_texts [text] (Some vec) mf md = inr (X, vec) ∧
    csr_rows X = [row] ∧
    ∀ j, j ∈ dom row ↔ ∃ term, term ∈ Tfidf.analyze text ∧ V !! term = Some j.
Proof.
  intros HV. unfold vectorize_texts, TfidfVectorizer_transform. rewrite HV.
  eexists _, _. split; [reflexivity|]. split; [reflexivity|].
  intros j. rewrite elem_of_dom. split.
  - apply tfidf_row_lookup.
  - intros (term & Hin & Hj). by eapply tfidf_row_known.
Qed.

(** ** The locations of the results of a search *)

Lemma find_similar_incidents_locations q vec lsi vectors df top_k results :
  find_similar_incidents q vec lsi vectors df top_k = inr results →
  Forall (λ r,
            optional_field df (index r) "Street Name" true = inr (street_name r) ∧
            optional_field df (index r) "Incident Zip" true = inr (incident_zip r) ∧
            optional_field df (index r) "Borough" true = inr (borough r))
    results.
Proof.
  unfold find_similar_incidents.
  destruct (similarities q vec lsi vectors) as [e|sims]; simpl; [done|].
  intros H. apply mapR_Forall2 in H.
  induction H as [|idx r idxs rs Hr _ IH]; constructor; [|done]. clear IH.
  simpl in Hr.
  destruct (Pd.iloc df idx "combined_text"); simpl in Hr; [done|].
  destruct (Pd.iloc df idx "Complaint Type"); simpl in Hr; [done|].
  destruct (Pd.iloc df idx "Descriptor"); simpl in Hr; [done|].
  destruct (optional_field df idx "Unique Key" false); simpl in Hr; [done|].
  destruct (optional_field df idx "Created Date" false); simpl in Hr; [done|].
  destruct (optional_field df idx "Incident Address" true); simpl in Hr; [done|].
  destruct (optional_field df idx "Street Name" true) eqn:Hstreet;
    simpl in Hr; [done|].
  destruct (optional_field df idx "Incident Zip" true) eqn:Hzip;
    simpl in Hr; [done|].
  destruct (optional_field df idx "Borough" true) eqn:Hboro;
    simpl in Hr; [done|].
  destruct (optional_field df idx "City" true); simpl in Hr; [done|].
  injection Hr as <-. by cbn [index street_name incident_zip borough].
Qed.

Lemma present_cell_text df idx name field key :
  optional_field df idx name true = inr field → key ≠ "" →
  Locations.present field = Some key ↔ cell_text df idx name = Some key.
Proof.
  unfold optional_field, cell_text. intros Hfield Hkey.
  destruct (Pd.has_column df name) eqn:Hcol.
  - destruct (Pd.iloc df idx name) as [e|c]; simpl in Hfield; [done|].
    injection Hfield as <-. cbn [andb Locations.present].
    destruct (Pd.notna c); cbn [negb].
    + destruct (String.eqb_spec (py_str c) "") as [Hblank|_]; [|done].
      split; [done|]. intros [= <-]. done.
    + split; done.
  - injection Hfield as <-. cbn [Locations.present].
    unfold Pd.has_column in Hcol. unfold Pd.iloc.
    destruct (_ <? _); [|done].
    by destruct (Pd.lookup_column name (Pd.columns df)).
Qed.

Lemma filter_length_ext {A} (P Q : A → Prop) `{!∀ x, Decision (P x)}
    `{!∀ x, Decision (Q x)} (l : list A) :
  Forall (λ x, P x ↔ Q x) l → length (filter P l) = length (filter Q l).
Proof.
  induction 1 as [|x l Hx _ IH]; [done|]. rewrite !filter_cons.
  destruct (decide (P x)) as [HP|HP].
  - rewrite decide_True by by apply Hx. simpl. by rewrite IH.
  - by rewrite decide_False by by rewrite <- Hx.
Qed.

Lemma occurrences_cell_text df name field results key :
  Forall (λ r, optional_field df (index r) name true = inr (field r)) results →
  key ≠ "" →
  occurrences field key results
  = length (filter (λ r, cell_text df (index r) name = Some key) results).
Proof.
  intros Hfields Hkey. unfold occurrences. apply filter_length_ext.
  eapply Forall_impl; [exact Hfields|]. intros r Hr. simpl.
  by apply present_cell_text.
Qed.

(** X25. The location statistics of the results of a search count the
    cells of the frame: a borough is listed with a count exactly when its
    name is not empty and that many returned rows (at least one) hold it
    in a cell of column [Borough] that is not missing, and every listed
    street and zip code comes with the number of returned rows that hold
    it; a missing cell, or a missing column, counts for nothing. *)
Theorem search_locations_counted q vec lsi vectors df top_k top_n results :
  find_similar_incidents q vec lsi vectors df top_k = inr results →
  let stats := analyze_locations results top_n in
  let rows name key :=
    length (filter (λ r, cell_text df (index r) name = Some key) results) in
  (∀ key n, (key, n) ∈ borough_counts stats
            ↔ key ≠ "" ∧ 0 < n ∧ n = rows "Borough" key) ∧
  (∀ key n, (key, n) ∈ street_counts stats → n = rows "Street Name" key) ∧
  (∀ key n, (key, n) ∈ zip_counts stats → n = rows "Incident Zip" key).
Proof.
  intros Hres stats rows. subst stats rows.
  apply find_similar_incidents_locations in Hres.
  rewrite analyze_locations_eq. cbn [borough_counts street_counts zip_counts].
  split_and!.
  - intros key n. rewrite count_field_elem_of. split.
    + intros [Hn ->]. pose proof (occurrences_positive _ _ _ Hn) as Hkey.
      split; [done|]. split; [done|].
      apply (occurrences_cell_text df "Borough"); [|done].
      eapply Forall_impl; [exact Hres|]. by intros r (_ & _ & ?).
    + intros (Hkey & Hn & ->). split; [done|]. symmetry.
      apply (occurrences_cell_text df "Borough"); [|done].
      eapply Forall_impl; [exact Hres|]. by intros r (_ & _ & ?).
  - intros key n Hin%slice_to_subseteq.
    rewrite sorted_by_count_Permutation in Hin.
    apply count_field_elem_of in Hin as [Hn ->].
    apply (occurrences_cell_text df "Street Name");
      [|by eapply occurrences_positive].
    eapply Forall_impl; [exact Hres|]. by intros r (? & _ & _).
  - intros key n Hin%slice_to_subseteq.
    rewrite sorted_by_count_Permutation in Hin.
    apply count_field_elem_of in Hin as [Hn ->].
    apply (occurrences_cell_text df "Incident Zip");
      [|by eapply occurrences_positive].
    eapply Forall_impl; [exact Hres|]. by intros r (_ & ? & _).
Qed.

End Pipeline.

(** * The theorems on the small instance *)

Local Abbreviation search :=
  (find_similar_incidents Example.sqrt Example.float_repr Example.STOP_WORDS
     Np.argsort).

Local Abbreviation run_main :=
  (main_with Example.ln Example.sqrt Example.float_repr Example.STOP_WORDS
     Np.argsort Z
     Example.RandomState Example.TruncatedSVD_fit_transform
     Example.KMeans_fit_predict Example.load_data Example.reduce_to_2d
     Example.render_plot Example.render_html).

Local Abbreviation world_with dataset :=
  (mkWorld Z ∅ {["dataset.csv" := FCsv dataset]} [] 0%Z "2024-01-01T00:00:00").

Lemma example_stored :
  stored_bundle Example.vectorizer Example.projector Example.latent
    Example.incidents 3.
Proof.
  constructor.
  - eexists. split; [reflexivity|]. by vm_compute.
  - eexists. split; [reflexivity|]. done.
  - simpl. lia.
  - split; [done|]. repeat constructor.
  - simpl. lia.
  - split; [|done]. repeat constructor.
  - repeat constructor.
Qed.

(** C2, the claim as stated: with an argsort that keeps equal values in
    index order, documents 0 and 1 have the same similarity with the query
    and come out in the order 1, 0. *)
Lemma equal_similarity_descending_index :
  ∃ results,
    search (CStr "noise") Example.vectorizer Example.projector Example.latent
      Example.incidents 3 = inr results ∧
    index <$> results = [1; 0; 2] ∧ ¬ ties_by_ascending_index results.
Proof.
  eexists. split; [by vm_compute|]. split; [done|].
  intros H. specialize (H 0 1 _ _ (Nat.lt_0_1) eq_refl eq_refl).
  simpl in H. assert (1 < 0) by (apply H; reflexivity). lia.
Qed.

Lemma find_similar_incidents_descending_witness :
  ∃ results,
    search (CStr "noise") Example.vectorizer Example.projector Example.latent
      Example.incidents 3 = inr results ∧
    by_descending_similarity results.
Proof.
  apply (find_similar_incidents_descending Example.sqrt Example.float_repr
           Example.STOP_WORDS Np.argsort stable_argsort_sorts (CStr "noise")
           _ _ _ _ 3 3 example_stored).
Defined.

Lemma unrecognized_query_similarity_zero_witness :
  ∃ sims results,
    similarities Example.sqrt Example.float_repr Example.STOP_WORDS
      (CStr "Graffiti!") Example.vectorizer Example.projector Example.latent
      = inr sims ∧
    length sims = 3 ∧ Forall (λ s, (s == 0)%Q) sims ∧
    search (CStr "Graffiti!") Example.vectorizer Example.projector
      Example.latent Example.incidents 2 = inr results ∧
    Forall (λ r, (similarity r == 0)%Q) results.
Proof.
  apply (unrecognized_query_similarity_zero Example.sqrt Example.float_repr
           Example.STOP_WORDS Np.argsort stable_argsort_sorts (CStr "Graffiti!")
           _ _ _ _ 3 2 example_stored).
  intros V [= <-]. vm_compute. repeat constructor.
Defined.

Lemma top_k_beyond_document_count_witness :
  ∃ results,
    search (CStr "noise") Example.vectorizer Example.projector Example.latent
      Example.incidents 10 = inr results ∧
    length results = 3 ∧ index <$> results ≡ₚ seq 0 3.
Proof.
  apply (top_k_beyond_document_count Example.sqrt Example.float_repr
           Example.STOP_WORDS Np.argsort stable_argsort_sorts (CStr "noise")
           _ _ _ _ 3 10 example_stored).
  lia.
Defined.

Lemma transform_columns_in_vocabulary_witness :
  ∃ X vec,
    vectorize_texts Example.ln Example.sqrt Np.argsort
      ["noise"; "noise"; "parking"] None 5000 1 = inr (X, vec) ∧
    ∃ V X' row,
      vocabulary_ vec = Some V ∧
      vectorize_texts Example.ln Example.sqrt Np.argsort ["noise graffiti"]
        (Some vec) 5000 1 = inr (X', vec) ∧
      csr_shape X' = (1, size V) ∧ csr_rows X' = [row] ∧
      ∀ j, j ∈ dom row →
        j < size V ∧
        ∃ term, term ∈ Tfidf.analyze "noise graffiti" ∧ V !! term = Some j.
Proof.
  eexists _, _. split; [by vm_compute|].
  eapply (transform_columns_in_vocabulary Example.ln Example.sqrt Np.argsort
            ["noise"; "noise"; "parking"] 5000 1).
  by vm_compute.
Defined.

(** C4, the claim as stated: on two complaints without a word in common no
    term reaches [MIN_DF = 2], and the run does not report an error and
    return: it ends on the vectorizer's exception. *)
Lemma main_raises_without_vocabulary :
  (run_main default_config (world_with Example.unrelated)).1
    = inl (Py.ValueError
             "After pruning, no terms remain. Try a lower min_df or a higher max_df.").
Proof. by vm_compute. Qed.

Lemma main_stops_without_vocabulary_witness :
  ∃ msg df',
    preprocess_dataframe Example.float_repr Example.STOP_WORDS Example.unrelated
      "combined_text" = inr df' ∧
    run_main default_config (world_with Example.unrelated) =
      (inl (Py.ValueError msg),
       set_stdout Z
         (stdout Z (world_with Example.unrelated)
            ++ ["[Step 1] Loading data..."; "[Step 2] Preprocessing text...";
                "[Step 3] Creating TF-IDF vectors..."])
         (set_fs Z
            (<[Py.path_join DATA_DIR "processed_data.csv" := FCsv df']>
               (fs Z (world_with Example.unrelated)))
            (world_with Example.unrelated))).
Proof.
  apply (main_stops_without_vocabulary Example.ln Example.sqrt Example.float_repr
           Example.STOP_WORDS Np.argsort Z Example.RandomState
           Example.TruncatedSVD_fit_transform Example.KMeans_fit_predict
           Example.load_data Example.reduce_to_2d Example.render_plot
           Example.render_html default_config (world_with Example.unrelated)
           Example.unrelated
           [CStr "Noise - Residential"; CStr "Parking - Driveway"]).
  - eexists. by vm_compute.
  - by vm_compute.
  - by vm_compute.
  - by vm_compute.
  - intros t Ht. vm_compute in Ht.
    apply list_elem_of_In in Ht. simpl in Ht.
    destruct Ht as [<-|[<-|[<-|[<-|[]]]]]; by vm_compute.
Defined.

Lemma example_fitted_width :
  fitted_width Z Example.TruncatedSVD_fit_transform.
Proof.
  intros m X g V m' H. unfold Example.TruncatedSVD_fit_transform in H.
  destruct (_ || _); [done|]. simpl in H. by injection H as <- _.
Qed.

(** C5, the claim as stated: three reports in a vocabulary of eight terms
    and 150 components requested.  [apply_lsi] clamps to seven, the fit
    returns a column for each of the three records, and the metadata
    records 3 components, not 7. *)
Lemma records_fewer_than_components :
  let cfg := mkConfig "dataset.csv" 150 1 5000 2 (Some 42%Z) in
  let run := run_main cfg (world_with Example.reports) in
  run.1 = inr tt ∧
  match fs Z run.2 !! Py.path_join EMBEDDINGS_DIR "metadata.json" with
  | Some (FJson md) =>
      vocabulary_size (md_dataset_info md) = 8 ∧
      total_records (md_dataset_info md) = 3 ∧
      cfg_lsi_components (md_configuration md) = 150%Z ∧
      n_components_lsi (md_dataset_info md) = 3 ∧
      n_components_lsi (md_dataset_info md)
        ≠ vocabulary_size (md_dataset_info md) - 1
  | _ => False
  end.
Proof.
  intros cfg run. split; [by vm_compute|]. vm_compute.
  split_and!; [reflexivity..|discriminate].
Qed.

Lemma effective_components_recorded_witness :
  let cfg := mkConfig "dataset.csv" 150 1 5000 2 (Some 42%Z) in
  let w' := (run_main cfg (world_with Example.complaints)).2 in
  ∃ md X V m g,
    fs Z w' !! Py.path_join EMBEDDINGS_DIR "metadata.json" = Some (FJson md) ∧
    fs Z w' !! Py.path_join EMBEDDINGS_DIR "tfidf_vectors.npz" = Some (FNpz X) ∧
    fs Z w' !! Py.path_join EMBEDDINGS_DIR "lsi_vectors.npy" = Some (FNpy V) ∧
    (Example.TruncatedSVD_fit_transform
       (mkSVD (Z.min (N_COMPONENTS cfg) (Z.of_nat (csr_shape X).2 - 1))
          (RANDOM_STATE cfg) "randomized" 5 None 0) X g).1 = inr (V, m) ∧
    cfg_lsi_components (md_configuration md) = 150%Z ∧
    vocabulary_size (md_dataset_info md) = (csr_shape X).2 ∧
    n_features_tfidf (md_dataset_info md) = (csr_shape X).2 ∧
    total_records (md_dataset_info md) = (csr_shape X).1 ∧
    n_components_lsi (md_dataset_info md) = (shape V).2 ∧
    n_components_lsi (md_dataset_info md)
      = Z.to_nat (Z.min 150 (Z.of_nat (vocabulary_size (md_dataset_info md)) - 1))
          `min` total_records (md_dataset_info md).
Proof.
  intros cfg w'.
  destruct (effective_components_recorded Example.ln Example.sqrt
              Example.float_repr Example.STOP_WORDS Np.argsort Z
              Example.RandomState Example.TruncatedSVD_fit_transform
              Example.KMeans_fit_predict Example.load_data Example.reduce_to_2d
              Example.render_plot Example.render_html cfg
              (world_with Example.complaints) w')
    as (md & X & V & m & g & H1 & H2 & H3 & H4 & H5 & H6 & H7 & H8 & H9 & H10).
  - eexists. by vm_compute.
  - by vm_compute.
  - exists md, X, V, m, g.
    exact (conj H1 (conj H2 (conj H3 (conj H4 (conj H5 (conj H6 (conj H7
             (conj H8 (conj H9 (proj1 (H10 example_fitted_width))))))))))).
Defined.

Local Abbreviation empty_world := (mkWorld Z ∅ ∅ [] 0%Z "2024-01-01T00:00:00").



Local Abbreviation objects labels :=
  (mkWorld Z
     (list_to_map [(0, ODataFrame Example.incidents); (1, OLabels labels);
                   (2, OCsr Example.tfidf); (3, OVectorizer Example.vectorizer)])
     ∅ [] 0%Z "2024-01-01T00:00:00").

(** C7, the code at two outcomes of a clustering into three clusters.  With
    the labels 0, 0, 1 cluster 2 is empty and the report has entries for
    0 and 1 only: the empty cluster is not reported.  With the labels
    0, 2, 2 cluster 1 is empty: the report is cut short by the division by
    zero of the mean over no row, and cluster 2, which has two members, is
    never reached.  [analyze_clusters] counts the distinct labels and walks
    [range] of that count. *)
Lemma analyze_clusters_misses_empty_cluster :
  (∃ report,
     (analyze_clusters Np.argsort Z 0 1 2 3 10 5 (objects [0; 0; 1]%Z)).1 = inr report ∧
     report.*1 = [0; 1] ∧
     cluster_size <$> report.*2 = [2; 1]) ∧
  (analyze_clusters Np.argsort Z 0 1 2 3 10 5 (objects [0; 2; 2]%Z)).1
    = inl Py.ZeroDivisionError.
Proof.
  split; [|by vm_compute].
  eexists. split; [by vm_compute|]. done.
Qed.

(** ** Further instances *)

Lemma analyze_locations_top_n_witness :
  let stats := analyze_locations Example.found 1 in
  length (street_counts stats)
    = 1 `min` length (distinct_values street_name Example.found) ∧
  length (zip_counts stats)
    = 1 `min` length (distinct_values incident_zip Example.found).
Proof. apply (analyze_locations_top_n Example.found 1). lia. Defined.

Lemma preprocess_dataframe_columns_witness :
  ∃ df',
    preprocess_dataframe Example.float_repr Example.STOP_WORDS
      Example.complaints "combined_text" = inr df' ∧
    Pd.nrows df' = 4 ∧ frame_ok df' ∧
    Pd.getitem df' "preprocessed_text"
      = inr (map (λ c, CStr (preprocess_text Example.float_repr
                               Example.STOP_WORDS c))
               [CStr "Noise - Residential"; CStr "Noise - Residential";
                CStr "Noise - Street"; CStr "Noise - Street"]) ∧
    ∀ name, name ≠ "preprocessed_text" →
            Pd.getitem df' name = Pd.getitem Example.complaints name.
Proof.
  apply (preprocess_dataframe_columns Example.float_repr Example.STOP_WORDS
           Example.complaints "combined_text").
  repeat constructor.
Defined.

Lemma cluster_assignments_round_trip_witness :
  ∃ path w1,
    save_cluster_assignments Z Example.complaints [0; 0; 1; 1]%Z None
      empty_world = (inr path, w1) ∧
    load_cluster_assignments Z Pd.reread_integers None w1
      = (inr (Example.complaints, map CInt [0; 0; 1; 1]%Z), w1).
Proof.
  apply (cluster_assignments_round_trip Z Pd.reread_integers Example.complaints
           [0; 0; 1; 1]%Z None empty_world).
  - reflexivity.
  - reflexivity.
  - intros df_output [= <-]. reflexivity.
Defined.

Lemma models_round_trip_witness :
  ∃ paths w1,
    save_models Z Example.vectorizer Example.projector None empty_world
      = (inr paths, w1) ∧
    load_models Z w1
      = (inr (PVectorizer Example.vectorizer, PSvd Example.projector, None), w1).
Proof.
  apply (models_round_trip Z Example.vectorizer Example.projector None
           empty_world).
  intros _. reflexivity.
Defined.

Lemma main_writes_only_outputs_witness :
  fs Z (run_main default_config (world_with Example.complaints)).2
    !! "dataset.csv"
  = fs Z (world_with Example.complaints) !! "dataset.csv".
Proof.
  apply (main_writes_only_outputs Example.ln Example.sqrt Example.float_repr
           Example.STOP_WORDS Np.argsort Z Example.RandomState
           Example.TruncatedSVD_fit_transform Example.KMeans_fit_predict
           Example.load_data Example.reduce_to_2d Example.render_plot
           Example.render_html default_config (world_with Example.complaints)
           "dataset.csv").
  apply (bool_decide_unpack _). by vm_compute.
Defined.

Lemma main_stores_search_bundle_witness :
  let cfg := mkConfig "dataset.csv" 150 1 5000 2 (Some 42%Z) in
  let w' := (run_main cfg (world_with Example.complaints)).2 in
  ∃ vec lsi vectors df,
    fs Z w' !! Py.path_join MODELS_DIR "models.pkl"
      = Some (FPickle (PLegacy vec lsi vectors df)) ∧
    load_all_for_search Z Pd.reread_integers w'
      = (inr (PVectorizer vec, PSvd lsi, vectors, Pd.reread_integers df), w') ∧
    search_interactive_load_models Z w'
      = (inr (Some (vec, lsi, vectors, df)), w').
Proof.
  intros cfg w'.
  apply (main_stores_search_bundle Example.ln Example.sqrt Example.float_repr
           Example.STOP_WORDS Np.argsort Z Example.RandomState
           Example.TruncatedSVD_fit_transform Example.KMeans_fit_predict
           Pd.reread_integers Example.load_data Example.reduce_to_2d
           Example.render_plot Example.render_html cfg
           (world_with Example.complaints) w').
  - eexists. by vm_compute.
  - by vm_compute.
Defined.

Lemma main_without_dataset_witness :
  ∃ w',
    run_main default_config empty_world = (inr tt, w') ∧
    fs Z w' = ∅ ∧ heap Z w' = ∅ ∧ np_random Z w' = 0%Z ∧
    stdout Z w'
      = ["[Step 1] Loading data..."; "Error: CSV file 'dataset.csv' not found!"].
Proof.
  apply (main_without_dataset Example.ln Example.sqrt Example.float_repr
           Example.STOP_WORDS Np.argsort Z Example.RandomState
           Example.TruncatedSVD_fit_transform Example.KMeans_fit_predict
           Example.load_data Example.reduce_to_2d Example.render_plot
           Example.render_html default_config empty_world).
  reflexivity.
Defined.

Lemma find_similar_incidents_count_witness :
  ∃ results,
    search (CStr "noise") Example.vectorizer Example.projector Example.latent
      Example.incidents (-1) = inr results ∧
    length results = 2.
Proof.
  apply (find_similar_incidents_count Example.sqrt Example.float_repr
           Example.STOP_WORDS Np.argsort stable_argsort_sorts (CStr "noise")
           _ _ _ _ 3 (-1) example_stored).
Defined.

Lemma find_similar_incidents_best_witness :
  ∃ sims results,
    similarities Example.sqrt Example.float_repr Example.STOP_WORDS
      (CStr "noise") Example.vectorizer Example.projector Example.latent
      = inr sims ∧
    length sims = 3 ∧
    search (CStr "noise") Example.vectorizer Example.projector Example.latent
      Example.incidents 2 = inr results ∧
    NoDup (index <$> results) ∧
    Forall (λ r, index r < 3 ∧ similarity r = nth (index r) sims 0%Q) results ∧
    ∀ r j, r ∈ results → j < 3 → j ∉ index <$> results →
           (nth j sims 0 <= similarity r)%Q.
Proof.
  apply (find_similar_incidents_best Example.sqrt Example.float_repr
           Example.STOP_WORDS Np.argsort stable_argsort_sorts (CStr "noise")
           _ _ _ _ 3 2 example_stored).
Defined.

Lemma fit_vocabulary_limits_witness :
  ∃ X vec,
    vectorize_texts Example.ln Example.sqrt Np.argsort
      ["noise"; "noise street"; "parking"] None 1 1 = inr (X, vec) ∧
    let docs := map Tfidf.analyze ["noise"; "noise street"; "parking"] in
    ∃ V,
      vocabulary_ vec = Some V ∧
      0 < size V ∧ (Z.of_nat (size V) ≤ 1)%Z ∧
      csr_shape X = (3, size V) ∧
      length (csr_rows X) = 3 ∧
      (∀ t, is_Some (V !! t) → (1 ≤ Z.of_nat (Tfidf.doc_freq docs t))%Z) ∧
      (∀ t t', is_Some (V !! t) → V !! t' = None →
               (1 ≤ Z.of_nat (Tfidf.doc_freq docs t'))%Z →
               Tfidf.term_freq docs t' ≤ Tfidf.term_freq docs t).
Proof.
  eexists _, _. split; [by vm_compute|].
  eapply (fit_vocabulary_limits Example.ln Example.sqrt Np.argsort
           stable_argsort_sorts ["noise"; "noise street"; "parking"] 1 1).
  by vm_compute.
Defined.

Lemma fit_feature_order_witness :
  ∃ X vec,
    vectorize_texts Example.ln Example.sqrt Np.argsort
      ["parking"; "noise"; "noise street"] None 5000 1 = inr (X, vec) ∧
    ∃ V names,
      vocabulary_ vec = Some V ∧
      get_feature_names_out vec = inr names ∧
      length names = size V ∧
      (∀ j t, names !! j = Some t ↔ V !! t = Some j) ∧
      StronglySorted (λ s t, String.ltb s t = true) names.
Proof.
  eexists _, _. split; [by vm_compute|].
  eapply (fit_feature_order Example.ln Example.sqrt Np.argsort
           ["parking"; "noise"; "noise street"] 5000 1).
  by vm_compute.
Defined.

Lemma example_cluster_inputs labels :
  length labels = 3 →
  cluster_inputs Z (objects labels) 2 1 3 Example.tfidf labels
    Example.vectorizer (Tfidf.make_vocabulary ["noise"; "parking"]).
Proof.
  intros Hlen. by constructor.
Qed.

Lemma get_cluster_top_terms_returns_witness :
  ∃ terms names scores columns,
    get_cluster_top_terms Np.argsort Z 2 1 3 0 10 (objects [0; 0; 1]%Z)
      = (inr terms, objects [0; 0; 1]%Z) ∧
    get_feature_names_out Example.vectorizer = inr names ∧
    La.mean_axis0 2
      (Np.compress (map (λ l, (l =? 0)%Z) [0; 0; 1]%Z) (csr_rows Example.tfidf))
      = inr scores ∧
    Forall2 (λ column term,
               names !! column = Some term.1 ∧ scores !! column = Some term.2)
      columns terms ∧
    NoDup columns ∧
    (∀ i j, i ∈ columns → j < 2 → j ∉ columns →
            (nth j scores 0 <= nth i scores 0)%Q) ∧
    Forall (λ term, term.1 ∈ names) terms ∧
    StronglySorted (λ a b, (b.2 <= a.2)%Q) terms ∧
    length terms = 2.
Proof.
  apply (get_cluster_top_terms_returns Np.argsort Z stable_argsort_sorts 2 1 3
           0%Z 10 (objects [0; 0; 1]%Z) Example.tfidf [0; 0; 1]%Z
           Example.vectorizer (Tfidf.make_vocabulary ["noise"; "parking"])).
  - by apply example_cluster_inputs.
  - apply (bool_decide_unpack _). by vm_compute.
Defined.

Lemma get_cluster_top_terms_no_member_witness :
  get_cluster_top_terms Np.argsort Z 2 1 3 1 10 (objects [0; 2; 2]%Z)
    = (inl Py.ZeroDivisionError, objects [0; 2; 2]%Z).
Proof.
  apply (get_cluster_top_terms_no_member Np.argsort Z 2 1 3 1%Z 10
           (objects [0; 2; 2]%Z) Example.tfidf [0; 2; 2]%Z).
  - reflexivity.
  - reflexivity.
  - reflexivity.
  - apply (bool_decide_unpack _). by vm_compute.
Defined.

Lemma analyze_clusters_report_witness :
  ∃ report w',
    analyze_clusters Np.argsort Z 0 1 2 3 10 1 (objects [0; 0; 1]%Z)
      = (inr report, w') ∧
    report.*1 = [0; 1] ∧
    Forall (λ entry,
              cluster_size entry.2
                = length (filter (λ l, l = Z.of_nat entry.1) [0; 0; 1]%Z) ∧
              length (cluster_examples entry.2)
                = length (Py.slice_to (seq 0 (cluster_size entry.2)) 1))
      report ∧
    sum_list (cluster_size <$> report.*2) = 3.
Proof.
  apply (analyze_clusters_report Np.argsort Z stable_argsort_sorts 0 1 2 3 10 1
           (objects [0; 0; 1]%Z) Example.incidents Example.tfidf [0; 0; 1]%Z
           Example.vectorizer (Tfidf.make_vocabulary ["noise"; "parking"])).
  - reflexivity.
  - by apply example_cluster_inputs.
  - repeat constructor.
  - reflexivity.
  - repeat constructor.
  - intros cluster_id Hid. apply (bool_decide_unpack _).
    destruct cluster_id as [|[|?]]; [by vm_compute..|].
    vm_compute in Hid. lia.
Defined.

Lemma transform_row_support_witness :
  ∃ X row,
    vectorize_texts Example.ln Example.sqrt Np.argsort ["noise graffiti"]
      (Some Example.vectorizer) 5000 1 = inr (X, Example.vectorizer) ∧
    csr_rows X = [row] ∧
    ∀ j, j ∈ dom row
         ↔ ∃ term, term ∈ Tfidf.analyze "noise graffiti" ∧
                   Tfidf.make_vocabulary ["noise"; "parking"] !! term = Some j.
Proof.
  apply (transform_row_support Example.ln Example.sqrt Np.argsort
           Example.vectorizer (Tfidf.make_vocabulary ["noise"; "parking"])
           "noise graffiti" 5000 1).
  reflexivity.
Defined.

Lemma search_locations_counted_witness :
  ∃ results,
    search (CStr "noise") Example.vectorizer Example.projector Example.latent
      Example.incidents 3 = inr results ∧
    let stats := analyze_locations results 10 in
    let rows name key :=
      length (filter (λ r, cell_text Example.float_repr Example.incidents
                             (index r) name = Some key) results) in
    (∀ key n, (key, n) ∈ borough_counts stats
              ↔ key ≠ "" ∧ 0 < n ∧ n = rows "Borough" key) ∧
    (∀ key n, (key, n) ∈ street_counts stats → n = rows "Street Name" key) ∧
    (∀ key n, (key, n) ∈ zip_counts stats → n = rows "Incident Zip" key).
Proof.
  eexists. split; [by vm_compute|].
  eapply (search_locations_counted Example.sqrt Example.float_repr
            Example.STOP_WORDS Np.argsort (CStr "noise") Example.vectorizer
            Example.projector Example.latent Example.incidents 3 10).
  by vm_compute.
Defined.

Lemma embeddings_round_trip_witness :
  (∃ w1,
     save_lsi_vectors Z Example.latent (Some "vectors.npy") empty_world
       = (inr "vectors.npy", w1) ∧
     load_lsi_vectors Z (Some "vectors.npy") w1 = (inr Example.latent, w1)) ∧
  (∃ w1,
     save_lsi_vectors Z Example.latent (Some "vectors.bin") empty_world
       = (inr "vectors.bin", w1) ∧
     load_lsi_vectors Z (Some "vectors.bin") w1
       = (inl (Py.FileNotFoundError "vectors.bin"), w1) ∧
     load_lsi_vectors Z (Some "vectors.bin.npy") w1 = (inr Example.latent, w1)) ∧
  (∃ w1,
     save_tfidf_vectors Z Example.tfidf (Some "matrix.npz") empty_world
       = (inr "matrix.npz", w1) ∧
     load_tfidf_vectors Z (Some "matrix.npz") w1 = (inr Example.tfidf, w1)) ∧
  (∃ w1,
     save_tfidf_vectors Z Example.tfidf (Some "matrix") empty_world
       = (inr "matrix", w1) ∧
     load_tfidf_vectors Z (Some "matrix") w1
       = (inl (Py.FileNotFoundError "matrix"), w1) ∧
     load_tfidf_vectors Z (Some "matrix.npz") w1 = (inr Example.tfidf, w1)).
Proof.
  split_and!.
  - by apply (embeddings_round_trip Z Example.tfidf Example.latent "vectors.npy"
                empty_world).
  - by apply (embeddings_round_trip Z Example.tfidf Example.latent "vectors.bin"
                empty_world).
  - by apply (embeddings_round_trip Z Example.tfidf Example.latent "matrix.npz"
                empty_world).
  - by apply (embeddings_round_trip Z Example.tfidf Example.latent "matrix"
                empty_world).
Defined.
